(** * agentic-oracle: the rate-limited client, the normalizers and the
      tolerant extraction of structured records, embedded from the Python
      sources [tools/fmp_tool.py], [tools/helper_functions.py],
      [judge/investment_judge.py] and [analysis.py].

    Conventions of the embedding.
    - A Python value is a term of [value]; a [dict] with string keys is a
      [gmap string value], so that two dicts are equal exactly when they
      hold the same items, as [==] on Python dicts.
    - Text is [string]: a sequence of characters with code points below
      256.  [str.upper] is modelled on the ASCII letters.
    - Time stamps ([time.time()]) are rationals: the arithmetic of the
      limiter is read exactly, without rounding.
    - A function that may raise returns a [result]; an exception is the
      class name and the message of a Python [Exception].  Exceptions
      outside that class (an interrupt) and the limits of the
      interpreter (recursion depth, memory) are not modelled.
    - The network, the clock, the language-model framework and the
      builtins [json.loads], [json.dumps] and [str] are not part of the
      repository.  The first group enters as parameters of each call.
      The functions that use [json.loads] or [str] take them as
      parameters too; a reference decoder [json_loads] and a reference
      serializer [json_dumps], proved inverse to each other, stand for the
      library at concrete inputs and in the round trip. *)

From Stdlib Require Import Ascii String ZArith QArith Lqa List Lia Bool Sorted.
From stdpp Require Import gmap strings list fin_maps pretty.

#[local] Set Warnings "-register-all".
#[local] Open Scope string_scope.

(** ** Python values *)

Inductive value : Type :=
| VNone
| VBool (b : bool)
| VInt (z : Z)
| VFloat (q : Q)
| VStr (s : string)
| VList (l : list value)
| VDict (d : gmap string value).

Abbreviation dict := (gmap string value).

(** An [Exception] instance: its class and [str(e)]. *)
Inductive exn : Type :=
| Exn (cls : string) (msg : string).

Definition exn_msg (e : exn) : string :=
  match e with Exn _ m => m end.

Inductive result (A : Type) : Type :=
| Ok (a : A)
| Raise (e : exn).

Arguments Ok {A} a.
Arguments Raise {A} e.

Definition is_ok {A} (r : result A) : bool :=
  match r with Ok _ => true | Raise _ => false end.

#[global] Instance result_ret : MRet result := fun A a => Ok a.

#[global] Instance result_bind : MBind result := fun A B k r =>
  match r with
  | Ok a => k a
  | Raise e => Raise e
  end.

(** [try: body except Exception as e: handler(e)] *)
Definition try_except {A} (body : result A) (handler : exn -> result A) : result A :=
  match body with
  | Ok a => Ok a
  | Raise e => handler e
  end.

(** [bool(v)]: the truth value Python gives to [v]. *)
Definition truthy (v : value) : bool :=
  match v with
  | VNone => false
  | VBool b => b
  | VInt z => negb (z =? 0)%Z
  | VFloat q => negb (Qeq_bool q 0)
  | VStr s => negb (String.eqb s "")
  | VList l => match l with [] => false | _ :: _ => true end
  | VDict d => negb (Nat.eqb (size d) 0)
  end.

(** [x or y] *)
Definition py_or (x y : value) : value :=
  if truthy x then x else y.

(** [type(v).__name__] *)
Definition type_name (v : value) : string :=
  match v with
  | VNone => "NoneType"
  | VBool _ => "bool"
  | VInt _ => "int"
  | VFloat _ => "float"
  | VStr _ => "str"
  | VList _ => "list"
  | VDict _ => "dict"
  end.

Definition is_dict (v : value) : bool :=
  match v with VDict _ => true | _ => false end.

(** [d.get(k)] and [d.get(k, dflt)] on a dict. *)
Definition dict_get (d : dict) (k : string) : value :=
  default VNone (d !! k).

Definition dict_get_or (d : dict) (k : string) (dflt : value) : value :=
  default dflt (d !! k).

(** [k in d] *)
Definition dict_has (d : dict) (k : string) : bool :=
  bool_decide (is_Some (d !! k)).

(** [v.get(k, dflt)] on an arbitrary value: only a dict has [get]. *)
Definition attr_get (v : value) (k : string) (dflt : value) : result value :=
  match v with
  | VDict d => Ok (dict_get_or d k dflt)
  | _ => Raise (Exn "AttributeError"
                  ("'" ++ type_name v ++ "' object has no attribute 'get'"))
  end.

(** [isinstance(v, dict) and "error" in v] *)
Definition has_error (v : value) : bool :=
  match v with
  | VDict d => dict_has d "error"
  | _ => false
  end.

(** ** Text *)

Definition dquote : ascii := "034"%char.
Definition squote : ascii := "'"%char.

(** [str.replace] of every single quote by a double quote. *)
Fixpoint replace_quotes (s : string) : string :=
  match s with
  | EmptyString => EmptyString
  | String c s' =>
      String (if Ascii.eqb c squote then dquote else c) (replace_quotes s')
  end.

(** Characters [str.strip()] removes: the code points below 256 for
    which [str.isspace] holds. *)
Definition is_space (c : ascii) : bool :=
  let n := nat_of_ascii c in
  ((9 <=? n)%nat && (n <=? 13)%nat) || ((28 <=? n)%nat && (n <=? 32)%nat)
  || (n =? 133)%nat || (n =? 160)%nat.

Fixpoint lstrip (s : string) : string :=
  match s with
  | EmptyString => EmptyString
  | String c s' => if is_space c then lstrip s' else s
  end.

Fixpoint rstrip (s : string) : string :=
  match s with
  | EmptyString => EmptyString
  | String c s' =>
      match rstrip s' with
      | EmptyString => if is_space c then EmptyString else String c EmptyString
      | r => String c r
      end
  end.

Definition strip (s : string) : string := rstrip (lstrip s).

Definition upper_char (c : ascii) : ascii :=
  let n := nat_of_ascii c in
  if ((97 <=? n)%nat && (n <=? 122)%nat) then ascii_of_nat (n - 32) else c.

Fixpoint upper (s : string) : string :=
  match s with
  | EmptyString => EmptyString
  | String c s' => String (upper_char c) (upper s')
  end.

(** [re.search(r'\{.*\}', text, re.DOTALL)]: the match, when there is one,
    runs from the first opening brace to the last closing brace. *)
Fixpoint from_first_open (s : string) : option string :=
  match s with
  | EmptyString => None
  | String c s' => if Ascii.eqb c "{" then Some s else from_first_open s'
  end.

Fixpoint to_last_close (s : string) : option string :=
  match s with
  | EmptyString => None
  | String c s' =>
      match to_last_close s' with
      | Some p => Some (String c p)
      | None => if Ascii.eqb c "}" then Some (String c EmptyString) else None
      end
  end.

Definition search_braces (text : string) : option string :=
  match from_first_open text with
  | None => None
  | Some suffix => to_last_close suffix
  end.

(** ** Reference JSON decoder

    [json.loads] belongs to the Python library.  The development takes it
    as a parameter [loads : string -> option value], where [None] stands
    for [JSONDecodeError].  The decoder below follows the library's
    scanner on 8-bit text and is the instance used at concrete inputs.  The
    constants NaN and Infinity and escapes above code point 255 have no
    value in this model and are outside its domain. *)

Inductive parse (A : Type) : Type :=
| Parsed (a : A) (rest : string)
| Malformed
| Exhausted.

Arguments Parsed {A} a rest.
Arguments Malformed {A}.
Arguments Exhausted {A}.

Definition is_json_ws (c : ascii) : bool :=
  Ascii.eqb c " " || Ascii.eqb c "009" || Ascii.eqb c "010" || Ascii.eqb c "013".

Fixpoint skip_ws (s : string) : string :=
  match s with
  | String c s' => if is_json_ws c then skip_ws s' else s
  | EmptyString => EmptyString
  end.

Fixpoint strip_prefix (p s : string) : option string :=
  match p, s with
  | EmptyString, _ => Some s
  | String a p', String b s' => if Ascii.eqb a b then strip_prefix p' s' else None
  | String _ _, EmptyString => None
  end.

Definition digit_of (c : ascii) : option Z :=
  let n := nat_of_ascii c in
  if ((48 <=? n)%nat && (n <=? 57)%nat) then Some (Z.of_nat (n - 48)) else None.

Definition hex_of (c : ascii) : option nat :=
  let n := nat_of_ascii c in
  if ((48 <=? n)%nat && (n <=? 57)%nat) then Some (n - 48)%nat
  else if ((97 <=? n)%nat && (n <=? 102)%nat) then Some (n - 87)%nat
  else if ((65 <=? n)%nat && (n <=? 70)%nat) then Some (n - 55)%nat
  else None.

(** Reads a run of decimal digits: the number read so far, how many digits
    were read, and the text left. *)
Fixpoint read_digits (acc : Z) (count : nat) (s : string) : Z * nat * string :=
  match s with
  | String c s' =>
      match digit_of c with
      | Some d => read_digits (10 * acc + d)%Z (S count) s'
      | None => (acc, count, s)
      end
  | EmptyString => (acc, count, s)
  end.

(** The integer part: a single 0, or a digit 1-9 followed by digits. *)
Definition read_int_part (s : string) : option (Z * string) :=
  match s with
  | String c s' =>
      match digit_of c with
      | Some 0%Z => Some (0%Z, s')
      | Some d => let '(n, _, r) := read_digits d 1 s' in Some (n, r)
      | None => None
      end
  | EmptyString => None
  end.

(** [starts_with c s]: the text after [c], when [s] starts with [c]. *)
Definition starts_with (c : ascii) (s : string) : option string :=
  match s with
  | String c1 rest => if Ascii.eqb c1 c then Some rest else None
  | EmptyString => None
  end.

(** The fraction, present only when a dot is followed by a digit. *)
Definition read_frac (s : string) : option (Z * nat * string) :=
  match starts_with "." s with
  | Some s' =>
      match read_digits 0 0 s' with
      | (_, O, _) => None
      | r => Some r
      end
  | None => None
  end.

(** The exponent, present only when complete. *)
Definition read_exp (s : string) : option (Z * string) :=
  match s with
  | String c s' =>
      if Ascii.eqb c "e" || Ascii.eqb c "E" then
        let '(neg, s'') :=
          match starts_with "-" s', starts_with "+" s' with
          | Some t, _ => (true, t)
          | None, Some t => (false, t)
          | None, None => (false, s')
          end in
        match read_digits 0 0 s'' with
        | (_, O, _) => None
        | (e, _, r) => Some (if neg then (- e)%Z else e, r)
        end
      else None
  | EmptyString => None
  end.

(** [mant * 10 ^ scale] as a rational. *)
Definition decimal (mant scale : Z) : Q :=
  if (0 <=? scale)%Z then inject_Z (mant * 10 ^ scale)
  else Qmake mant (Z.to_pos (10 ^ (- scale))).

Definition read_number (s : string) : option (value * string) :=
  let '(neg, s1) :=
    match starts_with "-" s with
    | Some t => (true, t)
    | None => (false, s)
    end in
  match read_int_part s1 with
  | None => None
  | Some (n, s2) =>
      let sign (z : Z) := if neg then (- z)%Z else z in
      match read_frac s2, read_exp s2 with
      | None, None => Some (VInt (sign n), s2)
      | None, Some (e, s3) => Some (VFloat (decimal (sign n) e), s3)
      | Some (f, k, s3), _ =>
          let mant := sign (n * 10 ^ Z.of_nat k + f)%Z in
          match read_exp s3 with
          | None => Some (VFloat (decimal mant (- Z.of_nat k)), s3)
          | Some (e, s4) => Some (VFloat (decimal mant (e - Z.of_nat k)), s4)
          end
      end
  end.

(** One escape, after its backslash: the character it stands for and the
    text after it. *)
Definition read_escape (s : string) : option (ascii * string) :=
  match s with
  | String e rest =>
      if Ascii.eqb e dquote then Some (dquote, rest)
      else if Ascii.eqb e "\" then Some ("\"%char, rest)
      else if Ascii.eqb e "/" then Some ("/"%char, rest)
      else if Ascii.eqb e "b" then Some ("008"%char, rest)
      else if Ascii.eqb e "f" then Some ("012"%char, rest)
      else if Ascii.eqb e "n" then Some ("010"%char, rest)
      else if Ascii.eqb e "r" then Some ("013"%char, rest)
      else if Ascii.eqb e "t" then Some ("009"%char, rest)
      else if Ascii.eqb e "u" then
        match rest with
        | String h1 (String h2 (String h3 (String h4 rest4))) =>
            match hex_of h1, hex_of h2, hex_of h3, hex_of h4 with
            | Some 0%nat, Some 0%nat, Some a, Some b =>
                Some (ascii_of_nat (16 * a + b), rest4)
            | _, _, _, _ => None
            end
        | _ => None
        end
      else None
  | EmptyString => None
  end.

(** The body of a string literal, after its opening quote: the decoded
    text and what follows the closing quote.  The fuel is the length of
    the text, of which every step takes at least one character. *)
Fixpoint read_string_body (fuel : nat) (s : string) : option (string * string) :=
  match fuel with
  | O => None
  | S fuel' =>
      match s with
      | EmptyString => None
      | String c s' =>
          if Ascii.eqb c dquote then Some (EmptyString, s')
          else if Ascii.eqb c "\" then
            match read_escape s' with
            | Some (ch, rest) =>
                match read_string_body fuel' rest with
                | Some (t, rest') => Some (String ch t, rest')
                | None => None
                end
            | None => None
            end
          else if (nat_of_ascii c <? 32)%nat then None
          else
            match read_string_body fuel' s' with
            | Some (t, rest') => Some (String c t, rest')
            | None => None
            end
      end
  end.

Definition read_string (s : string) : option (string * string) :=
  read_string_body (String.length s) s.

Fixpoint parse_value (fuel : nat) (s : string) : parse value :=
  match fuel with
  | O => Exhausted
  | S fuel' =>
      match s with
      | EmptyString => Malformed
      | String c s' =>
          if Ascii.eqb c dquote then
            match read_string s' with
            | Some (t, rest) => Parsed (VStr t) rest
            | None => Malformed
            end
          else if Ascii.eqb c "{" then
            match starts_with "}" (skip_ws s') with
            | Some rest => Parsed (VDict ∅) rest
            | None => parse_members fuel' (skip_ws s') ∅
            end
          else if Ascii.eqb c "[" then
            match starts_with "]" (skip_ws s') with
            | Some rest => Parsed (VList []) rest
            | None => parse_elements fuel' (skip_ws s') []
            end
          else
            match strip_prefix "null" s, strip_prefix "true" s,
                  strip_prefix "false" s with
            | Some rest, _, _ => Parsed VNone rest
            | None, Some rest, _ => Parsed (VBool true) rest
            | None, None, Some rest => Parsed (VBool false) rest
            | None, None, None =>
                match read_number s with
                | Some (v, rest) => Parsed v rest
                | None => Malformed
                end
            end
      end
  end

with parse_elements (fuel : nat) (s : string) (acc : list value) : parse value :=
  match fuel with
  | O => Exhausted
  | S fuel' =>
      match parse_value fuel' s with
      | Parsed v rest =>
          match starts_with "," (skip_ws rest), starts_with "]" (skip_ws rest) with
          | Some rest', _ => parse_elements fuel' (skip_ws rest') (acc ++ [v])
          | None, Some rest' => Parsed (VList (acc ++ [v])) rest'
          | None, None => Malformed
          end
      | Malformed => Malformed
      | Exhausted => Exhausted
      end
  end

with parse_members (fuel : nat) (s : string) (acc : dict) : parse value :=
  match fuel with
  | O => Exhausted
  | S fuel' =>
      match starts_with dquote s with
      | Some s' =>
          match read_string s' with
          | Some (key, rest) =>
              match starts_with ":" (skip_ws rest) with
              | Some rest' =>
                  match parse_value fuel' (skip_ws rest') with
                  | Parsed v rest'' =>
                      match starts_with "," (skip_ws rest''),
                            starts_with "}" (skip_ws rest'') with
                      | Some rest3, _ =>
                          parse_members fuel' (skip_ws rest3) (<[key := v]> acc)
                      | None, Some rest3 =>
                          Parsed (VDict (<[key := v]> acc)) rest3
                      | None, None => Malformed
                      end
                  | Malformed => Malformed
                  | Exhausted => Exhausted
                  end
              | None => Malformed
              end
          | None => Malformed
          end
      | None => Malformed
      end
  end.

(** [json.loads(text)]: one value, surrounded by optional whitespace. *)
Definition json_decode (text : string) : parse value :=
  match parse_value (2 * String.length text + 1) (skip_ws text) with
  | Parsed v rest =>
      match skip_ws rest with
      | EmptyString => Parsed v EmptyString
      | _ => Malformed
      end
  | other => other
  end.

Definition json_loads (text : string) : option value :=
  match json_decode text with
  | Parsed v _ => Some v
  | _ => None
  end.

(** Test inputs are written with single quotes and read with double ones. *)
Definition dq (s : string) : string := replace_quotes s.

(** ** Reference JSON serializer and [str]

    [json.dumps] with its default separators and ASCII escapes.  A float
    is a rational here, and the serializer writes it when it is a decimal
    fraction [m / 10 ^ k] with [k >= 1], as the decoder builds it and as a
    decimal literal such as [28.5] denotes it: sign, integer part, a dot
    and the [k] fraction digits, without exponent.  On another fraction
    it gives [None]; [canon] below brings every fraction that has a
    finite expansion to this form.  The items of a dict are written in
    the order of [map_to_list]. *)

Definition hex_digit (n : nat) : ascii :=
  if (n <? 10)%nat then ascii_of_nat (48 + n) else ascii_of_nat (87 + n).

Definition escape_char (c : ascii) : string :=
  let n := nat_of_ascii c in
  if Ascii.eqb c dquote then String "\" (String dquote EmptyString)
  else if Ascii.eqb c "\" then "\\"
  else if Ascii.eqb c "008" then "\b"
  else if Ascii.eqb c "012" then "\f"
  else if Ascii.eqb c "010" then "\n"
  else if Ascii.eqb c "013" then "\r"
  else if Ascii.eqb c "009" then "\t"
  else if ((n <? 32)%nat || (126 <? n)%nat) then
    "\u00" ++ String (hex_digit (n / 16)) (String (hex_digit (n mod 16)) EmptyString)
  else String c EmptyString.

Fixpoint escape (s : string) : string :=
  match s with
  | EmptyString => EmptyString
  | String c s' => escape_char c ++ escape s'
  end.

Definition quoted (s : string) : string :=
  String dquote (escape s ++ String dquote EmptyString).

Fixpoint join (sep : string) (parts : list string) : string :=
  match parts with
  | [] => EmptyString
  | [x] => x
  | x :: rest => x ++ sep ++ join sep rest
  end.

Definition dump_item (kv : string * option string) : option string :=
  match kv.2 with
  | Some t => Some (quoted kv.1 ++ ": " ++ t)
  | None => None
  end.

(** The number of fraction digits of a decimal fraction: the [k], at
    least one, with [den = 10 ^ k]. *)
Fixpoint find_scale (fuel k : nat) (den : positive) : option nat :=
  match fuel with
  | O => None
  | S fuel' =>
      if Pos.eqb (Z.to_pos (10 ^ Z.of_nat k)) den then Some k
      else find_scale fuel' (S k) den
  end.

Definition scale_of (den : positive) : option nat :=
  find_scale (Pos.size_nat den) 1 den.

(** The [k] last decimal digits of [f], before [s]. *)
Fixpoint fixed_go (k : nat) (f : Z) (s : string) : string :=
  match k with
  | O => s
  | S k' =>
      fixed_go k' (f / 10) (String (pretty_N_char (Z.to_N (f mod 10))) s)
  end.

(** A float that is a decimal fraction [m / 10 ^ k] is written with its
    [k] fraction digits. *)
Definition dump_float (q : Q) : option string :=
  match scale_of (Qden q) with
  | Some k =>
      let m := Z.abs (Qnum q) in
      let p := (10 ^ Z.of_nat k)%Z in
      Some ((if (Qnum q <? 0)%Z then "-" else "")
            ++ pretty (Z.to_N (m / p)) ++ "." ++ fixed_go k (m mod p) "")
  | None => None
  end.

Fixpoint json_dumps (v : value) : option string :=
  match v with
  | VNone => Some "null"
  | VBool true => Some "true"
  | VBool false => Some "false"
  | VInt z => Some (pretty z)
  | VFloat q => dump_float q
  | VStr s => Some (quoted s)
  | VList l =>
      match mapM json_dumps l with
      | Some parts => Some ("[" ++ join ", " parts ++ "]")
      | None => None
      end
  | VDict d =>
      match mapM dump_item (map_to_list (json_dumps <$> d)) with
      | Some items => Some ("{" ++ join ", " items ++ "}")
      | None => None
      end
  end.

(** [str(v)] on text and on the scalar constants; the development formats
    nothing else at its concrete inputs, and a container or a float is
    shown by the name of its type. *)
Definition str_of (v : value) : string :=
  match v with
  | VStr s => s
  | VNone => "None"
  | VBool true => "True"
  | VBool false => "False"
  | VInt z => pretty z
  | other => "<" ++ type_name other ++ ">"
  end.

(** The text after a value in a serialization: nothing, or a comma or a
    closing bracket. *)
Definition delimits (rest : string) : bool :=
  match rest with
  | EmptyString => true
  | String c _ => Ascii.eqb c "," || Ascii.eqb c "]" || Ascii.eqb c "}"
  end.

(** A measure of a value that decreases into its elements. *)
Fixpoint vsize (v : value) : nat :=
  match v with
  | VList l => S (foldr (fun x acc => vsize x + acc)%nat 0%nat l)
  | VDict d => S (map_fold (fun _ x acc => vsize x + acc)%nat 0%nat d)
  | _ => 1%nat
  end.

(** The characters a serialized value can start with: no whitespace and
    no delimiter. *)
Definition opens_value (c : ascii) : bool :=
  negb (is_json_ws c) && negb (Ascii.eqb c ",") && negb (Ascii.eqb c "]")
  && negb (Ascii.eqb c "}") && negb (Ascii.eqb c ":").

(** [v], once written, is read back with fuel for its own text, whatever
    delimiter follows. *)
Definition reads_back (v : value) : Prop :=
  forall text, json_dumps v = Some text ->
  forall fuel rest,
    (2 * String.length text < fuel)%nat ->
    delimits rest = true ->
    parse_value fuel (text ++ rest) = Parsed v rest.

(** ** Floats by their value *)

(** The least number of fraction digits, at least one, with which a
    fraction of denominator [den] can be written; [None] when no power
    of ten up to the size of [den] is a multiple of it, in which case
    the fraction, in lowest terms, has no finite expansion. *)
Fixpoint least_scale (fuel k : nat) (den : positive) : option nat :=
  match fuel with
  | O => None
  | S fuel' =>
      if (10 ^ Z.of_nat k mod Z.pos den =? 0)%Z then Some k
      else least_scale fuel' (S k) den
  end.

(** A float as [json.dumps] sees it, by its value: the decimal fraction
    equal to [q] with the least number of fraction digits.  A fraction
    without a finite expansion, which is the value of no float, is left
    as it is. *)
Definition decimal_fraction (q : Q) : Q :=
  let r := Qred q in
  match least_scale (Pos.size_nat (Qden r)) 1 (Qden r) with
  | Some k =>
      Qmake (Qnum r * (10 ^ Z.of_nat k / Z.pos (Qden r)))
        (Z.to_pos (10 ^ Z.of_nat k))
  | None => q
  end.

Fixpoint canon (v : value) : value :=
  match v with
  | VFloat q => VFloat (decimal_fraction q)
  | VList l => VList (canon <$> l)
  | VDict d => VDict (canon <$> d)
  | other => other
  end.

(** Every float as its fraction in lowest terms. *)
Fixpoint lowest_terms (v : value) : value :=
  match v with
  | VFloat q => VFloat (Qred q)
  | VList l => VList (lowest_terms <$> l)
  | VDict d => VDict (lowest_terms <$> d)
  | other => other
  end.

(** [v == w] when the floats are compared by their value: the two values
    are the same once every float is written in lowest terms. *)
Definition same_value (v w : value) : Prop :=
  lowest_terms v = lowest_terms w.

(** The value of [q] has a finite decimal expansion: its denominator in
    lowest terms divides a power of ten.  Every float has one, its
    denominator being a power of two. *)
Definition finite_expansion (q : Q) : Prop :=
  exists n : nat, (Z.pos (Qden (Qred q)) | 10 ^ Z.of_nat n)%Z.

(** Every float in [v] has a finite decimal expansion. *)
Fixpoint finite_floats (v : value) : Prop :=
  match v with
  | VFloat q => finite_expansion q
  | VList l => foldr (fun x acc => finite_floats x /\ acc) True l
  | VDict d => map_fold (fun _ x acc => finite_floats x /\ acc) True d
  | _ => True
  end.

(** The text with a single quote in place of each double quote, and
    the texts that hold no single quote. *)
Fixpoint single_quoted (s : string) : string :=
  match s with
  | EmptyString => EmptyString
  | String c s' =>
      String (if Ascii.eqb c dquote then squote else c) (single_quoted s')
  end.

Fixpoint no_squote (s : string) : bool :=
  match s with
  | EmptyString => true
  | String c s' => negb (Ascii.eqb c squote) && no_squote s'
  end.

(** ** tools/helper_functions.py *)

Section Extraction.

(** [json.loads]; [None] is [JSONDecodeError]. *)
Variable loads : string -> option value.

Definition is_str (v : value) : bool :=
  match v with VStr _ => true | _ => false end.

(** [extract_json_like(text)] *)
Definition extract_json_like (text : value) : result value :=
  if negb (truthy text) || negb (is_str text) then Ok (VDict ∅)
  else
    match text with
    | VStr s =>
        match loads s with
        | Some v => Ok v
        | None =>
            match search_braces s with
            | Some json_str =>
                match loads (replace_quotes json_str) with
                | Some v => Ok v
                | None => Ok (VDict ∅)
                end
            | None => Ok (VDict ∅)
            end
        end
    | _ => Ok (VDict ∅)
    end.

(** The three tiers of the extraction as the specification lists them. *)
Definition tier_whole (s : string) : option value := loads s.

Definition tier_braces (s : string) : option value :=
  match search_braces s with
  | Some json_str => loads json_str
  | None => None
  end.

Definition tier_requoted (s : string) : option value :=
  match search_braces s with
  | Some json_str => loads (replace_quotes json_str)
  | None => None
  end.

Definition spec_extract (s : string) : value :=
  match tier_whole s with
  | Some v => v
  | None =>
      match tier_braces s with
      | Some v => v
      | None =>
          match tier_requoted s with
          | Some v => v
          | None => VDict ∅
          end
      end
  end.

(** ** judge/investment_judge.py *)

(** The shapes [process_judge_output] tells apart in its argument. *)
Inductive judge_result : Type :=
| JList (items : list (option value))
    (* a list; an item either exposes [output] or does not *)
| JObject (output : value)        (* any other object exposing [output] *)
| JStr (s : string)
| JOther (as_str : string).       (* anything else, with its [str()] *)

(** What the function puts on the page. *)
Inductive display : Type :=
| ShowJudgment (rating confidence justification : value) (judge_json : value)
| ShowRaw (judge_output : value)
| ShowError (e : exn).

(** Lines 56-76: the judge output picked from the argument. *)
Definition judge_output_of (judge_results : judge_result) : value :=
  match judge_results with
  | JList (item :: _) =>
      match item with
      | Some output => output
      | None => VNone
      end
  | JList [] => VStr "[]"
  | JObject output => output
  | JStr s => VStr s
  | JOther as_str => VStr as_str
  end.

Definition JSONDecodeError : exn := Exn "JSONDecodeError" "".

(** Lines 81-93: the record read from the judge output. *)
Definition judge_json_of (judge_output : value) : result value :=
  match judge_output with
  | VStr s =>
      match search_braces s with
      | Some m =>
          match loads m with
          | Some v => Ok v
          | None => Raise JSONDecodeError
          end
      | None =>
          match loads s with
          | Some v => Ok v
          | None => Raise JSONDecodeError
          end
      end
  | VDict d => Ok (VDict d)
  | _ => Ok (VDict {["error" := VStr "Unable to parse output"]})
  end.

(** [rating.upper()] *)
Definition str_upper (v : value) : result string :=
  match v with
  | VStr s => Ok (upper s)
  | _ => Raise (Exn "AttributeError"
                  ("'" ++ type_name v ++ "' object has no attribute 'upper'"))
  end.

(** Lines 95-112: the three fields, with their defaults, and the colour
    test on the rating. *)
Definition judge_fields (judge_json : value) : result (value * value * value) :=
  rating ← attr_get judge_json "rating" (VStr "N/A");
  confidence ← attr_get judge_json "confidence" (VStr "Medium");
  justification ←
    attr_get judge_json "justification" (VStr "No justification provided.");
  _ ← str_upper rating;
  Ok (rating, confidence, justification).

(** [process_judge_output(judge_results)]: the inner handler takes
    [JSONDecodeError], the outer one any other exception. *)
Definition process_judge_output (judge_results : judge_result) : display :=
  let judge_output := judge_output_of judge_results in
  let shown :=
    judge_json ← judge_json_of judge_output;
    fields ← judge_fields judge_json;
    Ok (judge_json, fields) in
  match shown with
  | Ok (judge_json, (rating, confidence, justification)) =>
      ShowJudgment rating confidence justification judge_json
  | Raise (Exn cls msg) =>
      if String.eqb cls "JSONDecodeError" then ShowRaw judge_output
      else ShowError (Exn cls msg)
  end.

End Extraction.

(** ** tools/fmp_tool.py *)

Record FMPTool : Type := mkFMPTool {
  api_key : string;
  base_url : string;
  max_rpm : Z;
  request_times : list Q
}.

(** [FMPTool.__init__(api_key, max_rpm)], with the value of the
    environment variable FMP_API_KEY. *)
Definition FMPTool_init (key : option string) (environ_key : option string)
    (rpm : Z) : result FMPTool :=
  let chosen :=
    match key with
    | Some k => if String.eqb k "" then environ_key else Some k
    | None => environ_key
    end in
  match chosen with
  | Some k =>
      if String.eqb k "" then Raise (Exn "ValueError" "FMP API key is required")
      else Ok (mkFMPTool k "https://financialmodelingprep.com/api/v3" rpm [])
  | None => Raise (Exn "ValueError" "FMP API key is required")
  end.

(** What [requests.get] followed by [raise_for_status] and [json] does:
    the decoded body, or the handler its exception reaches. *)
Inductive response : Type :=
| RespJson (data : value)
| RespHTTPError (msg : string)
| RespTimeout
| RespRequestException (msg : string)
| RespInvalidJson
| RespUnexpected (msg : string).

(** The world around one call of [_make_request]: the clock reading on
    entry, the time by which [time.sleep] overshoots, and the answer of
    the network. *)
Record Env : Type := mkEnv {
  now : Q;
  lag : Q;
  resp : response
}.

Inductive event : Type :=
| Sleep (seconds : Q)
| HttpGet (url : string) (params : dict) (timeout : Z).

(** A method of the tool: it may raise, updates the tool and leaves a
    trace of sleeps and requests. *)
Definition M (A : Type) : Type := FMPTool -> result A * FMPTool * list event.

#[global] Instance M_ret : MRet M := fun A a self => (Ok a, self, []).

#[global] Instance M_bind : MBind M := fun A B k m self =>
  match m self with
  | (Ok a, self', tr) =>
      match k a self' with
      | (r, self'', tr') => (r, self'', (tr ++ tr')%list)
      end
  | (Raise e, self', tr) => (Raise e, self', tr)
  end.

Definition lift {A} (r : result A) : M A := fun self => (r, self, []).

Definition emit (e : event) : M unit := fun self => (Ok tt, self, [e]).

Definition returned {A} (o : result A * FMPTool * list event) : result A := o.1.1.
Definition tool_after {A} (o : result A * FMPTool * list event) : FMPTool := o.1.2.
Definition trace {A} (o : result A * FMPTool * list event) : list event := o.2.

Definition Qltb (x y : Q) : bool := negb (Qle_bool y x).

(** [[t for t in request_times if current_time - t < 60]] *)
Definition prune (current_time : Q) (times : list Q) : list Q :=
  List.filter (fun t => Qltb (current_time - t) 60)%Q times.

Definition set_request_times (self : FMPTool) (times : list Q) : FMPTool :=
  mkFMPTool (api_key self) (base_url self) (max_rpm self) times.

(** Lines 52-73 of [_make_request]: prune the window, wait when it is
    full, prune again, and record the request.  Returns the time stamp
    recorded. *)
Definition rate_limit (env : Env) : M Q := fun self =>
  let current_time := now env in
  let times := prune current_time (request_times self) in
  if (max_rpm self <=? Z.of_nat (length times))%Z then
    match times with
    | [] =>
        (Raise (Exn "IndexError" "list index out of range"),
         set_request_times self times, [])
    | oldest :: _ =>
        let wait_time := (60 - (current_time - oldest))%Q in
        if Qltb 0 wait_time then
          let current_time := (now env + wait_time + lag env)%Q in
          let times := prune current_time times in
          (Ok current_time, set_request_times self (times ++ [current_time])%list,
           [Sleep wait_time])
        else
          (Ok current_time, set_request_times self (times ++ [current_time])%list, [])
    end
  else (Ok current_time, set_request_times self (times ++ [current_time])%list, []).

(** Insertion of the items in order, as a dict display does. *)
Definition dict_of (items : list (string * value)) : dict :=
  fold_left (fun d kv => <[kv.1 := kv.2]> d) items ∅.

Definition error_dict (msg : string) : value :=
  VDict (dict_of [("error", VStr msg)]).

Section Client.

(** The builtin [str], used where a message is formatted. *)
Variable py_str : value -> string.

(** Lines 82-125: the value [_make_request] returns for an answer. *)
Definition interpret (endpoint : string) (r : response) : value :=
  match r with
  | RespJson data =>
      let error_msg :=
        match data with
        | VDict d => py_or (dict_get d "Error Message") (dict_get d "error")
        | _ => VNone
        end in
      if is_dict data && truthy error_msg then
        error_dict ("FMP API error: " ++ py_str error_msg)
      else if negb (truthy data) then
        error_dict ("Empty response from FMP API for " ++ endpoint)
      else data
  | RespHTTPError msg => error_dict ("HTTP error: " ++ msg)
  | RespTimeout =>
      error_dict ("Request to " ++ endpoint ++ " timed out after 10 seconds")
  | RespRequestException msg => error_dict ("Request error: " ++ msg)
  | RespInvalidJson => error_dict "Invalid JSON response from FMP API"
  | RespUnexpected msg => error_dict ("Unexpected error: " ++ msg)
  end.

(** [FMPTool._make_request(endpoint, params)] *)
Definition _make_request (env : Env) (endpoint : string)
    (params : option dict) : M value := fun self =>
  let params := <["apikey" := VStr (api_key self)]> (default ∅ params) in
  (_ ← rate_limit env;
   _ ← emit (HttpGet (base_url self ++ "/" ++ endpoint) params 10);
   mret (interpret endpoint (resp env))) self.

(** [not ticker or not isinstance(ticker, str)] *)
Definition invalid_ticker (ticker : value) : bool :=
  negb (truthy ticker) || negb (is_str ticker).

(** [ticker.strip().upper()] *)
Definition normalize (ticker : value) : string :=
  match ticker with
  | VStr s => upper (strip s)
  | _ => EmptyString
  end.

Definition error_of (data : value) : value :=
  match data with
  | VDict d => dict_get d "error"
  | _ => VNone
  end.

(** [FMPTool.get_company_profile(ticker)] *)
Definition get_company_profile (env : Env) (ticker : value) : M dict :=
  if invalid_ticker ticker then
    mret (dict_of [
      ("error", VStr "Invalid ticker symbol");
      ("name", VStr "Unknown");
      ("industry", VStr "Unknown");
      ("sector", VStr "Unknown");
      ("description",
       VStr "Please provide a valid ticker symbol (e.g., AAPL, MSFT)")])
  else
    let ticker := normalize ticker in
    if String.eqb ticker "" then
      mret (dict_of [
        ("error", VStr "Empty ticker symbol");
        ("name", VStr "Unknown");
        ("description", VStr "Please provide a valid ticker symbol")])
    else
      data ← _make_request env ("profile/" ++ ticker) None;
      if has_error data then
        mret (dict_of [
          ("error", error_of data);
          ("name", VStr ticker);
          ("industry", VStr "Unknown");
          ("sector", VStr "Unknown");
          ("description",
           VStr ("Could not retrieve company profile. "
                 ++ py_str (error_of data)))])
      else
        match data with
        | VList (profile :: _) =>
            name ← lift (attr_get profile "companyName" (VStr ticker));
            industry ← lift (attr_get profile "industry" (VStr "Unknown"));
            sector ← lift (attr_get profile "sector" (VStr "Unknown"));
            description ←
              lift (attr_get profile "description"
                      (VStr "No description available"));
            ceo ← lift (attr_get profile "ceo" (VStr "Unknown"));
            website ← lift (attr_get profile "website" (VStr "Unknown"));
            employees ←
              lift (attr_get profile "fullTimeEmployees" (VStr "Unknown"));
            exchange ← lift (attr_get profile "exchange" (VStr "Unknown"));
            marketCap ← lift (attr_get profile "mktCap" (VStr "Unknown"));
            mret (dict_of [
              ("name", name);
              ("industry", industry);
              ("sector", sector);
              ("description", description);
              ("ceo", ceo);
              ("website", website);
              ("employees", employees);
              ("exchange", exchange);
              ("marketCap", marketCap);
              ("symbol", VStr ticker)])
        | _ =>
            mret (dict_of [
              ("error", VStr "No company profile found");
              ("name", VStr ticker);
              ("industry", VStr "Unknown");
              ("sector", VStr "Unknown");
              ("description",
               VStr ("No profile data was found for " ++ ticker
                     ++ ". This might be an invalid ticker symbol or the company is not covered by the data provider."))])
        end.

(** [FMPTool.get_stock_quote(ticker)] *)
Definition get_stock_quote (env : Env) (ticker : value) : M dict :=
  if invalid_ticker ticker then
    mret (dict_of [("error", VStr "Invalid ticker symbol")])
  else
    let ticker := normalize ticker in
    data ← _make_request env ("quote/" ++ ticker) None;
    if has_error data then
      mret (dict_of [("error", error_of data)])
    else
      match data with
      | VList (quote :: _) =>
          price ← lift (attr_get quote "price" VNone);
          change ← lift (attr_get quote "change" VNone);
          percentChange ← lift (attr_get quote "changesPercentage" VNone);
          dayLow ← lift (attr_get quote "dayLow" VNone);
          dayHigh ← lift (attr_get quote "dayHigh" VNone);
          yearLow ← lift (attr_get quote "yearLow" VNone);
          yearHigh ← lift (attr_get quote "yearHigh" VNone);
          marketCap ← lift (attr_get quote "marketCap" VNone);
          volume ← lift (attr_get quote "volume" VNone);
          avgVolume ← lift (attr_get quote "avgVolume" VNone);
          pe ← lift (attr_get quote "pe" VNone);
          eps ← lift (attr_get quote "eps" VNone);
          mret (dict_of [
            ("price", price);
            ("change", change);
            ("percentChange", percentChange);
            ("dayLow", dayLow);
            ("dayHigh", dayHigh);
            ("yearLow", yearLow);
            ("yearHigh", yearHigh);
            ("marketCap", marketCap);
            ("volume", volume);
            ("avgVolume", avgVolume);
            ("pe", pe);
            ("eps", eps);
            ("symbol", VStr ticker)])
      | _ =>
          mret (dict_of [
            ("error", VStr "No stock quote found");
            ("symbol", VStr ticker)])
      end.

(** [x[0] if isinstance(x, list) and len(x) > 0 else {}] *)
Definition first_or_empty (x : value) : value :=
  match x with
  | VList (first :: _) => first
  | _ => VDict ∅
  end.

Definition limit_1 : option dict := Some (dict_of [("limit", VInt 1)]).

(** [FMPTool.get_key_financials(ticker)]: one environment for each of the
    four requests, in the order they are made. *)
Definition get_key_financials (env_ratios env_income env_balance env_cash : Env)
    (ticker : value) : M dict :=
  if invalid_ticker ticker then
    mret (dict_of [("error", VStr "Invalid ticker symbol")])
  else
    let ticker := normalize ticker in
    ratios ← _make_request env_ratios ("ratios-ttm/" ++ ticker) None;
    income ← _make_request env_income ("income-statement/" ++ ticker) limit_1;
    balance ←
      _make_request env_balance ("balance-sheet-statement/" ++ ticker) limit_1;
    cash_flow ←
      _make_request env_cash ("cash-flow-statement/" ++ ticker) limit_1;
    if has_error ratios && has_error income && has_error balance
       && has_error cash_flow then
      mret (dict_of [("error", VStr "Could not retrieve financial data")])
    else
      let f_ratios := first_or_empty ratios in
      let f_income := first_or_empty income in
      let f_balance := first_or_empty balance in
      let f_cash := first_or_empty cash_flow in
      grossMargin ← lift (attr_get f_ratios "grossProfitMarginTTM" VNone);
      operatingMargin ←
        lift (attr_get f_ratios "operatingProfitMarginTTM" VNone);
      netMargin ← lift (attr_get f_ratios "netProfitMarginTTM" VNone);
      roe ← lift (attr_get f_ratios "returnOnEquityTTM" VNone);
      roa ← lift (attr_get f_ratios "returnOnAssetsTTM" VNone);
      pe ← lift (attr_get f_ratios "priceEarningsRatioTTM" VNone);
      pb ← lift (attr_get f_ratios "priceToBookRatioTTM" VNone);
      ps ← lift (attr_get f_ratios "priceToSalesRatioTTM" VNone);
      pfcf ← lift (attr_get f_ratios "priceToFreeCashFlowsRatioTTM" VNone);
      currentRatio ← lift (attr_get f_ratios "currentRatioTTM" VNone);
      debtToEquity ← lift (attr_get f_ratios "debtEquityRatioTTM" VNone);
      interestCoverage ← lift (attr_get f_ratios "interestCoverageTTM" VNone);
      revenue ← lift (attr_get f_income "revenue" VNone);
      netIncome ← lift (attr_get f_income "netIncome" VNone);
      totalAssets ← lift (attr_get f_balance "totalAssets" VNone);
      totalDebt ← lift (attr_get f_balance "totalDebt" VNone);
      freeCashFlow ← lift (attr_get f_cash "freeCashFlow" VNone);
      mret (dict_of [
        ("profitability", VDict (dict_of [
           ("grossMargin", grossMargin);
           ("operatingMargin", operatingMargin);
           ("netMargin", netMargin);
           ("roe", roe);
           ("roa", roa)]));
        ("valuation", VDict (dict_of [
           ("pe", pe);
           ("pb", pb);
           ("ps", ps);
           ("pfcf", pfcf)]));
        ("health", VDict (dict_of [
           ("currentRatio", currentRatio);
           ("debtToEquity", debtToEquity);
           ("interestCoverage", interestCoverage)]));
        ("growth", VDict (dict_of [
           ("revenue", revenue);
           ("netIncome", netIncome);
           ("totalAssets", totalAssets);
           ("totalDebt", totalDebt);
           ("freeCashFlow", freeCashFlow)]));
        ("symbol", VStr ticker)]).

(** The loop body of [get_news_sentiment]. *)
Definition article_summary (article : value) : result value :=
  title ← attr_get article "title" (VStr "No title");
  date ← attr_get article "publishedDate" (VStr "Unknown date");
  source ← attr_get article "site" (VStr "Unknown source");
  url ← attr_get article "url" (VStr "#");
  summary ← attr_get article "text" (VStr "No summary available");
  Ok (VDict (dict_of [
    ("title", title);
    ("date", date);
    ("source", source);
    ("url", url);
    ("summary", summary)])).

Fixpoint summaries (data : list value) : result (list value) :=
  match data with
  | [] => Ok []
  | article :: rest =>
      a ← article_summary article;
      others ← summaries rest;
      Ok (a :: others)
  end.

(** [FMPTool.get_news_sentiment(ticker)] *)
Definition get_news_sentiment (env : Env) (ticker : value) : M dict :=
  if invalid_ticker ticker then
    mret (dict_of [
      ("error", VStr "Invalid ticker symbol");
      ("articles", VList [])])
  else
    let ticker := normalize ticker in
    data ←
      _make_request env "stock_news"
        (Some (dict_of [("tickers", VStr ticker); ("limit", VInt 10)]));
    if has_error data then
      mret (dict_of [
        ("error", error_of data);
        ("articles", VList []);
        ("symbol", VStr ticker)])
    else
      match data with
      | VList articles_in =>
          articles ← lift (summaries articles_in);
          mret (dict_of [
            ("articles", VList articles);
            ("count", VInt (Z.of_nat (length articles)));
            ("symbol", VStr ticker)])
      | _ =>
          mret (dict_of [
            ("error", VStr "No news found");
            ("articles", VList []);
            ("symbol", VStr ticker)])
      end.

End Client.

(** ** analysis.py *)

(** The collaborators of one run: the environment, the clock, and the
    calls into the agent framework, each of which may raise. *)
Record Collaborators : Type := mkCollaborators {
  environ_fmp_key : option string;    (* os.environ.get of FMP_API_KEY *)
  clock_start : Q;                    (* time.time() on entry *)
  clock_done : Q;                     (* time.time() after the judge *)
  clock_caught : Q;                   (* time.time() in the handler *)
  make_tools : FMPTool -> result unit;          (* the four Tool(...) *)
  make_agent : string -> bool -> string -> Q -> result unit;
                                      (* create_*_agent: role, deep, model, temperature *)
  make_crew : bool -> string -> bool -> result unit;
                                      (* the three Task(...) and Crew(...) *)
  initial_kickoff : result value;     (* initial_crew.kickoff() *)
  extract_agent_outputs : value -> result (value * value * value);
  make_judge : string -> result unit; (* create_investment_judge_agent *)
  judge_kickoff : string -> string -> value -> value -> value -> result value;
                                      (* judge prompt, Task, Crew and kickoff *)
  count_tokens : string -> string -> result Z
}.

(** [temps[key]] *)
Definition subscript (temps : gmap string Q) (key : string) : result Q :=
  match temps !! key with
  | Some t => Ok t
  | None => Raise (Exn "KeyError" ("'" ++ key ++ "'"))
  end.

Definition default_temps (depth : string) : gmap string Q :=
  if String.eqb depth "deep" then
    <["news" := (7 # 10)%Q]> (<["profile" := (5 # 10)%Q]>
      (<["financial" := (3 # 10)%Q]> ∅))
  else
    <["news" := (5 # 10)%Q]> (<["profile" := (3 # 10)%Q]>
      (<["financial" := (2 # 10)%Q]> ∅)).

Definition config_of (model depth process_type investment_style : string) : value :=
  VDict (dict_of [
    ("model", VStr model);
    ("depth", VStr depth);
    ("process_type", VStr process_type);
    ("investment_style", VStr investment_style)]).

Section Analysis.

Variable py_str : value -> string.
Variable c : Collaborators.

(** The body of the [try] statement of [run_company_analysis]. *)
Definition analysis_body (ticker model depth process_type : string)
    (temps : gmap string Q) (investment_style : string) (max_rpm : Z)
    (verbose : bool) : result dict :=
  fmp_tool ← FMPTool_init None (environ_fmp_key c) max_rpm;
  _ ← make_tools c fmp_tool;
  let is_deep := String.eqb depth "deep" in
  t_financial ← subscript temps "financial";
  _ ← make_agent c "Financial Analyst" is_deep model t_financial;
  t_profile ← subscript temps "profile";
  _ ← make_agent c "Profile Researcher" is_deep model t_profile;
  t_news ← subscript temps "news";
  _ ← make_agent c "News Analyst" is_deep model t_news;
  _ ← make_crew c is_deep process_type verbose;
  initial_results ← initial_kickoff c;
  outputs ← extract_agent_outputs c initial_results;
  let '(financial_analysis, profile_analysis, news_analysis) := outputs in
  _ ← make_judge c model;
  judge_results ←
    judge_kickoff c investment_style ticker financial_analysis
      profile_analysis news_analysis;
  let execution_time := (clock_done c - clock_start c)%Q in
  tokens_initial ← count_tokens c (py_str initial_results) model;
  tokens_judge ← count_tokens c (py_str judge_results) model;
  Ok (dict_of [
    ("ticker", VStr ticker);
    ("profile_analysis", profile_analysis);
    ("financial_analysis", financial_analysis);
    ("news_analysis", news_analysis);
    ("investment_recommendation", judge_results);
    ("execution_time", VFloat execution_time);
    ("token_usage", VInt (tokens_initial + tokens_judge));
    ("config", config_of model depth process_type investment_style);
    ("raw_outputs", VDict (dict_of [
       ("initial_results", VStr (py_str initial_results));
       ("judge_results", VStr (py_str judge_results))]))]).

(** The report of the [except Exception] handler. *)
Definition error_report (ticker model depth process_type investment_style : string)
    (e : exn) : dict :=
  let execution_time := (clock_caught c - clock_start c)%Q in
  dict_of [
    ("ticker", VStr ticker);
    ("error", VStr ("Analysis failed: " ++ exn_msg e));
    ("execution_time", VFloat execution_time);
    ("config", config_of model depth process_type investment_style)].

(** [run_company_analysis(ticker, model, depth, process_type, temps,
    investment_style, max_rpm, verbose)] *)
Definition run_company_analysis (ticker model depth process_type : string)
    (temps : option (gmap string Q)) (investment_style : string) (max_rpm : Z)
    (verbose : bool) : result dict :=
  let temps :=
    match temps with
    | None => default_temps depth
    | Some t => t
    end in
  try_except
    (analysis_body ticker model depth process_type temps investment_style
       max_rpm verbose)
    (fun e =>
       Ok (error_report ticker model depth process_type investment_style e)).

End Analysis.

(** ** Runs of the client *)

Record call : Type := mkCall {
  call_env : Env;
  call_endpoint : string;
  call_params : option dict
}.

(** One step of a run: the tool before the call, the call, and what
    [_make_request] made of it. *)
Record step : Type := mkStep {
  step_before : FMPTool;
  step_call : call;
  step_outcome : result value * FMPTool * list event
}.

Fixpoint run (py_str : value -> string) (self : FMPTool) (calls : list call)
    : list step :=
  match calls with
  | [] => []
  | c :: rest =>
      let o := _make_request py_str (call_env c) (call_endpoint c)
                 (call_params c) self in
      mkStep self c o :: run py_str (tool_after o) rest
  end.

Fixpoint ascending_from (lo : Q) (l : list Q) : bool :=
  match l with
  | [] => true
  | x :: rest => Qle_bool lo x && ascending_from x rest
  end.

Definition ascending (l : list Q) : bool :=
  match l with
  | [] => true
  | x :: rest => ascending_from x rest
  end.

(** The window holds at most [max_rpm] stamps, oldest first. *)
Definition window_ok (self : FMPTool) : bool :=
  (Z.of_nat (length (request_times self)) <=? max_rpm self)%Z
  && ascending (request_times self).

(** The clock of a run does not go back, and [time.sleep] does not return
    early: every call starts no earlier than the stamps already recorded,
    and its lag is not negative. *)
Fixpoint well_timed (self : FMPTool) (calls : list call) : bool :=
  match calls with
  | [] => true
  | c :: rest =>
      forallb (fun t => Qle_bool t (now (call_env c))) (request_times self)
      && Qle_bool 0 (lag (call_env c))
      && well_timed (tool_after (rate_limit (call_env c) self)) rest
  end.

(** The request [_make_request] sends for a call. *)
Definition request_of (self : FMPTool) (c : call) : event :=
  HttpGet (base_url self ++ "/" ++ call_endpoint c)
    (<["apikey" := VStr (api_key self)]> (default ∅ (call_params c))) 10.

(** The clock readings at which the calls of a run start. *)
Definition stamps (calls : list call) : list Q :=
  map (fun c => now (call_env c)) calls.

(** The tool a run leaves behind. *)
Definition run_tool (self : FMPTool) (calls : list call) : FMPTool :=
  fold_left (fun tool c => tool_after (rate_limit (call_env c) tool)) calls self.

(** The time [time.time()] shows after the sleep of a call that found
    [oldest] at the head of a full window. *)
Definition woke_at (env : Env) (oldest : Q) : Q :=
  (now env + (60 - (now env - oldest)) + lag env)%Q.

(** A burst on a fresh client with a budget of two requests a minute:
    three calls, one second apart, the last of which times out. *)
Definition burst_tool : FMPTool := mkFMPTool "demo" "https://host/api/v3" 2 [].

Definition burst_calls : list call := [
  mkCall (mkEnv 0 0 (RespJson (VList [VInt 1]))) "profile/AAPL" None;
  mkCall (mkEnv 1 0 (RespJson (VList [VInt 2]))) "quote/AAPL" None;
  mkCall (mkEnv 2 0 RespTimeout) "ratios-ttm/AAPL" None ].

(** The payload of an answer, when it is a list, holds only objects. *)
Definition objects_only (r : response) : bool :=
  match r with
  | RespJson (VList l) => forallb is_dict l
  | _ => true
  end.

(** The record [get_key_financials] assembles from the first objects of
    its four answers. *)
Definition financial_record (ratios income balance cash_flow : dict)
    (symbol : string) : dict :=
  dict_of [
    ("profitability", VDict (dict_of [
       ("grossMargin", dict_get ratios "grossProfitMarginTTM");
       ("operatingMargin", dict_get ratios "operatingProfitMarginTTM");
       ("netMargin", dict_get ratios "netProfitMarginTTM");
       ("roe", dict_get ratios "returnOnEquityTTM");
       ("roa", dict_get ratios "returnOnAssetsTTM")]));
    ("valuation", VDict (dict_of [
       ("pe", dict_get ratios "priceEarningsRatioTTM");
       ("pb", dict_get ratios "priceToBookRatioTTM");
       ("ps", dict_get ratios "priceToSalesRatioTTM");
       ("pfcf", dict_get ratios "priceToFreeCashFlowsRatioTTM")]));
    ("health", VDict (dict_of [
       ("currentRatio", dict_get ratios "currentRatioTTM");
       ("debtToEquity", dict_get ratios "debtEquityRatioTTM");
       ("interestCoverage", dict_get ratios "interestCoverageTTM")]));
    ("growth", VDict (dict_of [
       ("revenue", dict_get income "revenue");
       ("netIncome", dict_get income "netIncome");
       ("totalAssets", dict_get balance "totalAssets");
       ("totalDebt", dict_get balance "totalDebt");
       ("freeCashFlow", dict_get cash_flow "freeCashFlow")]));
    ("symbol", VStr symbol)].

(** A client as [FMPTool(api_key, max_rpm=10)] builds it, and answers of
    the network used in the examples. *)
Definition demo_tool : FMPTool :=
  mkFMPTool "demo" "https://financialmodelingprep.com/api/v3" 10 [].

Definition timed_out : Env := mkEnv 0 0 RespTimeout.

Definition answered (data : value) : Env := mkEnv 0 0 (RespJson data).

Definition statement (field : string) (amount : Z) : value :=
  VList [VDict (dict_of [(field, VInt amount)])].

(** The record [get_company_profile] returns for AAPL when the request
    times out. *)
Definition profile_timeout_record : dict :=
  dict_of [
    ("error", VStr "Request to profile/AAPL timed out after 10 seconds");
    ("name", VStr "AAPL");
    ("industry", VStr "Unknown");
    ("sector", VStr "Unknown");
    ("description",
     VStr "Could not retrieve company profile. Request to profile/AAPL timed out after 10 seconds")].

(** The record [get_news_sentiment] returns for AAPL when the endpoint
    answers with an empty list. *)
Definition news_empty_record : dict :=
  dict_of [
    ("error", VStr "Empty response from FMP API for stock_news");
    ("articles", VList []);
    ("symbol", VStr "AAPL")].

(** Prose around strict JSON whose string holds an apostrophe. *)
Definition apostrophe_text : string :=
  "see {" ++ dq "'a': 'it" ++ "'s" ++ dq "'} ok".

(** A run in an environment without the API key. *)
Definition no_key_run : Collaborators :=
  mkCollaborators None 100 0 (1003 # 10)
    (fun _ => Ok tt) (fun _ _ _ _ => Ok tt) (fun _ _ _ => Ok tt)
    (Ok (VStr "")) (fun _ => Ok (VDict ∅, VDict ∅, VDict ∅))
    (fun _ => Ok tt) (fun _ _ _ _ _ => Ok (VStr "")) (fun _ _ => Ok 0%Z).

(** ** tools/helper_functions.py: the outputs of the agents *)

Module helper_functions.

(** One entry of the list a crew returns.  A [Task] exposes [agent] and
    [output]; [role] is what [result.agent.role] evaluates to, [None]
    when the agent exposes no role and the access raises
    [AttributeError].  [Opaque] is an entry without [agent] or without
    [output]. *)
Inductive task_output : Type :=
| Task (role : option string) (output : value)
| Opaque.

(** The shapes [extract_agent_outputs] tells apart in its argument. *)
Inductive crew_result : Type :=
| Results (items : list task_output)   (* a list *)
| WithOutput (output : value)          (* any other object exposing [output] *)
| Text (s : string)                    (* a string *)
| Unknown.                             (* anything else *)

(** The three variables of the function, in the order it returns them:
    financial, profile, news. *)
Definition outputs : Type := value * value * value.

Definition set_financial (o : outputs) (v : value) : outputs := (v, o.1.2, o.2).
Definition set_profile (o : outputs) (v : value) : outputs := (o.1.1, v, o.2).
Definition set_news (o : outputs) (v : value) : outputs := (o.1.1, o.1.2, v).

(** Matching under [re.IGNORECASE], on the ASCII letters. *)
Definition ci_eqb (a b : ascii) : bool :=
  Ascii.eqb (upper_char a) (upper_char b).

(** What is left of [s] after the literal [p], letter case ignored. *)
Fixpoint prefix_ci (p s : string) : option string :=
  match p, s with
  | EmptyString, _ => Some s
  | String a p', String b s' => if ci_eqb a b then prefix_ci p' s' else None
  | String _ _, EmptyString => None
  end.

(** The class [[:\n]]. *)
Definition is_sep (c : ascii) : bool :=
  Ascii.eqb c ":" || Ascii.eqb c "010".

Fixpoint skip_seps (s : string) : string :=
  match s with
  | EmptyString => EmptyString
  | String c s' => if is_sep c then skip_seps s' else s
  end.

(** [heading[:\n]+] matched at the head of [s]: what follows the run. *)
Definition heading_at (heading s : string) : option string :=
  match prefix_ci heading s with
  | Some (String c rest) => if is_sep c then Some (skip_seps rest) else None
  | _ => None
  end.

(** The text after the leftmost match of [heading[:\n]+]. *)
Fixpoint after_heading (heading s : string) : option string :=
  match heading_at heading s with
  | Some body => Some body
  | None =>
      match s with
      | EmptyString => None
      | String _ s' => after_heading heading s'
      end
  end.

(** [$]: the end of the text, or the line feed that ends it. *)
Definition at_end (s : string) : bool :=
  match s with
  | EmptyString => true
  | String c EmptyString => Ascii.eqb c "010"
  | _ => false
  end.

(** The lookahead [(?=next1|next2|$)]. *)
Definition stops (nexts : list string) (s : string) : bool :=
  existsb (fun h => bool_decide (is_Some (prefix_ci h s))) nexts || at_end s.

(** The group [(.*?)]: the shortest text up to a place where the
    lookahead holds. *)
Fixpoint until_stop (nexts : list string) (s : string) : string :=
  if stops nexts s then EmptyString
  else
    match s with
    | EmptyString => EmptyString
    | String c s' => String c (until_stop nexts s')
    end.

(** [re.search(heading + r'[:\n]+(.*?)(?=next1|next2|$)', text,
    re.DOTALL | re.IGNORECASE)], and [group(1)] of the match. *)
Definition search_section (heading : string) (nexts : list string)
    (text : string) : option string :=
  until_stop nexts <$> after_heading heading text.

(** [re.findall(r'\{.*?\}', text, re.DOTALL)]: each match runs from an
    opening brace to the first closing brace after it; [open] is the
    match under way. *)
Fixpoint find_objects (open : option string) (s : string) : list string :=
  match s with
  | EmptyString => []
  | String c s' =>
      match open with
      | None =>
          if Ascii.eqb c "{" then find_objects (Some (String c EmptyString)) s'
          else find_objects None s'
      | Some m =>
          if Ascii.eqb c "}" then (m ++ String c EmptyString) :: find_objects None s'
          else find_objects (Some (m ++ String c EmptyString)) s'
      end
  end.

(** [key in s] on text. *)
Fixpoint occurs (key s : string) : bool :=
  String.prefix key s ||
  match s with
  | EmptyString => false
  | String _ s' => occurs key s'
  end.

(** [key in data]; [None] is the [TypeError] of a value that is no
    container. *)
Definition contains (data : value) (key : string) : option bool :=
  match data with
  | VDict d => Some (dict_has d key)
  | VList l =>
      Some (existsb (fun v => match v with
                              | VStr s => String.eqb s key
                              | _ => false
                              end) l)
  | VStr s => Some (occurs key s)
  | _ => None
  end.

(** [any(key in data for key in keys)] *)
Fixpoint any_key (keys : list string) (data : value) : option bool :=
  match keys with
  | [] => Some false
  | key :: rest =>
      match contains data key with
      | None => None
      | Some true => Some true
      | Some false => any_key rest data
      end
  end.

Section Outputs.

(** [json.loads]; [None] is [JSONDecodeError]. *)
Variable loads : string -> option value.

(** The roles of the three agents. *)
Variable financial_analyst profile_researcher news_analyst : string.

(** Lines 104-114.  An exception ends the loop, and the handler of the
    function keeps what was assigned before it. *)
Fixpoint from_tasks (results : list task_output) (o : outputs) : outputs :=
  match results with
  | [] => o
  | Opaque :: rest => from_tasks rest o
  | Task None _ :: _ => o
  | Task (Some agent_role) output_text :: rest =>
      if String.eqb agent_role profile_researcher then
        match extract_json_like loads output_text with
        | Ok v => from_tasks rest (set_profile o v)
        | Raise _ => o
        end
      else if String.eqb agent_role financial_analyst then
        match extract_json_like loads output_text with
        | Ok v => from_tasks rest (set_financial o v)
        | Raise _ => o
        end
      else if String.eqb agent_role news_analyst then
        match extract_json_like loads output_text with
        | Ok v => from_tasks rest (set_news o v)
        | Raise _ => o
        end
      else from_tasks rest o
  end.

(** One of the three searches of lines 126-139. *)
Definition from_section (heading : string) (nexts : list string)
    (set : outputs -> value -> outputs) (output_text : string)
    (o : outputs) : outputs :=
  match search_section heading nexts output_text with
  | Some section =>
      match extract_json_like loads (VStr section) with
      | Ok v => set o v
      | Raise _ => o
      end
  | None => o
  end.

Definition from_sections (output_text : string) (o : outputs) : outputs :=
  let o := from_section "Financial Analysis"
             ["Profile Analysis"; "News Analysis"] set_financial output_text o in
  let o := from_section "Profile Analysis"
             ["Financial Analysis"; "News Analysis"] set_profile output_text o in
  from_section "News Analysis"
    ["Financial Analysis"; "Profile Analysis"] set_news output_text o.

(** Lines 152-157: the record goes to the first category one of whose
    keys it holds. *)
Definition categorize (data : value) (o : outputs) : outputs :=
  match any_key ["financial_health"; "key_metrics"] data with
  | None => o
  | Some true => set_financial o data
  | Some false =>
      match any_key ["business_outlook"; "industry_position"] data with
      | None => o
      | Some true => set_profile o data
      | Some false =>
          match any_key ["sentiment"; "news_summary"] data with
          | Some true => set_news o data
          | _ => o
          end
      end
  end.

(** Lines 147-159: a match that does not decode is passed over. *)
Fixpoint from_objects (json_objects : list string) (o : outputs) : outputs :=
  match json_objects with
  | [] => o
  | json_str :: rest =>
      match loads (replace_quotes json_str) with
      | Some data => from_objects rest (categorize data o)
      | None => from_objects rest o
      end
  end.

(** [extract_agent_outputs(results, financial_analyst,
    profile_researcher, news_analyst)], each agent given by its role. *)
Definition extract_agent_outputs (results : crew_result) : outputs :=
  let o : outputs := (VDict ∅, VDict ∅, VDict ∅) in
  match results with
  | Results items => from_tasks items o
  | WithOutput output_text =>
      match extract_json_like loads output_text with
      | Ok all_data =>
          if truthy all_data then o
          else
            match output_text with
            | VStr s => from_sections s o
            | _ => o
            end
      | Raise _ => o
      end
  | Text s => from_objects (find_objects None s) o
  | Unknown => o
  end.

End Outputs.

End helper_functions.

(** ** Notions used in the statements *)

(** What [extract_json_like] makes of an output, [{}] when there is
    none. *)
Definition parsed (loads : string -> option value) (output : option value)
    : value :=
  match output with
  | Some text =>
      match extract_json_like loads text with
      | Ok v => v
      | Raise _ => VDict ∅
      end
  | None => VDict ∅
  end.

(** The output of the last task of [items] whose agent has the role
    [role]. *)
Fixpoint last_output_of (role : string)
    (items : list helper_functions.task_output) : option value :=
  match items with
  | [] => None
  | helper_functions.Task (Some agent_role) output :: rest =>
      match last_output_of role rest with
      | Some later => Some later
      | None => if String.eqb agent_role role then Some output else None
      end
  | _ :: rest => last_output_of role rest
  end.

(** Every entry that is a task has an agent with a role. *)
Definition has_role (t : helper_functions.task_output) : bool :=
  match t with
  | helper_functions.Task None _ => false
  | _ => true
  end.

(** The text has no opening, or no closing, brace. *)
Fixpoint no_open (s : string) : bool :=
  match s with
  | EmptyString => true
  | String c s' => negb (Ascii.eqb c "{") && no_open s'
  end.

Fixpoint no_close (s : string) : bool :=
  match s with
  | EmptyString => true
  | String c s' => negb (Ascii.eqb c "}") && no_close s'
  end.

(** Fragments in braces, each given by what stands between the braces
    and by the text that follows it. *)
Fixpoint interleave (pieces : list (string * string)) : string :=
  match pieces with
  | [] => EmptyString
  | (body, sep) :: rest => "{" ++ body ++ "}" ++ sep ++ interleave rest
  end.

(** The categories of lines 152-157, the earlier taking precedence. *)
Definition is_financial (d : dict) : bool :=
  dict_has d "financial_health" || dict_has d "key_metrics".

Definition is_profile (d : dict) : bool :=
  negb (is_financial d)
  && (dict_has d "business_outlook" || dict_has d "industry_position").

Definition is_news (d : dict) : bool :=
  negb (is_financial d) && negb (is_profile d)
  && (dict_has d "sentiment" || dict_has d "news_summary").

(** The last record of a category among the decoded fragments, [None]
    standing for a fragment that did not decode. *)
Fixpoint last_record (category : dict -> bool) (decoded : list (option dict))
    : option dict :=
  match decoded with
  | [] => None
  | Some d :: rest =>
      match last_record category rest with
      | Some later => Some later
      | None => if category d then Some d else None
      end
  | None :: rest => last_record category rest
  end.

Definition record_or_empty (r : option dict) : value :=
  match r with
  | Some d => VDict d
  | None => VDict ∅
  end.

(** [heading] occurs in [s], letter case ignored. *)
Fixpoint mentions_ci (heading s : string) : bool :=
  bool_decide (is_Some (helper_functions.prefix_ci heading s)) ||
  match s with
  | EmptyString => false
  | String _ s' => mentions_ci heading s'
  end.

(** A report with the three headings, each followed by a record. *)
Definition headed_report : string :=
  "Financial Analysis:" ++ String "010"
    (dq "{'financial_health': 'Strong'}" ++ String "010"
       ("Profile Analysis:" ++ String "010"
          (dq "{'business_outlook': 'Stable'}" ++ String "010"
             ("News Analysis: " ++ dq "{'sentiment': 'Positive'}")))).

(** The text the judge parses: the span of the braces, or the whole. *)
Definition judged_span (s : string) : string :=
  default s (search_braces s).

(** The time stamps a run records: one for each call that gets past the
    limiter, in the order of the calls. *)
Fixpoint issued (self : FMPTool) (calls : list call) : list Q :=
  match calls with
  | [] => []
  | c :: rest =>
      let o := rate_limit (call_env c) self in
      match returned o with
      | Ok t => t :: issued (tool_after o) rest
      | Raise _ => issued (tool_after o) rest
      end
  end.

(** The stamps of [l] in the minute that starts at [a]. *)
Definition within_minute (a : Q) (l : list Q) : list Q :=
  List.filter (fun x => Qle_bool a x && Qltb x (a + 60))%Q l.

(** The seconds slept in a trace. *)
Definition sleeps (tr : list event) : list Q :=
  flat_map (fun e => match e with Sleep w => [w] | HttpGet _ _ _ => [] end) tr.

(** Along a run the window is the history of the stamps, pruned at the
    last of them; every stamp has fewer than [max_rpm] stamps before it
    in its last minute. *)
Definition trailing_ok (budget : Z) (hist : list Q) : Prop :=
  forall before t after,
    hist = (before ++ t :: after)%list ->
    (Z.of_nat (length (prune t before)) < budget)%Z.

(** The requests of a trace, without the sleeps. *)
Definition requests (tr : list event) : list event :=
  List.filter
    (fun e => match e with HttpGet _ _ _ => true | Sleep _ => false end) tr.

(** The request [self] sends to [endpoint] with [params]. *)
Definition get_of (self : FMPTool) (endpoint : string) (params : dict) : event :=
  HttpGet (base_url self ++ "/" ++ endpoint)
    (<["apikey" := VStr (api_key self)]> params) 10.

(** A method that neither touches the client nor the network. *)
Definition silent {A} (m : M A) : Prop :=
  forall self, tool_after (m self) = self /\ trace (m self) = [].

(** The answer is a JSON array whose first element is not an object. *)
Definition head_is_no_object (r : response) : bool :=
  match r with
  | RespJson (VList (first :: _)) => negb (is_dict first)
  | _ => false
  end.

(** [r] is an [AttributeError]. *)
Definition raises_attribute_error {A} (r : result A) : Prop :=
  exists msg, r = Raise (Exn "AttributeError" msg).

(** The settings of the client: all of it but the window. *)
Definition same_settings (a b : FMPTool) : Prop :=
  api_key a = api_key b /\ base_url a = base_url b /\ max_rpm a = max_rpm b.

Definition keeps_settings {A} (m : M A) : Prop :=
  forall self, same_settings (tool_after (m self)) self.

(** ** Inputs of the examples *)

(** The burst in two parts: the calls that fill the budget, and the
    one that follows. *)
Definition burst_first : list call := [
  mkCall (mkEnv 0 0 (RespJson (VList [VInt 1]))) "profile/AAPL" None;
  mkCall (mkEnv 1 0 (RespJson (VList [VInt 2]))) "quote/AAPL" None ].

Definition burst_last : call :=
  mkCall (mkEnv 2 0 RespTimeout) "ratios-ttm/AAPL" None.

(** The client [FMPTool("demo", max_rpm=2)] builds. *)
Definition constructed_tool : FMPTool :=
  mkFMPTool "demo" "https://financialmodelingprep.com/api/v3" 2 [].

(** The outputs of a crew: the news analyst, an entry that is no task,
    and the financial analyst twice. *)
Definition crew_tasks : list helper_functions.task_output := [
  helper_functions.Task (Some "News & Sentiment Analyst")
    (VStr (dq "{'sentiment': 'Positive'}"));
  helper_functions.Opaque;
  helper_functions.Task (Some "Financial Analyst") (VStr "no figures yet");
  helper_functions.Task (Some "Financial Analyst")
    (VStr ("Here it is: " ++ dq "{'financial_health': 'Strong'}")) ].

(** Fragments of a text, with what each of them decodes to. *)
Definition text_pieces : list (string * string) := [
  ("'sentiment': 'Positive'", " then ");
  ("'key_metrics': 1, 'sentiment': 'Mixed'", ", ");
  ("not a record", "") ].

Definition text_decoded : list (option dict) := [
  Some (dict_of [("sentiment", VStr "Positive")]);
  Some (dict_of [("key_metrics", VInt 1); ("sentiment", VStr "Mixed")]);
  None ].

(** A record with floats given as fractions of several forms. *)
Definition metrics_record : dict :=
  dict_of [
    ("name", VStr "ACME");
    ("key_metrics", VDict (dict_of [
       ("pe_ratio", VFloat (57 # 2));
       ("margin", VFloat 0.25);
       ("beta", VFloat (-3 # 1))]));
    ("scores", VList [VInt 1; VNone; VBool true; VFloat 2.50])].

(** A run whose collaborators all succeed. *)
Definition smooth_run : Collaborators :=
  mkCollaborators (Some "demo") 100 (225 # 2) 0
    (fun _ => Ok tt) (fun _ _ _ _ => Ok tt) (fun _ _ _ => Ok tt)
    (Ok (VStr "reports"))
    (fun _ => Ok (VDict ∅, VDict ∅, VDict ∅))
    (fun _ => Ok tt) (fun _ _ _ _ _ => Ok (VStr "{}")) (fun _ _ => Ok 7%Z).

(** An answer that carries the key error with an empty message. *)
Definition blank_error_payload : dict :=
  dict_of [("error", VStr ""); ("symbol", VStr "AAPL")].

(** * Properties *)

(** ** The reference decoder and serializer *)

Section Codec.

Lemma skip_ws_length (s : string) :
  (String.length (skip_ws s) <= String.length s)%nat.
Proof.
  induction s as [|c s IH]; simpl; [lia|].
  destruct (is_json_ws c); simpl; lia.
Qed.

Lemma starts_with_inv (c : ascii) (s rest : string) :
  starts_with c s = Some rest -> s = String c rest.
Proof.
  destruct s as [|c1 r]; simpl; [discriminate|].
  destruct (Ascii.eqb c1 c) eqn:E; [|discriminate].
  apply Ascii.eqb_eq in E. intros [= ->]. congruence.
Qed.

Lemma starts_with_length (c : ascii) (s rest : string) :
  starts_with c s = Some rest -> String.length s = S (String.length rest).
Proof. intros H. apply starts_with_inv in H. subst. reflexivity. Qed.

Lemma strip_prefix_length (p s rest : string) :
  strip_prefix p s = Some rest ->
  String.length s = (String.length p + String.length rest)%nat.
Proof.
  revert s. induction p as [|a p IH]; intros s; simpl.
  - intros [= ->]. reflexivity.
  - destruct s as [|b s]; [discriminate|].
    destruct (Ascii.eqb a b); [|discriminate].
    intros H. apply IH in H. simpl. lia.
Qed.

Lemma read_digits_length (s : string) : forall acc count n k rest,
  read_digits acc count s = (n, k, rest) ->
  (String.length rest <= String.length s)%nat.
Proof.
  induction s as [|c s IH]; simpl; intros acc count n k rest.
  - intros [= <- <- <-]. simpl. lia.
  - destruct (digit_of c).
    + intros H. apply IH in H. lia.
    + intros [= <- <- <-]. simpl. lia.
Qed.

Lemma read_int_part_length (s : string) (n : Z) (rest : string) :
  read_int_part s = Some (n, rest) ->
  (String.length rest < String.length s)%nat.
Proof.
  destruct s as [|c s]; simpl; [discriminate|].
  destruct (digit_of c) as [d|]; [|discriminate].
  destruct d as [|d|d].
  - intros [= <- <-]. lia.
  - destruct (read_digits (Z.pos d) 1 s) as [[m k] r] eqn:E.
    intros [= <- <-]. apply read_digits_length in E. lia.
  - destruct (read_digits (Z.neg d) 1 s) as [[m k] r] eqn:E.
    intros [= <- <-]. apply read_digits_length in E. lia.
Qed.

Lemma read_frac_length (s : string) (f : Z) (k : nat) (rest : string) :
  read_frac s = Some (f, k, rest) ->
  (String.length rest <= String.length s)%nat.
Proof.
  unfold read_frac. destruct (starts_with "." s) as [s'|] eqn:E; [|discriminate].
  apply starts_with_length in E.
  destruct (read_digits 0 0 s') as [[m j] r] eqn:D.
  apply read_digits_length in D.
  destruct j; [discriminate|]. intros [= <- <- <-]. lia.
Qed.

Lemma read_exp_length (s : string) (e : Z) (rest : string) :
  read_exp s = Some (e, rest) ->
  (String.length rest <= String.length s)%nat.
Proof.
  unfold read_exp. destruct s as [|c s']; [discriminate|].
  destruct (Ascii.eqb c "e" || Ascii.eqb c "E"); [|discriminate].
  destruct (starts_with "-" s') as [t|] eqn:E1;
    [apply starts_with_length in E1
    |destruct (starts_with "+" s') as [t|] eqn:E2;
       [apply starts_with_length in E2|]];
    match goal with
    | |- context [read_digits 0 0 ?x] =>
        destruct (read_digits 0 0 x) as [[m j] r] eqn:D;
        apply read_digits_length in D;
        destruct j; [discriminate|]; intros [= <- <-]; simpl; lia
    end.
Qed.

Lemma read_number_length (s : string) (v : value) (rest : string) :
  read_number s = Some (v, rest) ->
  (String.length rest < String.length s)%nat.
Proof.
  unfold read_number.
  destruct (match starts_with "-" s with
            | Some t => (true, t)
            | None => (false, s)
            end) as [neg s1] eqn:Es.
  assert (Hs1 : (String.length s1 <= String.length s)%nat).
  { destruct (starts_with "-" s) as [t|] eqn:E.
    - apply starts_with_length in E. injection Es as <- <-. lia.
    - injection Es as <- <-. lia. }
  destruct (read_int_part s1) as [[n s2]|] eqn:Ei; [|discriminate].
  apply read_int_part_length in Ei.
  destruct (read_frac s2) as [[[f k] s3]|] eqn:Ef.
  - apply read_frac_length in Ef.
    destruct (read_exp s3) as [[e s4]|] eqn:Ee.
    + apply read_exp_length in Ee. intros [= <- <-]. lia.
    + intros [= <- <-]. lia.
  - destruct (read_exp s2) as [[e s3]|] eqn:Ee.
    + apply read_exp_length in Ee. intros [= <- <-]. lia.
    + intros [= <- <-]. lia.
Qed.

Lemma read_escape_length (s : string) (ch : ascii) (rest : string) :
  read_escape s = Some (ch, rest) ->
  (String.length rest < String.length s)%nat.
Proof.
  unfold read_escape. destruct s as [|e r]; [discriminate|].
  repeat match goal with
         | |- context [if Ascii.eqb e ?c then _ else _] =>
             destruct (Ascii.eqb e c);
             [intros [= <- <-]; simpl; lia|]
         end.
  destruct (Ascii.eqb e "u"); [|discriminate].
  destruct r as [|h1 [|h2 [|h3 [|h4 r4]]]]; try discriminate.
  destruct (hex_of h1) as [[|?]|]; try discriminate.
  destruct (hex_of h2) as [[|?]|]; try discriminate.
  destruct (hex_of h3) as [?|]; try discriminate.
  destruct (hex_of h4) as [?|]; try discriminate.
  intros [= <- <-]. simpl. lia.
Qed.

Lemma read_string_body_length (fuel : nat) : forall s t rest,
  read_string_body fuel s = Some (t, rest) ->
  (String.length rest < String.length s)%nat.
Proof.
  induction fuel as [|fuel IH]; intros s t rest; simpl; [discriminate|].
  destruct s as [|c s']; [discriminate|].
  destruct (Ascii.eqb c dquote); [intros [= <- <-]; simpl; lia|].
  destruct (Ascii.eqb c "\").
  - destruct (read_escape s') as [[ch r]|] eqn:Ee; [|discriminate].
    apply read_escape_length in Ee.
    destruct (read_string_body fuel r) as [[t' r']|] eqn:Eb; [|discriminate].
    apply IH in Eb. intros [= <- <-]. simpl. lia.
  - destruct (nat_of_ascii c <? 32)%nat; [discriminate|].
    destruct (read_string_body fuel s') as [[t' r']|] eqn:Eb; [|discriminate].
    apply IH in Eb. intros [= <- <-]. simpl. lia.
Qed.

Lemma read_string_length (s t rest : string) :
  read_string s = Some (t, rest) ->
  (String.length rest < String.length s)%nat.
Proof. apply read_string_body_length. Qed.

Lemma parse_value_step (fuel : nat) (s : string) :
  parse_value (S fuel) s =
    match s with
    | EmptyString => Malformed
    | String c s' =>
        if Ascii.eqb c dquote then
          match read_string s' with
          | Some (t, rest) => Parsed (VStr t) rest
          | None => Malformed
          end
        else if Ascii.eqb c "{" then
          match starts_with "}" (skip_ws s') with
          | Some rest => Parsed (VDict ∅) rest
          | None => parse_members fuel (skip_ws s') ∅
          end
        else if Ascii.eqb c "[" then
          match starts_with "]" (skip_ws s') with
          | Some rest => Parsed (VList []) rest
          | None => parse_elements fuel (skip_ws s') []
          end
        else
          match strip_prefix "null" s, strip_prefix "true" s,
                strip_prefix "false" s with
          | Some rest, _, _ => Parsed VNone rest
          | None, Some rest, _ => Parsed (VBool true) rest
          | None, None, Some rest => Parsed (VBool false) rest
          | None, None, None =>
              match read_number s with
              | Some (v, rest) => Parsed v rest
              | None => Malformed
              end
          end
    end.
Proof. destruct s; reflexivity. Qed.

Lemma parse_elements_step (fuel : nat) (s : string) (acc : list value) :
  parse_elements (S fuel) s acc =
    match parse_value fuel s with
    | Parsed v rest =>
        match starts_with "," (skip_ws rest), starts_with "]" (skip_ws rest) with
        | Some rest', _ => parse_elements fuel (skip_ws rest') (acc ++ [v])
        | None, Some rest' => Parsed (VList (acc ++ [v])) rest'
        | None, None => Malformed
        end
    | Malformed => Malformed
    | Exhausted => Exhausted
    end.
Proof. reflexivity. Qed.

Lemma parse_members_step (fuel : nat) (s : string) (acc : dict) :
  parse_members (S fuel) s acc =
    match starts_with dquote s with
    | Some s' =>
        match read_string s' with
        | Some (key, rest) =>
            match starts_with ":" (skip_ws rest) with
            | Some rest' =>
                match parse_value fuel (skip_ws rest') with
                | Parsed v rest'' =>
                    match starts_with "," (skip_ws rest''),
                          starts_with "}" (skip_ws rest'') with
                    | Some rest3, _ =>
                        parse_members fuel (skip_ws rest3) (<[key := v]> acc)
                    | None, Some rest3 =>
                        Parsed (VDict (<[key := v]> acc)) rest3
                    | None, None => Malformed
                    end
                | Malformed => Malformed
                | Exhausted => Exhausted
                end
            | None => Malformed
            end
        | None => Malformed
        end
    | None => Malformed
    end.
Proof. reflexivity. Qed.

(** Every successful parse consumes text. *)
Lemma parse_consumes (fuel : nat) :
  (forall s v rest,
     parse_value fuel s = Parsed v rest ->
     (String.length rest < String.length s)%nat) /\
  (forall s acc v rest,
     parse_elements fuel s acc = Parsed v rest ->
     (String.length rest < String.length s)%nat) /\
  (forall s acc v rest,
     parse_members fuel s acc = Parsed v rest ->
     (String.length rest < String.length s)%nat).
Proof.
  induction fuel as [|fuel (IHv & IHe & IHm)].
  { repeat split; intros; discriminate. }
  split; [|split].
  - intros s v rest. rewrite parse_value_step.
    destruct s as [|c s']; [discriminate|].
    destruct (Ascii.eqb c dquote).
    { destruct (read_string s') as [[t r]|] eqn:E; [|discriminate].
      apply read_string_length in E. intros [= <- <-]. simpl. lia. }
    pose proof (skip_ws_length s') as Hws.
    destruct (Ascii.eqb c "{").
    { destruct (starts_with "}" (skip_ws s')) as [r|] eqn:E.
      - apply starts_with_length in E. intros [= <- <-]. simpl. lia.
      - intros H. apply IHm in H. simpl. lia. }
    destruct (Ascii.eqb c "[").
    { destruct (starts_with "]" (skip_ws s')) as [r|] eqn:E.
      - apply starts_with_length in E. intros [= <- <-]. simpl. lia.
      - intros H. apply IHe in H. simpl. lia. }
    destruct (strip_prefix "null" (String c s')) as [r|] eqn:E1.
    { apply strip_prefix_length in E1. intros [= <- <-]. simpl in *. lia. }
    destruct (strip_prefix "true" (String c s')) as [r|] eqn:E2.
    { apply strip_prefix_length in E2. intros [= <- <-]. simpl in *. lia. }
    destruct (strip_prefix "false" (String c s')) as [r|] eqn:E3.
    { apply strip_prefix_length in E3. intros [= <- <-]. simpl in *. lia. }
    destruct (read_number (String c s')) as [[w r]|] eqn:E4; [|discriminate].
    apply read_number_length in E4. intros [= <- <-]. exact E4.
  - intros s acc v rest. rewrite parse_elements_step.
    destruct (parse_value fuel s) as [w r| |] eqn:Ev; try discriminate.
    apply IHv in Ev. pose proof (skip_ws_length r) as Hws.
    destruct (starts_with "," (skip_ws r)) as [r'|] eqn:E1.
    { apply starts_with_length in E1. pose proof (skip_ws_length r') as Hws'.
      intros H. apply IHe in H. lia. }
    destruct (starts_with "]" (skip_ws r)) as [r'|] eqn:E2; [|discriminate].
    apply starts_with_length in E2. intros [= <- <-]. lia.
  - intros s acc v rest. rewrite parse_members_step.
    destruct (starts_with dquote s) as [s'|] eqn:E0; [|discriminate].
    apply starts_with_length in E0.
    destruct (read_string s') as [[key r]|] eqn:Es; [|discriminate].
    apply read_string_length in Es. pose proof (skip_ws_length r) as Hws.
    destruct (starts_with ":" (skip_ws r)) as [r'|] eqn:Ec; [|discriminate].
    apply starts_with_length in Ec. pose proof (skip_ws_length r') as Hws'.
    destruct (parse_value fuel (skip_ws r')) as [w r2| |] eqn:Ev;
      try discriminate.
    apply IHv in Ev. pose proof (skip_ws_length r2) as Hws2.
    destruct (starts_with "," (skip_ws r2)) as [r3|] eqn:E1.
    { apply starts_with_length in E1. pose proof (skip_ws_length r3) as Hws3.
      intros H. apply IHm in H. lia. }
    destruct (starts_with "}" (skip_ws r2)) as [r3|] eqn:E2; [|discriminate].
    apply starts_with_length in E2. intros [= <- <-]. lia.
Qed.

(** Twice the length of the text, and one more, is fuel enough. *)
Lemma parse_fuel_enough (fuel : nat) :
  (forall s,
     (2 * String.length s < fuel)%nat -> parse_value fuel s <> Exhausted) /\
  (forall s acc,
     (2 * String.length s + 1 < fuel)%nat ->
     parse_elements fuel s acc <> Exhausted) /\
  (forall s acc,
     (2 * String.length s + 1 < fuel)%nat ->
     parse_members fuel s acc <> Exhausted).
Proof.
  induction fuel as [|fuel (IHv & IHe & IHm)].
  { repeat split; intros; lia. }
  destruct (parse_consumes fuel) as (Cv & _ & _).
  split; [|split].
  - intros s Hfuel. rewrite parse_value_step.
    destruct s as [|c s']; [discriminate|]. simpl in Hfuel.
    destruct (Ascii.eqb c dquote).
    { destruct (read_string s') as [[t r]|]; discriminate. }
    pose proof (skip_ws_length s') as Hws.
    destruct (Ascii.eqb c "{").
    { destruct (starts_with "}" (skip_ws s')); [discriminate|].
      apply IHm. lia. }
    destruct (Ascii.eqb c "[").
    { destruct (starts_with "]" (skip_ws s')); [discriminate|].
      apply IHe. lia. }
    destruct (strip_prefix "null" (String c s')); [discriminate|].
    destruct (strip_prefix "true" (String c s')); [discriminate|].
    destruct (strip_prefix "false" (String c s')); [discriminate|].
    destruct (read_number (String c s')) as [[w r]|]; discriminate.
  - intros s acc Hfuel. rewrite parse_elements_step.
    destruct (parse_value fuel s) as [w r| |] eqn:Ev.
    + apply Cv in Ev. pose proof (skip_ws_length r) as Hws.
      destruct (starts_with "," (skip_ws r)) as [r'|] eqn:E1.
      { apply starts_with_length in E1. pose proof (skip_ws_length r') as Hws'.
        apply IHe. lia. }
      destruct (starts_with "]" (skip_ws r)); discriminate.
    + discriminate.
    + exfalso. revert Ev. apply IHv. lia.
  - intros s acc Hfuel. rewrite parse_members_step.
    destruct (starts_with dquote s) as [s'|] eqn:E0; [|discriminate].
    apply starts_with_length in E0.
    destruct (read_string s') as [[key r]|] eqn:Es; [|discriminate].
    apply read_string_length in Es. pose proof (skip_ws_length r) as Hws.
    destruct (starts_with ":" (skip_ws r)) as [r'|] eqn:Ec; [|discriminate].
    apply starts_with_length in Ec. pose proof (skip_ws_length r') as Hws'.
    destruct (parse_value fuel (skip_ws r')) as [w r2| |] eqn:Ev.
    + apply Cv in Ev. pose proof (skip_ws_length r2) as Hws2.
      destruct (starts_with "," (skip_ws r2)) as [r3|] eqn:E1.
      { apply starts_with_length in E1. pose proof (skip_ws_length r3) as Hws3.
        apply IHm. lia. }
      destruct (starts_with "}" (skip_ws r2)); discriminate.
    + discriminate.
    + exfalso. revert Ev. apply IHv. lia.
Qed.

(** The decoder never gives up for want of fuel: [None] from
    [json_loads] is a malformed text. *)
Lemma json_decode_total (text : string) : json_decode text <> Exhausted.
Proof.
  unfold json_decode.
  destruct (parse_value (2 * String.length text + 1) (skip_ws text))
    as [v r| |] eqn:E.
  - destruct (skip_ws r); discriminate.
  - discriminate.
  - exfalso. revert E.
    apply (proj1 (parse_fuel_enough (2 * String.length text + 1))).
    pose proof (skip_ws_length text). lia.
Qed.

Lemma read_string_body_escape_char (c : ascii) (fuel : nat) (tail : string) :
  read_string_body (S fuel) (escape_char c ++ tail) =
    match read_string_body fuel tail with
    | Some (t, rest) => Some (String c t, rest)
    | None => None
    end.
Proof.
  destruct c as [[] [] [] [] [] [] [] []]; reflexivity.
Qed.

Lemma append_cons (c : ascii) (a b : string) : String c a ++ b = String c (a ++ b).
Proof. reflexivity. Qed.

Lemma append_empty (b : string) : EmptyString ++ b = b.
Proof. reflexivity. Qed.

Lemma append_assoc (a b c : string) : (a ++ b) ++ c = a ++ (b ++ c).
Proof.
  induction a as [|x a IH]; [reflexivity|].
  rewrite !append_cons, IH. reflexivity.
Qed.

Lemma read_string_body_escape (s : string) : forall fuel rest,
  (String.length s < fuel)%nat ->
  read_string_body fuel (escape s ++ String dquote rest) = Some (s, rest).
Proof.
  induction s as [|c s IH]; intros fuel rest Hfuel.
  - destruct fuel; [simpl in Hfuel; lia|]. reflexivity.
  - destruct fuel; [simpl in Hfuel; lia|]. simpl in Hfuel.
    simpl escape. rewrite append_assoc, read_string_body_escape_char.
    rewrite IH by lia. reflexivity.
Qed.

Lemma escape_char_length (c : ascii) : (1 <= String.length (escape_char c))%nat.
Proof. destruct c as [[] [] [] [] [] [] [] []]; vm_compute; lia. Qed.

Lemma append_length (a b : string) :
  String.length (a ++ b) = (String.length a + String.length b)%nat.
Proof.
  induction a as [|x a IH]; [reflexivity|].
  rewrite append_cons. simpl. rewrite IH. reflexivity.
Qed.

Lemma escape_length (s : string) : (String.length s <= String.length (escape s))%nat.
Proof.
  induction s as [|c s IH]; simpl; [lia|].
  rewrite append_length. pose proof (escape_char_length c). lia.
Qed.

Lemma read_string_escape (s rest : string) :
  read_string (escape s ++ String dquote rest) = Some (s, rest).
Proof.
  unfold read_string. apply read_string_body_escape.
  rewrite append_length. simpl. pose proof (escape_length s). lia.
Qed.

(** *** Integers *)

Lemma pretty_N_go_app (x : N) : forall s rest,
  pretty_N_go x s ++ rest = pretty_N_go x (s ++ rest).
Proof.
  induction (N.lt_wf_0 x) as [x _ IH]. intros s rest.
  destruct (decide (x = 0)%N) as [->|Hx].
  - rewrite !pretty_N_go_0. reflexivity.
  - rewrite (pretty_N_go_step x s), (pretty_N_go_step x (s ++ rest)) by lia.
    rewrite IH by (apply N.div_lt; lia). reflexivity.
Qed.

Lemma digit_of_pretty_N_char (d : N) :
  (d < 10)%N -> digit_of (pretty_N_char d) = Some (Z.of_N d).
Proof.
  intros Hd.
  assert (d = 0 \/ d = 1 \/ d = 2 \/ d = 3 \/ d = 4 \/ d = 5 \/ d = 6 \/
          d = 7 \/ d = 8 \/ d = 9)%N as H by lia.
  repeat (destruct H as [->|H]; [reflexivity|]). subst. reflexivity.
Qed.

Lemma read_digits_pretty_N_go (x : N) :
  exists n : nat, forall acc k s,
    read_digits acc k (pretty_N_go x s) =
    read_digits (acc * 10 ^ Z.of_nat n + Z.of_N x)%Z (k + n) s.
Proof.
  induction (N.lt_wf_0 x) as [x _ IH].
  destruct (decide (x = 0)%N) as [->|Hx].
  - exists 0%nat. intros acc k s. rewrite pretty_N_go_0.
    replace (acc * 10 ^ Z.of_nat 0 + Z.of_N 0)%Z with acc by (simpl; lia).
    replace (k + 0)%nat with k by lia. reflexivity.
  - destruct (IH (x `div` 10)%N) as [n Hn]; [apply N.div_lt; lia|].
    exists (S n). intros acc k s.
    rewrite pretty_N_go_step by lia. rewrite Hn.
    cbn [read_digits].
    rewrite digit_of_pretty_N_char by (apply N.mod_lt; lia).
    replace (S (k + n)) with (k + S n)%nat by lia.
    replace (10 * (acc * 10 ^ Z.of_nat n + Z.of_N (x `div` 10))
             + Z.of_N (x `mod` 10))%Z
      with (acc * 10 ^ Z.of_nat (S n) + Z.of_N x)%Z; [reflexivity|].
    rewrite Nat2Z.inj_succ, Z.pow_succ_r by lia.
    rewrite N2Z.inj_div, N2Z.inj_mod.
    pose proof (Z.div_mod (Z.of_N x) 10 ltac:(lia)). lia.
Qed.

Lemma pretty_N_go_head (x : N) : forall s,
  (0 < x)%N ->
  exists c t d,
    pretty_N_go x s = String c t /\ digit_of c = Some (Z.pos d).
Proof.
  induction (N.lt_wf_0 x) as [x _ IH]. intros s Hx.
  rewrite pretty_N_go_step by lia.
  destruct (decide (x `div` 10 = 0)%N) as [Hz|Hz].
  - rewrite Hz, pretty_N_go_0.
    assert (Hlt : (x < 10)%N).
    { pose proof (N.div_mod x 10 ltac:(lia)) as Hdm.
      pose proof (N.mod_lt x 10 ltac:(lia)) as Hm. rewrite Hz in Hdm. lia. }
    rewrite N.mod_small by lia.
    exists (pretty_N_char x), s.
    destruct x as [|p]; [lia|]. exists p. split; [reflexivity|].
    apply (digit_of_pretty_N_char (N.pos p) Hlt).
  - apply IH.
    + apply N.div_lt; lia.
    + destruct (x `div` 10)%N; [congruence | lia].
Qed.

Lemma delimits_cases (rest : string) :
  delimits rest = true ->
  rest = EmptyString \/ exists c t, rest = String c t /\
    (c = "," \/ c = "]" \/ c = "}")%char.
Proof.
  destruct rest as [|c t]; [auto|]. simpl. intros H. right. exists c, t.
  split; [reflexivity|].
  apply orb_true_iff in H as [H|H]; [apply orb_true_iff in H as [H|H]|];
    apply Ascii.eqb_eq in H; auto.
Qed.

Lemma read_digits_delimits (acc : Z) (k : nat) (rest : string) :
  delimits rest = true -> read_digits acc k rest = (acc, k, rest).
Proof.
  intros H. apply delimits_cases in H as [-> | (c & t & Heq & Hc)];
    [reflexivity|].
  subst rest. destruct Hc as [-> | [-> | ->]]; reflexivity.
Qed.

Lemma read_frac_delimits (rest : string) :
  delimits rest = true -> read_frac rest = None.
Proof.
  intros H. apply delimits_cases in H as [-> | (c & t & Heq & Hc)];
    [reflexivity|].
  subst rest. destruct Hc as [-> | [-> | ->]]; reflexivity.
Qed.

Lemma read_exp_delimits (rest : string) :
  delimits rest = true -> read_exp rest = None.
Proof.
  intros H. apply delimits_cases in H as [-> | (c & t & Heq & Hc)];
    [reflexivity|].
  subst rest. destruct Hc as [-> | [-> | ->]]; reflexivity.
Qed.

Lemma read_int_part_pretty (p : positive) (rest : string) :
  delimits rest = true ->
  read_int_part (pretty (N.pos p) ++ rest) = Some (Z.pos p, rest).
Proof.
  intros Hrest. unfold pretty, pretty_N.
  destruct (decide (N.pos p = 0)%N) as [H|_]; [discriminate H|].
  rewrite pretty_N_go_app, append_empty.
  destruct (pretty_N_go_head (N.pos p) rest ltac:(lia)) as (c & t & d & Heq & Hd).
  destruct (read_digits_pretty_N_go (N.pos p)) as [n Hn].
  specialize (Hn 0%Z 0%nat rest). rewrite Heq in Hn.
  cbn [read_digits] in Hn. rewrite Hd in Hn.
  rewrite Heq. unfold read_int_part. rewrite Hd.
  replace (10 * 0 + Z.pos d)%Z with (Z.pos d) in Hn by lia.
  rewrite Hn, read_digits_delimits by exact Hrest.
  replace (0 * 10 ^ Z.of_nat n + Z.of_N (N.pos p))%Z with (Z.pos p) by lia.
  reflexivity.
Qed.

Lemma pretty_pos_head (p : positive) (rest : string) :
  exists c t d,
    pretty (N.pos p) ++ rest = String c t /\ digit_of c = Some (Z.pos d).
Proof.
  unfold pretty, pretty_N.
  destruct (decide (N.pos p = 0)%N) as [H|_]; [discriminate H|].
  rewrite pretty_N_go_app, append_empty.
  apply pretty_N_go_head. lia.
Qed.

Lemma digit_head (c : ascii) (d : Z) :
  digit_of c = Some d ->
  Ascii.eqb c dquote = false /\ Ascii.eqb c "{" = false /\
  Ascii.eqb c "[" = false /\ Ascii.eqb c "n" = false /\
  Ascii.eqb c "t" = false /\ Ascii.eqb c "f" = false /\
  Ascii.eqb c "-" = false /\ is_json_ws c = false /\
  Ascii.eqb c "]" = false /\ Ascii.eqb c "}" = false.
Proof.
  destruct c as [[] [] [] [] [] [] [] []]; vm_compute; intros H;
    try discriminate H; repeat split.
Qed.

Lemma strip_prefix_head (p s : string) (a c : ascii) :
  Ascii.eqb c a = false -> strip_prefix (String a p) (String c s) = None.
Proof.
  intros H. simpl. rewrite Ascii.eqb_sym, H. reflexivity.
Qed.

Lemma read_number_pretty_Z (z : Z) (rest : string) :
  delimits rest = true ->
  read_number (pretty z ++ rest) = Some (VInt z, rest).
Proof.
  intros Hrest. destruct z as [|p|p].
  - change (pretty 0%Z) with "0". rewrite append_cons, append_empty.
    unfold read_number. simpl starts_with. cbn [read_int_part digit_of].
    change (digit_of "0") with (Some 0%Z). cbv iota beta.
    rewrite read_frac_delimits, read_exp_delimits by exact Hrest. reflexivity.
  - change (pretty (Z.pos p)) with (pretty (N.pos p)).
    destruct (pretty_pos_head p rest) as (c & t & d & Heq & Hd).
    pose proof (read_int_part_pretty p rest Hrest) as Hint.
    destruct (digit_head c _ Hd) as (_ & _ & _ & _ & _ & _ & Hm & _).
    assert (Hs : starts_with "-" (pretty (N.pos p) ++ rest) = None).
    { rewrite Heq. simpl. rewrite Hm. reflexivity. }
    unfold read_number. rewrite Hs. cbv beta iota zeta. rewrite Hint.
    rewrite read_frac_delimits, read_exp_delimits by exact Hrest. reflexivity.
  - change (pretty (Z.neg p)) with ("-" ++ pretty (N.pos p)).
    rewrite append_assoc.
    pose proof (read_int_part_pretty p rest Hrest) as Hint.
    unfold read_number. rewrite append_cons, append_empty.
    simpl starts_with. cbv beta iota zeta. rewrite Hint.
    rewrite read_frac_delimits, read_exp_delimits by exact Hrest. reflexivity.
Qed.

(** *** Floats *)

Lemma find_scale_sound (fuel : nat) : forall k den n,
  find_scale fuel k den = Some n ->
  (k <= n)%nat /\ den = Z.to_pos (10 ^ Z.of_nat n).
Proof.
  induction fuel as [|fuel IH]; intros k den n H; [discriminate H|].
  simpl in H. destruct (Pos.eqb_spec (Z.to_pos (10 ^ Z.of_nat k)) den) as [E|E].
  - injection H as <-. split; [lia | symmetry; exact E].
  - apply IH in H as [Hle Hden]. split; [lia | exact Hden].
Qed.

Lemma scale_of_sound (den : positive) (k : nat) :
  scale_of den = Some k -> (1 <= k)%nat /\ den = Z.to_pos (10 ^ Z.of_nat k).
Proof. apply find_scale_sound. Qed.

Lemma fixed_go_app (k : nat) : forall f s rest,
  fixed_go k f s ++ rest = fixed_go k f (s ++ rest).
Proof.
  induction k as [|k IH]; intros f s rest; [reflexivity|].
  simpl. rewrite IH. reflexivity.
Qed.

Lemma read_digits_fixed_go (k : nat) : forall f acc c s,
  (0 <= f < 10 ^ Z.of_nat k)%Z ->
  read_digits acc c (fixed_go k f s) =
  read_digits (acc * 10 ^ Z.of_nat k + f)%Z (c + k) s.
Proof.
  induction k as [|k IH]; intros f acc c s Hf.
  - change (Z.of_nat 0) with 0%Z in *. rewrite Z.pow_0_r in *.
    replace (acc * 1 + f)%Z with acc by lia.
    replace (c + 0)%nat with c by lia. reflexivity.
  - cbn [fixed_go].
    rewrite Nat2Z.inj_succ, Z.pow_succ_r in Hf by lia.
    pose proof (Z.div_mod f 10 ltac:(lia)) as Hdm.
    pose proof (Z.mod_pos_bound f 10 ltac:(lia)) as Hm.
    rewrite IH by (split; [apply Z.div_pos; lia | apply Z.div_lt_upper_bound; lia]).
    cbn [read_digits].
    rewrite digit_of_pretty_N_char by lia.
    rewrite Z2N.id by lia.
    replace (S (c + k)) with (c + S k)%nat by lia.
    replace (10 * (acc * 10 ^ Z.of_nat k + f / 10) + f mod 10)%Z
      with (acc * 10 ^ Z.of_nat (S k) + f)%Z; [reflexivity|].
    rewrite Nat2Z.inj_succ, Z.pow_succ_r by lia. lia.
Qed.

Lemma read_int_part_pretty_N (n : N) (c : ascii) (t : string) :
  digit_of c = None ->
  read_int_part (pretty n ++ String c t) = Some (Z.of_N n, String c t).
Proof.
  intros Hc.
  destruct n as [|p].
  - change (pretty 0%N) with "0". rewrite append_cons, append_empty.
    reflexivity.
  - unfold pretty, pretty_N.
    destruct (decide (N.pos p = 0)%N) as [H|_]; [discriminate H|].
    rewrite pretty_N_go_app, append_empty.
    destruct (pretty_N_go_head (N.pos p) (String c t) ltac:(lia))
      as (a & r & d & Heq & Hd).
    destruct (read_digits_pretty_N_go (N.pos p)) as [n Hn].
    specialize (Hn 0%Z 0%nat (String c t)). rewrite Heq in Hn.
    cbn [read_digits] in Hn. rewrite Hd in Hn.
    rewrite Heq. unfold read_int_part. rewrite Hd.
    replace (10 * 0 + Z.pos d)%Z with (Z.pos d) in Hn by lia.
    rewrite Hn, Hc.
    replace (0 * 10 ^ Z.of_nat n + Z.of_N (N.pos p))%Z with (Z.pos p) by lia.
    reflexivity.
Qed.

Lemma pretty_N_head (n : N) (rest : string) :
  exists c t d, pretty n ++ rest = String c t /\ digit_of c = Some d.
Proof.
  destruct n as [|p].
  - exists "0"%char, rest, 0%Z. split; reflexivity.
  - destruct (pretty_pos_head p rest) as (c & t & d & Heq & Hd).
    exists c, t, (Z.pos d). split; assumption.
Qed.

Lemma dump_float_head (q : Q) (text rest : string) :
  dump_float q = Some text ->
  exists c t d,
    text ++ rest = String c t /\ (digit_of c = Some d \/ c = "-"%char).
Proof.
  unfold dump_float. destruct (scale_of (Qden q)) as [k|]; [|discriminate].
  intros [= <-]. destruct (Qnum q <? 0)%Z.
  - exists "-"%char. eexists. exists 0%Z. split; [|right; reflexivity].
    rewrite !append_assoc, append_cons, append_empty. reflexivity.
  - rewrite append_empty, !append_assoc.
    destruct (pretty_N_head (Z.to_N (Z.abs (Qnum q) / 10 ^ Z.of_nat k))
                ("." ++ fixed_go k (Z.abs (Qnum q) mod 10 ^ Z.of_nat k) "" ++ rest))
      as (c & t & d & Heq & Hd).
    exists c, t, d. split; [exact Heq | left; exact Hd].
Qed.

Lemma vsize_list_elem (l : list value) (v : value) :
  In v l -> (vsize v < vsize (VList l))%nat.
Proof.
  simpl. induction l as [|x l IH]; simpl; [tauto|].
  intros [->|H]; [lia|]. apply IH in H. lia.
Qed.

Lemma vsize_dict_elem (d : dict) (k : string) (v : value) :
  d !! k = Some v -> (vsize v < vsize (VDict d))%nat.
Proof.
  intros H. simpl.
  rewrite (map_fold_delete_L _ _ k v d); [lia| |exact H].
  intros. lia.
Qed.

Lemma json_dumps_list (l : list value) :
  json_dumps (VList l) =
    match mapM json_dumps l with
    | Some parts => Some ("[" ++ join ", " parts ++ "]")
    | None => None
    end.
Proof. reflexivity. Qed.

Lemma json_dumps_dict (d : dict) :
  json_dumps (VDict d) =
    match mapM dump_item (map_to_list (json_dumps <$> d)) with
    | Some items => Some ("{" ++ join ", " items ++ "}")
    | None => None
    end.
Proof. reflexivity. Qed.

Lemma json_dumps_head (v : value) (text : string) :
  json_dumps v = Some text ->
  exists c t, text = String c t /\ opens_value c = true.
Proof.
  destruct v as [|[]|z|q|s|l|d].
  - intros [= <-]. eexists _, _. split; reflexivity.
  - intros [= <-]. eexists _, _. split; reflexivity.
  - intros [= <-]. eexists _, _. split; reflexivity.
  - intros [= <-]. destruct z as [|p|p].
    + eexists _, _. split; reflexivity.
    + destruct (pretty_pos_head p "") as (c & t & d & Heq & Hd).
      exists c, t. split.
      * change (pretty (Z.pos p)) with (pretty (N.pos p)).
        rewrite <- Heq. clear. induction (pretty (N.pos p)) as [|a r IH];
          [reflexivity|]. rewrite append_cons, <- IH. reflexivity.
      * clear Heq. destruct c as [[] [] [] [] [] [] [] []];
          vm_compute in Hd; try discriminate Hd; reflexivity.
    + eexists _, _. split; reflexivity.
  - cbn [json_dumps]. intros Hdump.
    destruct (dump_float_head q text "" Hdump) as (c & t & d & Heq & Hc).
    exists c, t. split.
    + rewrite <- Heq. clear. induction text as [|a r IH];
        [reflexivity|]. rewrite append_cons, <- IH. reflexivity.
    + clear Heq. destruct Hc as [Hc | ->]; [|reflexivity].
      destruct c as [[] [] [] [] [] [] [] []];
        vm_compute in Hc; try discriminate Hc; reflexivity.
  - intros [= <-]. eexists _, _. split; reflexivity.
  - rewrite json_dumps_list. destruct (mapM json_dumps l); [|discriminate].
    intros [= <-]. eexists _, _. split; reflexivity.
  - rewrite json_dumps_dict. destruct (mapM dump_item _); [|discriminate].
    intros [= <-]. eexists _, _. split; reflexivity.
Qed.

Lemma skip_ws_head (c : ascii) (t : string) :
  is_json_ws c = false -> skip_ws (String c t) = String c t.
Proof. intros H. simpl. rewrite H. reflexivity. Qed.

Lemma starts_with_same (c : ascii) (t : string) :
  starts_with c (String c t) = Some t.
Proof. simpl. rewrite Ascii.eqb_refl. reflexivity. Qed.

Lemma starts_with_other (c a : ascii) (t : string) :
  Ascii.eqb a c = false -> starts_with c (String a t) = None.
Proof. intros H. simpl. rewrite H. reflexivity. Qed.

Lemma skip_ws_space (t : string) : skip_ws (String " " t) = skip_ws t.
Proof. reflexivity. Qed.

Lemma opens_value_inv (c : ascii) :
  opens_value c = true ->
  is_json_ws c = false /\ Ascii.eqb c "," = false /\ Ascii.eqb c "]" = false /\
  Ascii.eqb c "}" = false /\ Ascii.eqb c ":" = false.
Proof.
  unfold opens_value. rewrite !andb_true_iff, !negb_true_iff. tauto.
Qed.

Lemma join_cons2 (sep x y : string) (rest : list string) :
  join sep (x :: y :: rest) = x ++ sep ++ join sep (y :: rest).
Proof. reflexivity. Qed.

Lemma join_head (sep : string) (parts : list string) (c : ascii) (t : string) :
  (exists rest, parts = String c t :: rest) ->
  exists t', join sep parts = String c t'.
Proof.
  intros [rest ->]. destruct rest as [|y rest].
  - exists t. reflexivity.
  - rewrite join_cons2, append_cons. eexists. reflexivity.
Qed.

Lemma elements_read_back (l : list value) : forall parts,
  Forall2 (fun v t => json_dumps v = Some t) l parts ->
  l <> [] ->
  (forall v, In v l -> reads_back v) ->
  forall fuel acc rest,
    (2 * String.length (join ", " parts) + 1 < fuel)%nat ->
    parse_elements fuel (join ", " parts ++ String "]" rest) acc =
      Parsed (VList (acc ++ l)%list) rest.
Proof.
  induction l as [|v l IH]; intros parts Hparts Hne Hall fuel acc rest Hfuel;
    [congruence|].
  inversion Hparts as [|? t ? ps Hv Hrest]; subst. clear Hne.
  destruct fuel as [|fuel]; [lia|]. rewrite parse_elements_step.
  destruct l as [|v2 l].
  - inversion Hrest; subst. simpl join in *.
    rewrite (Hall v (or_introl eq_refl) t Hv fuel (String "]" rest));
      [|lia|reflexivity].
    reflexivity.
  - inversion Hrest as [|? t2 ? ps2 Hv2 Hrest2]; subst.
    rewrite join_cons2 in *. rewrite !append_assoc.
    rewrite !append_length in Hfuel.
    change (String.length ", ") with 2%nat in Hfuel.
    rewrite (Hall v (or_introl eq_refl) t Hv fuel
               (", " ++ join ", " (t2 :: ps2) ++ String "]" rest));
      [|lia|reflexivity].
    rewrite (append_cons "," " "), (append_cons " " ""), append_empty.
    destruct (json_dumps_head v2 t2 Hv2) as (c & t' & -> & Hc).
    destruct (join_head ", " (String c t' :: ps2) c t' (ex_intro _ ps2 eq_refl))
      as [tj Hj].
    apply opens_value_inv in Hc as (Hws & _).
    rewrite (skip_ws_head "," _ eq_refl), starts_with_same, skip_ws_space.
    assert (Hskip : skip_ws (join ", " (String c t' :: ps2) ++ String "]" rest)
                    = join ", " (String c t' :: ps2) ++ String "]" rest).
    { rewrite Hj, append_cons. apply skip_ws_head. exact Hws. }
    rewrite Hskip.
    rewrite (IH _ Hrest ltac:(discriminate)
               (fun w Hw => Hall w (or_intror Hw)) fuel (acc ++ [v])%list rest);
      [|lia].
    rewrite <- app_assoc. reflexivity.
Qed.

Lemma item_shape (k t tail : string) :
  (quoted k ++ ": " ++ t) ++ tail =
  String dquote (escape k ++ String dquote (String ":" (String " " (t ++ tail)))).
Proof.
  unfold quoted.
  repeat (rewrite ?append_cons, ?append_assoc, ?append_empty). reflexivity.
Qed.

Lemma item_length (k t : string) :
  (String.length t + 4 <= String.length (quoted k ++ ": " ++ t))%nat.
Proof.
  unfold quoted. rewrite !append_length. simpl String.length.
  rewrite !append_length. simpl. lia.
Qed.

Lemma members_read_back (kvs : list (string * value)) : forall items,
  Forall2 (fun kv item =>
             exists t, json_dumps kv.2 = Some t /\
                       item = quoted kv.1 ++ ": " ++ t) kvs items ->
  kvs <> [] ->
  (forall kv, In kv kvs -> reads_back kv.2) ->
  forall fuel acc rest,
    (2 * String.length (join ", " items) + 1 < fuel)%nat ->
    parse_members fuel (join ", " items ++ String "}" rest) acc =
      Parsed (VDict (fold_left (fun d kv => <[kv.1 := kv.2]> d) kvs acc)) rest.
Proof.
  induction kvs as [|[k v] kvs IH];
    intros items Hitems Hne Hall fuel acc rest Hfuel; [congruence|].
  inversion Hitems as [|? item ? its (t & Hv & ->) Hrest]; subst. clear Hne.
  destruct fuel as [|fuel]; [lia|]. rewrite parse_members_step.
  simpl fst in *. simpl snd in *.
  destruct (json_dumps_head v t Hv) as (c & t' & -> & Hc).
  apply opens_value_inv in Hc as (Hws & _).
  pose proof (item_length k (String c t')) as Hlen.
  destruct kvs as [|[k2 v2] kvs].
  - inversion Hrest; subst. simpl join in *.
    rewrite item_shape, starts_with_same, read_string_escape.
    rewrite (skip_ws_head ":" _ eq_refl), starts_with_same, skip_ws_space.
    rewrite append_cons, (skip_ws_head c _ Hws), <- append_cons.
    rewrite (Hall (k, v) (or_introl eq_refl) _ Hv fuel (String "}" rest));
      [|lia|reflexivity].
    reflexivity.
  - inversion Hrest as [|? item2 ? its2 (t2 & Hv2 & ->) Hrest2]; subst.
    simpl fst in *. simpl snd in *.
    rewrite join_cons2 in *. rewrite append_assoc, item_shape.
    rewrite !append_length in Hfuel.
    change (String.length ", ") with 2%nat in Hfuel.
    rewrite starts_with_same, read_string_escape.
    rewrite (skip_ws_head ":" _ eq_refl), starts_with_same, skip_ws_space.
    rewrite append_cons, (skip_ws_head c _ Hws), <- append_cons.
    rewrite append_assoc.
    rewrite (Hall (k, v) (or_introl eq_refl) _ Hv fuel
               (", " ++ join ", " ((quoted k2 ++ ": " ++ t2) :: its2)
                ++ String "}" rest));
      [|lia|reflexivity].
    rewrite (append_cons "," " "), (append_cons " " ""), append_empty.
    rewrite (skip_ws_head "," _ eq_refl), starts_with_same, skip_ws_space.
    assert (Hskip :
      skip_ws (join ", " ((quoted k2 ++ ": " ++ t2) :: its2) ++ String "}" rest)
      = join ", " ((quoted k2 ++ ": " ++ t2) :: its2) ++ String "}" rest).
    { destruct (join_head ", " ((quoted k2 ++ ": " ++ t2) :: its2) dquote
                  (escape k2 ++ String dquote "" ++ ": " ++ t2)) as [tj Hj].
      { exists its2. unfold quoted. rewrite append_cons, append_assoc.
        reflexivity. }
      rewrite Hj, append_cons. apply skip_ws_head. reflexivity. }
    rewrite Hskip.
    rewrite (IH _ Hrest ltac:(discriminate)
               (fun w Hw => Hall w (or_intror Hw)) fuel (<[k := v]> acc) rest);
      [|lia].
    reflexivity.
Qed.

Lemma append_empty_r (s : string) : s ++ EmptyString = s.
Proof.
  induction s as [|c s IH]; [reflexivity|]. rewrite append_cons, IH. reflexivity.
Qed.

Lemma fold_insert_union (kvs : list (string * value)) : forall acc : dict,
  NoDup (kvs.*1) ->
  (forall k, k ∈ kvs.*1 -> acc !! k = None) ->
  fold_left (fun d kv => <[kv.1 := kv.2]> d) kvs acc = list_to_map kvs ∪ acc.
Proof.
  induction kvs as [|[k v] kvs IH]; intros acc Hnd Hfresh; simpl.
  - rewrite (left_id_L ∅ (∪)). reflexivity.
  - apply NoDup_cons in Hnd as [Hk Hnd].
    rewrite IH; [|exact Hnd|].
    + rewrite <- insert_union_l.
      rewrite <- insert_union_r; [reflexivity|].
      apply not_elem_of_list_to_map_1. exact Hk.
    + intros k' Hk'. rewrite lookup_insert_ne.
      * apply Hfresh. right. exact Hk'.
      * intros ->. contradiction.
Qed.

Lemma fold_insert_map_to_list (d : dict) :
  fold_left (fun m kv => <[kv.1 := kv.2]> m) (map_to_list d) ∅ = d.
Proof.
  rewrite fold_insert_union.
  - rewrite (right_id_L ∅ (∪)). apply list_to_map_to_list.
  - apply NoDup_fst_map_to_list.
  - intros k _. apply lookup_empty.
Qed.

Lemma read_number_dump_float (q : Q) (text rest : string) :
  dump_float q = Some text ->
  delimits rest = true ->
  read_number (text ++ rest) = Some (VFloat q, rest).
Proof.
  unfold dump_float.
  destruct (scale_of (Qden q)) as [k|] eqn:Hk; [|discriminate].
  apply scale_of_sound in Hk as [Hk Hden].
  intros [= <-] Hrest. destruct q as [num den]. cbn [Qnum Qden] in *.
  set (p := (10 ^ Z.of_nat k)%Z) in *.
  assert (Hp : (0 < p)%Z) by (apply Z.pow_pos_nonneg; lia).
  set (m := Z.abs num).
  pose proof (Z.div_mod m p ltac:(lia)) as Hdm.
  pose proof (Z.mod_pos_bound m p Hp) as Hmod.
  assert (Hdiv : (0 <= m / p)%Z) by (apply Z.div_pos; lia).
  set (frac := fixed_go k (m mod p) "").
  assert (Hbody :
    read_int_part (pretty (Z.to_N (m / p)) ++ "." ++ frac ++ rest) =
      Some ((m / p)%Z, String "." (frac ++ rest))).
  { rewrite (read_int_part_pretty_N _ "." (frac ++ rest) eq_refl).
    rewrite Z2N.id by lia. reflexivity. }
  assert (Hfrac : read_frac (String "." (frac ++ rest)) =
                  Some ((m mod p)%Z, k, rest)).
  { unfold read_frac. rewrite starts_with_same. subst frac.
    rewrite fixed_go_app, append_empty.
    rewrite (read_digits_fixed_go k (m mod p) 0 0 rest) by lia.
    rewrite read_digits_delimits by exact Hrest.
    replace (0 * 10 ^ Z.of_nat k + m mod p)%Z with (m mod p)%Z by lia.
    destruct k as [|k']; [lia|]. reflexivity. }
  assert (Hval : forall mant, mant = num ->
    decimal mant (- Z.of_nat k) = Qmake num den).
  { intros mant ->. unfold decimal.
    assert (Hneg : (0 <=? - Z.of_nat k)%Z = false) by (apply Z.leb_gt; lia).
    rewrite Hneg, Z.opp_involutive. fold p. rewrite Hden. reflexivity. }
  destruct (Z.ltb_spec num 0) as [Hlt|Hge].
  - rewrite !append_assoc, append_cons, append_empty.
    unfold read_number. rewrite starts_with_same. cbv beta iota zeta.
    rewrite <- !append_assoc. rewrite !append_assoc.
    rewrite Hbody, Hfrac. rewrite read_exp_delimits by exact Hrest.
    rewrite Hval; [reflexivity|]. subst m. lia.
  - rewrite append_empty, !append_assoc.
    destruct (pretty_N_head (Z.to_N (m / p)) ("." ++ frac ++ rest))
      as (c & t & d & Heq & Hd).
    destruct (digit_head c d Hd) as (_ & _ & _ & _ & _ & _ & Hminus & _).
    assert (Hs : starts_with "-"
                   (pretty (Z.to_N (m / p)) ++ "." ++ frac ++ rest) = None).
    { rewrite Heq. simpl. rewrite Hminus. reflexivity. }
    unfold read_number. rewrite Hs. cbv beta iota zeta.
    rewrite Hbody, Hfrac. rewrite read_exp_delimits by exact Hrest.
    rewrite Hval; [reflexivity|]. subst m. lia.
Qed.

Lemma reads_back_all (n : nat) : forall v, (vsize v < n)%nat -> reads_back v.
Proof.
  induction n as [|n IH]; intros v Hsize; [lia|].
  intros text Hdump fuel rest Hfuel Hrest.
  destruct fuel as [|fuel]; [lia|].
  destruct v as [|[]|z|q|s|l|d].
  - injection Hdump as <-. reflexivity.
  - injection Hdump as <-. reflexivity.
  - injection Hdump as <-. reflexivity.
  - injection Hdump as <-.
    assert (Hhead : exists c t d,
              pretty z ++ rest = String c t /\
              (digit_of c = Some d \/ c = "-"%char)).
    { destruct z as [|p|p].
      - exists "0"%char, rest, 0%Z. split; [reflexivity|]. left. reflexivity.
      - destruct (pretty_pos_head p rest) as (c & t & d & Heq & Hd).
        exists c, t, (Z.pos d). split; [exact Heq|]. left. exact Hd.
      - exists "-"%char, (pretty (N.pos p) ++ rest), 0%Z.
        split; [|right; reflexivity].
        change (pretty (Z.neg p)) with ("-" ++ pretty (N.pos p)).
        rewrite append_assoc. reflexivity. }
    destruct Hhead as (c & t & d & Heq & Hc).
    pose proof (read_number_pretty_Z z rest Hrest) as Hnum.
    rewrite Heq in *. rewrite parse_value_step.
    assert (Hno : Ascii.eqb c dquote = false /\ Ascii.eqb c "{" = false /\
                  Ascii.eqb c "[" = false /\ Ascii.eqb c "n" = false /\
                  Ascii.eqb c "t" = false /\ Ascii.eqb c "f" = false).
    { destruct Hc as [Hc | ->]; [|repeat split].
      destruct (digit_head c d Hc) as (? & ? & ? & ? & ? & ? & _). tauto. }
    destruct Hno as (H1 & H2 & H3 & H4 & H5 & H6).
    rewrite H1, H2, H3.
    rewrite (strip_prefix_head _ _ "n" c H4), (strip_prefix_head _ _ "t" c H5),
      (strip_prefix_head _ _ "f" c H6).
    rewrite Hnum. reflexivity.
  - cbn [json_dumps] in Hdump.
    destruct (dump_float_head q text rest Hdump) as (c & t & d & Heq & Hc).
    pose proof (read_number_dump_float q text rest Hdump Hrest) as Hnum.
    rewrite Heq in *. rewrite parse_value_step.
    assert (Hno : Ascii.eqb c dquote = false /\ Ascii.eqb c "{" = false /\
                  Ascii.eqb c "[" = false /\ Ascii.eqb c "n" = false /\
                  Ascii.eqb c "t" = false /\ Ascii.eqb c "f" = false).
    { destruct Hc as [Hc | ->]; [|repeat split].
      destruct (digit_head c d Hc) as (? & ? & ? & ? & ? & ? & _). tauto. }
    destruct Hno as (H1 & H2 & H3 & H4 & H5 & H6).
    rewrite H1, H2, H3.
    rewrite (strip_prefix_head _ _ "n" c H4), (strip_prefix_head _ _ "t" c H5),
      (strip_prefix_head _ _ "f" c H6).
    rewrite Hnum. reflexivity.
  - injection Hdump as <-. unfold quoted.
    repeat (rewrite ?append_cons, ?append_assoc, ?append_empty).
    rewrite parse_value_step, Ascii.eqb_refl, read_string_escape. reflexivity.
  - rewrite json_dumps_list in Hdump.
    destruct (mapM json_dumps l) as [parts|] eqn:Hparts; [|discriminate Hdump].
    injection Hdump as <-. apply mapM_Some in Hparts.
    assert (Hshape : ("[" ++ join ", " parts ++ "]") ++ rest =
                     String "[" (join ", " parts ++ String "]" rest)).
    { repeat (rewrite ?append_cons, ?append_assoc, ?append_empty).
      reflexivity. }
    assert (Hlen : String.length ("[" ++ join ", " parts ++ "]") =
                   (String.length (join ", " parts) + 2)%nat).
    { rewrite append_cons, append_empty. simpl String.length.
      rewrite append_length. simpl. lia. }
    rewrite Hshape. rewrite Hlen in Hfuel. clear Hshape Hlen.
    rewrite parse_value_step. change (Ascii.eqb "[" dquote) with false.
    change (Ascii.eqb "[" "{") with false. change (Ascii.eqb "[" "[") with true.
    cbv iota.
    destruct l as [|v l].
    + inversion Hparts; subst. reflexivity.
    + assert (Hall : forall w, In w (v :: l) -> reads_back w).
      { intros w Hw. apply IH. apply vsize_list_elem in Hw. lia. }
      pose proof Hparts as Hparts'.
      inversion Hparts' as [|? t ? ps Hv Hps]; subst.
      destruct (json_dumps_head v t Hv) as (c & t' & -> & Hc).
      apply opens_value_inv in Hc as (Hws & _ & Hb & _).
      destruct (join_head ", " (String c t' :: ps) c t' (ex_intro _ ps eq_refl))
        as [tj Hj].
      assert (Hskip :
        skip_ws (join ", " (String c t' :: ps) ++ String "]" rest)
        = join ", " (String c t' :: ps) ++ String "]" rest).
      { rewrite Hj, append_cons. apply skip_ws_head. exact Hws. }
      rewrite Hskip.
      assert (Hstart :
        starts_with "]" (join ", " (String c t' :: ps) ++ String "]" rest)
        = None).
      { rewrite Hj, append_cons. apply starts_with_other. exact Hb. }
      rewrite Hstart.
      rewrite (elements_read_back (v :: l) _ Hparts ltac:(discriminate) Hall
                 fuel [] rest).
      * reflexivity.
      * lia.
  - rewrite json_dumps_dict in Hdump.
    destruct (mapM dump_item (map_to_list (json_dumps <$> d))) as [items|]
      eqn:Hitems; [|discriminate Hdump].
    injection Hdump as <-. apply mapM_Some in Hitems.
    rewrite map_to_list_fmap in Hitems. apply Forall2_fmap_l in Hitems.
    assert (Hitems' :
      Forall2 (fun kv item =>
                 exists t, json_dumps kv.2 = Some t /\
                           item = quoted kv.1 ++ ": " ++ t)
        (map_to_list d) items).
    { eapply Forall2_impl; [exact Hitems|].
      intros [k v] item. unfold dump_item, compose. simpl.
      destruct (json_dumps v) as [t|]; [|discriminate].
      intros [= <-]. eauto. }
    clear Hitems.
    assert (Hshape : ("{" ++ join ", " items ++ "}") ++ rest =
                     String "{" (join ", " items ++ String "}" rest)).
    { repeat (rewrite ?append_cons, ?append_assoc, ?append_empty).
      reflexivity. }
    assert (Hlen : String.length ("{" ++ join ", " items ++ "}") =
                   (String.length (join ", " items) + 2)%nat).
    { rewrite append_cons, append_empty. simpl String.length.
      rewrite append_length. simpl. lia. }
    rewrite Hshape. rewrite Hlen in Hfuel. clear Hshape Hlen.
    rewrite parse_value_step. change (Ascii.eqb "{" dquote) with false.
    change (Ascii.eqb "{" "{") with true. cbv iota.
    destruct (map_to_list d) as [|[k v] kvs] eqn:Hlist.
    + apply map_to_list_empty_iff in Hlist. subst d.
      inversion Hitems'; subst. reflexivity.
    + assert (Hall : forall kv, In kv ((k, v) :: kvs) -> reads_back kv.2).
      { intros [k' v'] Hin. apply IH. rewrite <- Hlist in Hin.
        apply list_elem_of_In, elem_of_map_to_list in Hin.
        apply vsize_dict_elem in Hin. simpl snd. lia. }
      pose proof Hitems' as Hitems2.
      inversion Hitems2 as [|? item ? its (t & Hv & ->) Hits]; subst.
      simpl fst in *. simpl snd in *.
      assert (Hj : exists tj,
                join ", " ((quoted k ++ ": " ++ t) :: its) = String dquote tj).
      { eapply join_head. exists its. unfold quoted.
        rewrite append_cons. reflexivity. }
      destruct Hj as [tj Hj].
      assert (Hskip :
        skip_ws (join ", " ((quoted k ++ ": " ++ t) :: its) ++ String "}" rest)
        = join ", " ((quoted k ++ ": " ++ t) :: its) ++ String "}" rest).
      { rewrite Hj, append_cons. apply skip_ws_head. reflexivity. }
      rewrite Hskip.
      assert (Hstart :
        starts_with "}"
          (join ", " ((quoted k ++ ": " ++ t) :: its) ++ String "}" rest)
        = None).
      { rewrite Hj, append_cons. apply starts_with_other. reflexivity. }
      rewrite Hstart.
      rewrite (members_read_back ((k, v) :: kvs) _ Hitems' ltac:(discriminate)
                 Hall fuel ∅ rest).
      * rewrite <- Hlist, fold_insert_map_to_list. reflexivity.
      * lia.
Qed.

(** The reference decoder inverts the reference serializer. *)
Theorem json_loads_dumps (v : value) (text : string) :
  json_dumps v = Some text -> json_loads text = Some v.
Proof.
  intros Hdump. unfold json_loads, json_decode.
  destruct (json_dumps_head v text Hdump) as (c & t & -> & Hc).
  apply opens_value_inv in Hc as (Hws & _).
  rewrite (skip_ws_head c t Hws).
  rewrite <- (append_empty_r (String c t)) at 2.
  rewrite (reads_back_all (S (vsize v)) v ltac:(lia) _ Hdump _ EmptyString);
    [reflexivity|lia|reflexivity].
Qed.

Lemma parse_members_dict (fuel : nat) : forall s acc v rest,
  parse_members fuel s acc = Parsed v rest -> is_dict v = true.
Proof.
  induction fuel as [|fuel IH]; intros s acc v rest; [discriminate|].
  rewrite parse_members_step.
  destruct (starts_with dquote s) as [s'|]; [|discriminate].
  destruct (read_string s') as [[key r]|]; [|discriminate].
  destruct (starts_with ":" (skip_ws r)) as [r'|]; [|discriminate].
  destruct (parse_value fuel (skip_ws r')) as [w r2| |]; try discriminate.
  destruct (starts_with "," (skip_ws r2)) as [r3|]; [apply IH|].
  destruct (starts_with "}" (skip_ws r2)) as [r3|]; [|discriminate].
  intros [= <- <-]. reflexivity.
Qed.

(** Text that starts with an opening brace decodes to a mapping or not
    at all. *)
Lemma json_loads_braces (t : string) (v : value) :
  json_loads (String "{" t) = Some v -> is_dict v = true.
Proof.
  unfold json_loads, json_decode.
  rewrite (skip_ws_head "{" t eq_refl).
  replace (2 * String.length (String "{" t) + 1)%nat
    with (S (2 * String.length (String "{" t)))%nat by lia.
  rewrite parse_value_step.
  change (Ascii.eqb "{" dquote) with false.
  change (Ascii.eqb "{" "{") with true. cbv iota.
  destruct (starts_with "}" (skip_ws t)) as [r|].
  - destruct (skip_ws r); [|discriminate]. intros [= <-]. reflexivity.
  - destruct (parse_members _ (skip_ws t) ∅) as [w r| |] eqn:E;
      try discriminate.
    apply parse_members_dict in E.
    destruct (skip_ws r); [|discriminate]. intros [= <-]. exact E.
Qed.

End Codec.

(** ** The rate limiter *)

Section RateLimiter.

Lemma Qltb_lt (x y : Q) : Qltb x y = true <-> (x < y)%Q.
Proof.
  unfold Qltb. rewrite negb_true_iff. split.
  - intros H. apply Qnot_le_lt. intros Hle.
    apply Qle_bool_iff in Hle. congruence.
  - intros H. destruct (Qle_bool y x) eqn:E; [|reflexivity].
    apply Qle_bool_iff in E. exfalso. apply (Qlt_not_le _ _ H E).
Qed.

Lemma prune_In (t : Q) (times : list Q) (x : Q) :
  In x (prune t times) <-> In x times /\ (t - x < 60)%Q.
Proof.
  unfold prune. rewrite filter_In. rewrite Qltb_lt. reflexivity.
Qed.

Lemma prune_length (t : Q) (times : list Q) :
  (length (prune t times) <= length times)%nat.
Proof. unfold prune. apply List.filter_length_le. Qed.

Lemma ascending_from_sorted (lo : Q) (l : list Q) :
  ascending_from lo l = true <-> StronglySorted Qle (lo :: l).
Proof.
  revert lo. induction l as [|x rest IH]; intros lo; simpl.
  - split; [intros _; repeat constructor | reflexivity].
  - rewrite andb_true_iff, Qle_bool_iff, IH. split.
    + intros [Hlo Hs]. constructor; [exact Hs|].
      constructor; [exact Hlo|].
      apply StronglySorted_inv in Hs as [_ Hall].
      eapply List.Forall_impl; [|exact Hall].
      intros y Hy. simpl in Hy. eapply Qle_trans; eassumption.
    + intros Hs. apply StronglySorted_inv in Hs as [Hs Hall].
      split; [|exact Hs]. apply List.Forall_inv in Hall. exact Hall.
Qed.

Lemma ascending_sorted (l : list Q) :
  ascending l = true <-> StronglySorted Qle l.
Proof.
  destruct l as [|x rest]; simpl.
  - split; [constructor | reflexivity].
  - apply ascending_from_sorted.
Qed.

Lemma prune_sorted (t : Q) (times : list Q) :
  StronglySorted Qle times -> StronglySorted Qle (prune t times).
Proof.
  induction 1 as [|x rest Hs IH Hall]; simpl; [constructor|].
  destruct (Qltb (t - x) 60); [|exact IH].
  constructor; [exact IH|].
  apply List.Forall_forall. intros y Hy. apply prune_In in Hy as [Hy _].
  rewrite List.Forall_forall in Hall. auto.
Qed.

Lemma sorted_snoc (l : list Q) (t : Q) :
  StronglySorted Qle l -> Forall (fun x => (x <= t)%Q) l ->
  StronglySorted Qle (l ++ [t])%list.
Proof.
  induction 1 as [|x rest Hs IH Hall]; intros Hle; simpl.
  - repeat constructor.
  - inversion Hle as [|? ? Hx Hrest]; subst.
    constructor; [auto|].
    apply List.Forall_app. split; [exact Hall|].
    constructor; [exact Hx|constructor].
Qed.

(** While the window has room the request goes out at once. *)
Lemma rate_limit_room (env : Env) (self : FMPTool) :
  (Z.of_nat (length (prune (now env) (request_times self))) < max_rpm self)%Z ->
  rate_limit env self =
    (Ok (now env),
     set_request_times self
       (prune (now env) (request_times self) ++ [now env])%list,
     []).
Proof.
  intros Hroom. unfold rate_limit.
  destruct (Z.leb_spec (max_rpm self)
              (Z.of_nat (length (prune (now env) (request_times self)))));
    [lia | reflexivity].
Qed.

(** A full window makes the call sleep until its oldest stamp is a minute
    old. *)
Lemma rate_limit_full (env : Env) (self : FMPTool) :
  (1 <= max_rpm self)%Z ->
  (max_rpm self <= Z.of_nat (length (prune (now env) (request_times self))))%Z ->
  exists oldest rest,
    prune (now env) (request_times self) = oldest :: rest /\
    (0 < 60 - (now env - oldest))%Q /\
    rate_limit env self =
      (Ok (woke_at env oldest),
       set_request_times self
         (prune (woke_at env oldest) (oldest :: rest)
          ++ [woke_at env oldest])%list,
       [Sleep (60 - (now env - oldest))%Q]).
Proof.
  intros Hpos Hfull. unfold rate_limit.
  destruct (Z.leb_spec (max_rpm self)
              (Z.of_nat (length (prune (now env) (request_times self)))));
    [|lia].
  destruct (prune (now env) (request_times self)) as [|oldest rest] eqn:Hp.
  - simpl in Hfull. lia.
  - exists oldest, rest. split; [reflexivity|].
    assert (Hin : In oldest (prune (now env) (request_times self)))
      by (rewrite Hp; left; reflexivity).
    apply prune_In in Hin as [_ Hlt].
    assert (Hwait : (0 < 60 - (now env - oldest))%Q) by lra.
    split; [exact Hwait|].
    apply Qltb_lt in Hwait. rewrite Hwait. reflexivity.
Qed.

Lemma make_request_unfold (py_str : value -> string) (env : Env)
    (endpoint : string) (params : option dict) (self : FMPTool) :
  _make_request py_str env endpoint params self =
    match rate_limit env self with
    | (Ok _, issued, tr) =>
        (Ok (interpret py_str endpoint (resp env)), issued,
         (tr ++ [HttpGet (base_url self ++ "/" ++ endpoint)
                   (<["apikey" := VStr (api_key self)]> (default ∅ params)) 10])%list)
    | (Raise e, issued, tr) => (Raise e, issued, tr)
    end.
Proof.
  unfold _make_request, mbind, M_bind, emit, mret, M_ret.
  destruct (rate_limit env self) as [[[t|e] issued] tr]; simpl; reflexivity.
Qed.

Lemma forallb_Qle (times : list Q) (t : Q) :
  forallb (fun x => Qle_bool x t) times = true ->
  Forall (fun x => (x <= t)%Q) times.
Proof.
  intros H. apply List.Forall_forall. intros x Hx.
  rewrite forallb_forall in H. apply Qle_bool_iff. auto.
Qed.

Lemma sorted_head_least (oldest : Q) (rest : list Q) :
  StronglySorted Qle (oldest :: rest) -> Forall (Qle oldest) rest.
Proof. intros H. apply StronglySorted_inv in H as [_ H]. exact H. Qed.

(** What one pass through the limiter leaves behind, from a window in
    order and a clock that does not run back. *)
Lemma rate_limit_spec (env : Env) (self : FMPTool) :
  (1 <= max_rpm self)%Z ->
  window_ok self = true ->
  forallb (fun t => Qle_bool t (now env)) (request_times self) = true ->
  Qle_bool 0 (lag env) = true ->
  let pruned := prune (now env) (request_times self) in
  exists t kept tr,
    rate_limit env self = (Ok t, set_request_times self (kept ++ [t])%list, tr) /\
    (now env <= t)%Q /\
    (Z.of_nat (length kept) < max_rpm self)%Z /\
    Forall (fun x => (t - 60 < x)%Q /\ (x <= t)%Q) kept /\
    StronglySorted Qle kept /\
    ((Z.of_nat (length pruned) < max_rpm self)%Z /\
       kept = pruned /\ t = now env /\ tr = []
     \/
     exists oldest rest,
       pruned = oldest :: rest /\
       Z.of_nat (length pruned) = max_rpm self /\
       Forall (Qle oldest) rest /\
       (0 < 60 - (now env - oldest))%Q /\
       t = woke_at env oldest /\
       kept = prune t pruned /\
       tr = [Sleep (60 - (now env - oldest))%Q] /\
       (oldest + 60 <= t)%Q).
Proof.
  intros Hpos Hok Hpast Hlag pruned.
  apply andb_true_iff in Hok as [Hlen Hasc].
  apply Z.leb_le in Hlen. apply ascending_sorted in Hasc.
  apply forallb_Qle in Hpast. apply Qle_bool_iff in Hlag.
  pose proof (prune_length (now env) (request_times self)) as Hpl.
  pose proof (prune_sorted (now env) _ Hasc) as Hps.
  fold pruned in Hpl, Hps.
  assert (Hin_pruned : forall x, In x pruned ->
            (now env - 60 < x)%Q /\ (x <= now env)%Q).
  { intros x Hx. apply prune_In in Hx as [Hx Hlt].
    rewrite List.Forall_forall in Hpast. specialize (Hpast x Hx). split; lra. }
  destruct (Z.lt_ge_cases (Z.of_nat (length pruned)) (max_rpm self))
    as [Hroom | Hfull].
  - exists (now env), pruned, []. rewrite (rate_limit_room env self Hroom).
    fold pruned. repeat split; try reflexivity.
    + lra.
    + exact Hroom.
    + apply List.Forall_forall. intros x Hx.
      destruct (Hin_pruned x Hx). split; lra.
    + exact Hps.
    + left. repeat split; auto.
  - destruct (rate_limit_full env self Hpos Hfull)
      as (oldest & rest & Hp & Hwait & Heq).
    fold pruned in Hp.
    set (t := woke_at env oldest) in *.
    assert (Ht : (oldest + 60 <= t)%Q) by (unfold t, woke_at; lra).
    assert (Hnow : (now env <= t)%Q) by (unfold t, woke_at; lra).
    assert (Hdrop : prune t (oldest :: rest) = prune t rest).
    { unfold prune. simpl.
      destruct (Qltb (t - oldest) 60) eqn:E; [|reflexivity].
      apply Qltb_lt in E. lra. }
    exists t, (prune t pruned), [Sleep (60 - (now env - oldest))%Q].
    rewrite Heq, Hp. repeat split.
    + exact Hnow.
    + rewrite Hdrop. pose proof (prune_length t rest) as Hr.
      rewrite Hp in Hpl. simpl in Hpl. lia.
    + apply List.Forall_forall. intros x Hx.
      apply prune_In in Hx as [Hx Hlt]. rewrite <- Hp in Hx.
      destruct (Hin_pruned x Hx). split; lra.
    + apply prune_sorted. rewrite <- Hp. exact Hps.
    + right. exists oldest, rest. rewrite Hp in Hps, Hpl, Hfull.
      repeat split; auto.
      * simpl in *. lia.
      * apply sorted_head_least. exact Hps.
Qed.

(** The limiter keeps the window in order and within the budget. *)
Lemma rate_limit_keeps_window (env : Env) (self : FMPTool) :
  (1 <= max_rpm self)%Z ->
  window_ok self = true ->
  forallb (fun t => Qle_bool t (now env)) (request_times self) = true ->
  Qle_bool 0 (lag env) = true ->
  max_rpm (tool_after (rate_limit env self)) = max_rpm self /\
  window_ok (tool_after (rate_limit env self)) = true.
Proof.
  intros Hpos Hok Hpast Hlag.
  destruct (rate_limit_spec env self Hpos Hok Hpast Hlag)
    as (t & kept & tr & Heq & _ & Hlen & Hin & Hs & _).
  rewrite Heq. unfold tool_after, window_ok. simpl. split; [reflexivity|].
  apply andb_true_iff. split.
  - apply Z.leb_le. rewrite length_app. simpl. lia.
  - apply ascending_sorted. apply sorted_snoc; [exact Hs|].
    eapply List.Forall_impl; [|exact Hin]. intros x [_ Hx]. exact Hx.
Qed.

Lemma make_request_tool (py_str : value -> string) (env : Env)
    (endpoint : string) (params : option dict) (self : FMPTool) :
  tool_after (_make_request py_str env endpoint params self) =
  tool_after (rate_limit env self).
Proof.
  rewrite make_request_unfold.
  destruct (rate_limit env self) as [[[t|e] issued] tr]; reflexivity.
Qed.

(** A property of single calls holds of every step of a well-timed run. *)
Lemma run_steps (py_str : value -> string) (P : step -> Prop) (budget : Z) :
  (1 <= budget)%Z ->
  (forall self c,
     max_rpm self = budget ->
     window_ok self = true ->
     forallb (fun t => Qle_bool t (now (call_env c))) (request_times self) = true ->
     Qle_bool 0 (lag (call_env c)) = true ->
     P (mkStep self c
          (_make_request py_str (call_env c) (call_endpoint c)
             (call_params c) self))) ->
  forall calls self,
    max_rpm self = budget ->
    window_ok self = true ->
    well_timed self calls = true ->
    Forall P (run py_str self calls).
Proof.
  intros Hpos Hstep calls.
  induction calls as [|c rest IH]; intros self Hb Hok Hwt; simpl.
  - constructor.
  - simpl in Hwt. apply andb_true_iff in Hwt as [Hwt Hrest].
    apply andb_true_iff in Hwt as [Hpast Hlag].
    constructor.
    + apply Hstep; assumption.
    + rewrite make_request_tool.
      assert (Hpos' : (1 <= max_rpm self)%Z) by lia.
      destruct (rate_limit_keeps_window (call_env c) self Hpos' Hok Hpast Hlag)
        as [Hm Hw].
      apply IH; [congruence | exact Hw | exact Hrest].
Qed.



(** The burst, run: the first two calls go out at once, the third sleeps
    58 seconds and is sent at second 60, although its request then times
    out. *)
Example burst_traces :
  map (fun s => (trace (step_outcome s),
                 request_times (tool_after (step_outcome s))))
    (run str_of burst_tool burst_calls) =
  [ ([request_of burst_tool (mkCall (mkEnv 0 0 RespTimeout) "profile/AAPL" None)],
     [0%Q]);
    ([request_of burst_tool (mkCall (mkEnv 0 0 RespTimeout) "quote/AAPL" None)],
     [0%Q; 1%Q]);
    ([Sleep 58%Q;
      request_of burst_tool (mkCall (mkEnv 0 0 RespTimeout) "ratios-ttm/AAPL" None)],
     [1%Q; 60%Q]) ].
Proof. vm_compute. reflexivity. Qed.

(** The budget must be positive: with [max_rpm = 0] the full-window test
    holds on the empty window, whose first entry does not exist, and the
    call raises before any request is sent. *)
Example zero_budget_raises :
  _make_request str_of timed_out "quote/AAPL" None
    (mkFMPTool "demo" "https://host/api/v3" 0 []) =
  (Raise (Exn "IndexError" "list index out of range"),
   mkFMPTool "demo" "https://host/api/v3" 0 [], []).
Proof. reflexivity. Qed.

(** C2.  Along a well-timed run of a client with a budget of at least one
    request a minute, the tool in which each request is issued is the
    one the limiter leaves: its window holds at most [max_rpm] stamps,
    each within the 60 seconds that end at the stamp [t] of the request,
    and [t] itself is its last entry.  The stamp is recorded before the
    request goes out, and whatever the network then answers, a failure
    included, the window after the call is the same. *)
Theorem window_at_request (py_str : value -> string) (self : FMPTool)
    (calls : list call) :
  (1 <= max_rpm self)%Z ->
  window_ok self = true ->
  well_timed self calls = true ->
  Forall (fun s =>
    let before := step_before s in
    let c := step_call s in
    let env := call_env c in
    exists (t : Q) (issued : FMPTool) (waits : list event),
      rate_limit env before = (Ok t, issued, waits) /\
      step_outcome s =
        (Ok (interpret py_str (call_endpoint c) (resp env)), issued,
         (waits ++ [request_of before c])%list) /\
      (Z.of_nat (length (request_times issued)) <= max_rpm self)%Z /\
      Forall (fun x => (t - 60 < x)%Q /\ (x <= t)%Q) (request_times issued) /\
      last (request_times issued) = Some t /\
      forall answer : response,
        tool_after
          (_make_request py_str (mkEnv (now env) (lag env) answer)
             (call_endpoint c) (call_params c) before) = issued)
    (run py_str self calls).
Proof.
  intros Hpos Hok Hwt.
  apply (run_steps py_str _ (max_rpm self) Hpos); [|reflexivity|exact Hok|exact Hwt].
  clear calls Hok Hwt. intros tool c Hb Hok Hpast Hlag. simpl.
  assert (Hpos' : (1 <= max_rpm tool)%Z) by lia.
  destruct (rate_limit_spec (call_env c) tool Hpos' Hok Hpast Hlag)
    as (t & kept & tr & Heq & Hnow & Hlen & Hin & _ & _).
  exists t, (set_request_times tool (kept ++ [t])%list), tr.
  split; [exact Heq|].
  split; [rewrite make_request_unfold, Heq; reflexivity|].
  simpl. repeat split.
  - rewrite length_app. simpl. lia.
  - apply List.Forall_app. split; [exact Hin|].
    constructor; [|constructor]. split; lra.
  - apply last_snoc.
  - intros answer. rewrite make_request_tool.
    unfold rate_limit in *. simpl. rewrite Heq. reflexivity.
Qed.

Lemma window_at_request_witness :
  Forall (fun s =>
    let before := step_before s in
    let c := step_call s in
    let env := call_env c in
    exists (t : Q) (issued : FMPTool) (waits : list event),
      rate_limit env before = (Ok t, issued, waits) /\
      step_outcome s =
        (Ok (interpret str_of (call_endpoint c) (resp env)), issued,
         (waits ++ [request_of before c])%list) /\
      (Z.of_nat (length (request_times issued)) <= max_rpm burst_tool)%Z /\
      Forall (fun x => (t - 60 < x)%Q /\ (x <= t)%Q) (request_times issued) /\
      last (request_times issued) = Some t /\
      forall answer : response,
        tool_after
          (_make_request str_of (mkEnv (now env) (lag env) answer)
             (call_endpoint c) (call_params c) before) = issued)
    (run str_of burst_tool burst_calls).
Proof.
  apply (window_at_request str_of burst_tool burst_calls).
  - simpl. lia.
  - reflexivity.
  - reflexivity.
Defined.

End RateLimiter.

Section Burst.
Variable py_str : value -> string.

Lemma run_app (calls more : list call) : forall self,
  run py_str self (calls ++ more)%list =
  (run py_str self calls ++ run py_str (run_tool self calls) more)%list.
Proof.
  induction calls as [|c calls IH]; intros self; [reflexivity|].
  simpl. rewrite IH, make_request_tool. reflexivity.
Qed.

Lemma prune_recent (t : Q) (times : list Q) :
  Forall (fun x => (t - x < 60)%Q) times -> prune t times = times.
Proof.
  induction 1 as [|x rest Hx _ IH]; [reflexivity|].
  unfold prune in *. simpl. apply Qltb_lt in Hx. rewrite Hx, IH. reflexivity.
Qed.

(** Calls that find room, and only stamps of the last minute, go out at
    once and leave their stamps in order. *)
Lemma burst_goes_at_once (calls : list call) : forall self,
  (Z.of_nat (length (request_times self) + length calls) <= max_rpm self)%Z ->
  (forall c, In c calls ->
     Forall (fun x => (now (call_env c) - x < 60)%Q)
       (request_times self ++ stamps calls)%list) ->
  Forall (fun s =>
            trace (step_outcome s) = [request_of (step_before s) (step_call s)])
    (run py_str self calls) /\
  request_times (run_tool self calls) =
    (request_times self ++ stamps calls)%list /\
  max_rpm (run_tool self calls) = max_rpm self.
Proof.
  induction calls as [|c calls IH]; intros self Hroom Hrecent.
  - simpl. rewrite app_nil_r. repeat split. constructor.
  - simpl length in Hroom.
    assert (Hprune : prune (now (call_env c)) (request_times self)
                     = request_times self).
    { apply prune_recent. specialize (Hrecent c (or_introl eq_refl)).
      apply List.Forall_app in Hrecent as [H _]. exact H. }
    assert (Hrl : rate_limit (call_env c) self =
                  (Ok (now (call_env c)),
                   set_request_times self
                     (request_times self ++ [now (call_env c)])%list, [])).
    { rewrite rate_limit_room; rewrite Hprune; [reflexivity|lia]. }
    destruct (IH (set_request_times self
                    (request_times self ++ [now (call_env c)])%list))
      as (Htr & Htimes & Hmax).
    + simpl. rewrite length_app. simpl. lia.
    + intros c' Hc'. specialize (Hrecent c' (or_intror Hc')).
      simpl. rewrite <- app_assoc. exact Hrecent.
    + assert (Htool : tool_after (rate_limit (call_env c) self) =
                        set_request_times self
                          (request_times self ++ [now (call_env c)])%list)
        by (rewrite Hrl; reflexivity).
      change (run_tool self (c :: calls))
        with (run_tool (tool_after (rate_limit (call_env c) self)) calls).
      change (run py_str self (c :: calls))
        with (mkStep self c
                (_make_request py_str (call_env c) (call_endpoint c)
                   (call_params c) self)
              :: run py_str
                   (tool_after
                      (_make_request py_str (call_env c) (call_endpoint c)
                         (call_params c) self)) calls).
      rewrite make_request_tool, Htool.
      split; [|split].
      * constructor; [|exact Htr]. simpl.
        rewrite make_request_unfold, Hrl. reflexivity.
      * rewrite Htimes. simpl. rewrite <- app_assoc. reflexivity.
      * exact Hmax.
Qed.

Lemma sorted_app_last (l : list Q) (t : Q) :
  StronglySorted Qle (l ++ [t])%list ->
  StronglySorted Qle l /\ Forall (fun x => (x <= t)%Q) l.
Proof.
  induction l as [|x l IH]; simpl; intros H.
  - split; constructor.
  - apply StronglySorted_inv in H as [Hs Hall].
    destruct (IH Hs) as [Hl Hle]. split.
    + constructor; [exact Hl|].
      apply List.Forall_app in Hall as [Hall _]. exact Hall.
    + constructor; [|exact Hle].
      apply List.Forall_app in Hall as [_ Hall].
      apply List.Forall_inv in Hall. exact Hall.
Qed.

(** X22.  A fresh client with a budget of N requests, N calls and one
    more, all within less than 60 seconds.  The first N go
    out at once; the last one sleeps exactly [60 - (now - t1)] seconds,
    where [t1] is the stamp of the first call, and is sent no earlier
    than a minute after [t1]. *)
Lemma burst_delays_last_call (self : FMPTool) (first : list call) (last : call)
    (t1 : Q) (others : list Q) :
  request_times self = [] ->
  stamps first = t1 :: others ->
  max_rpm self = Z.of_nat (length first) ->
  ascending (stamps (first ++ [last])) = true ->
  Qle_bool 0 (lag (call_env last)) = true ->
  Qltb (now (call_env last) - t1) 60 = true ->
  let tool_n := run_tool self first in
  let woke := woke_at (call_env last) t1 in
  run py_str self (first ++ [last]) =
    (run py_str self first ++
     [mkStep tool_n last
        (Ok (interpret py_str (call_endpoint last) (resp (call_env last))),
         set_request_times tool_n (prune woke (stamps first) ++ [woke])%list,
         [Sleep (60 - (now (call_env last) - t1))%Q; request_of tool_n last])])%list
  /\
  Forall (fun s =>
            trace (step_outcome s) = [request_of (step_before s) (step_call s)])
    (run py_str self first) /\
  request_times tool_n = stamps first /\
  (0 < 60 - (now (call_env last) - t1))%Q /\
  (t1 + 60 <= woke)%Q.
Proof.
  intros Hfresh Hstamps Hbudget Hasc Hlag Hspan tool_n woke.
  apply Qltb_lt in Hspan. apply Qle_bool_iff in Hlag.
  apply ascending_sorted in Hasc.
  unfold stamps in Hasc. rewrite map_app in Hasc. fold (stamps first) in Hasc.
  simpl in Hasc. apply sorted_app_last in Hasc as [Hsorted Hbefore].
  assert (Hleast : Forall (fun x => (t1 <= x)%Q) (stamps first)).
  { rewrite Hstamps in *. constructor; [apply Qle_refl|].
    apply StronglySorted_inv in Hsorted as [_ H]. exact H. }
  assert (Hnon : first <> []) by (intros ->; discriminate Hstamps).
  destruct (burst_goes_at_once first self) as (Htr & Htimes & Hmax).
  { rewrite Hfresh. simpl. lia. }
  { intros c Hc. rewrite Hfresh. simpl.
    assert (Hcl : (now (call_env c) <= now (call_env last))%Q).
    { rewrite List.Forall_forall in Hbefore. apply Hbefore.
      unfold stamps. apply in_map_iff. exists c. auto. }
    eapply List.Forall_impl; [|exact Hleast]. intros x Hx. simpl in Hx. lra. }
  rewrite Hfresh in Htimes. simpl in Htimes. fold tool_n in Htimes, Hmax.
  assert (Hprune : prune (now (call_env last)) (request_times tool_n)
                   = stamps first).
  { rewrite Htimes. apply prune_recent.
    eapply List.Forall_impl; [|exact Hleast]. intros x Hx. simpl in Hx. lra. }
  assert (Hlen : length (stamps first) = length first)
    by (unfold stamps; apply length_map).
  destruct (rate_limit_full (call_env last) tool_n) as
    (oldest & rest & Hp & Hwait & Hrl).
  { rewrite Hmax, Hbudget. destruct first; [congruence|]. simpl. lia. }
  { rewrite Hprune, Hmax, Hbudget, Hlen. lia. }
  rewrite Hprune, Hstamps in Hp. injection Hp as <- <-.
  rewrite <- Hstamps in Hrl. fold woke in Hrl.
  split; [|split; [exact Htr|split; [exact Htimes|split; [exact Hwait|]]]].
  - rewrite run_app. fold tool_n. f_equal. simpl.
    rewrite make_request_unfold, Hrl. reflexivity.
  - unfold woke, woke_at. lra.
Qed.

End Burst.

(** ** The normalizers *)

Section Normalizers.

Variable py_str : value -> string.

Arguments dict_of : simpl never.
Arguments error_dict : simpl never.

Lemma has_error_error_dict (msg : string) : has_error (error_dict msg) = true.
Proof. reflexivity. Qed.

(** With a budget of at least one request the limiter never fails. *)
Lemma rate_limit_returns (env : Env) (self : FMPTool) :
  (1 <= max_rpm self)%Z ->
  exists t times tr,
    rate_limit env self = (Ok t, set_request_times self times, tr).
Proof.
  intros Hpos. unfold rate_limit.
  destruct (Z.leb_spec (max_rpm self)
              (Z.of_nat (length (prune (now env) (request_times self))))) as [Hfull|Hroom].
  - destruct (prune (now env) (request_times self)) as [|oldest rest].
    + simpl in Hfull. lia.
    + destruct (Qltb 0 (60 - (now env - oldest))); eauto.
  - eauto.
Qed.

Lemma make_request_returns (env : Env) (endpoint : string)
    (params : option dict) (self : FMPTool) :
  (1 <= max_rpm self)%Z ->
  exists times tr,
    _make_request py_str env endpoint params self =
      (Ok (interpret py_str endpoint (resp env)),
       set_request_times self times, tr).
Proof.
  intros Hpos. rewrite make_request_unfold.
  destruct (rate_limit_returns env self Hpos) as (t & times & tr & ->).
  eauto.
Qed.

Lemma returned_bind {A B : Type} (m : M A) (k : A -> M B) (self : FMPTool)
    (a : A) (self' : FMPTool) (tr : list event) :
  m self = (Ok a, self', tr) ->
  returned ((x ← m; k x) self) = returned (k a self').
Proof.
  intros H. unfold mbind, M_bind. rewrite H.
  destruct (k a self') as [[r s] tr']. reflexivity.
Qed.

Lemma interpret_objects (endpoint : string) (r : response) (l : list value) :
  objects_only r = true ->
  interpret py_str endpoint r = VList l ->
  forallb is_dict l = true.
Proof.
  intros Hobj Heq. destruct r as [data| | | | |]; try discriminate Heq.
  simpl in Heq.
  destruct (is_dict data && truthy _); [discriminate Heq|].
  destruct (negb (truthy data)); [discriminate Heq|].
  subst data. exact Hobj.
Qed.

Lemma summaries_objects (l : list value) :
  forallb is_dict l = true ->
  exists articles, summaries l = Ok articles /\ length articles = length l.
Proof.
  induction l as [|a rest IH]; simpl; intros H.
  - exists []. auto.
  - apply andb_true_iff in H as [Ha Hrest].
    destruct a; try discriminate Ha.
    destruct (IH Hrest) as (articles & Heq & Hlen).
    unfold mbind, result_bind. simpl. rewrite Heq.
    eexists. split; [reflexivity|]. simpl. congruence.
Qed.

Lemma first_or_empty_object (endpoint : string) (r : response) :
  objects_only r = true ->
  exists d, first_or_empty (interpret py_str endpoint r) = VDict d.
Proof.
  intros Hobj.
  destruct (interpret py_str endpoint r) as [| | | | |l|] eqn:Hd;
    try (exists ∅; reflexivity).
  pose proof (interpret_objects _ _ _ Hobj Hd) as Hl.
  destruct l as [|first rest]; [exists ∅; reflexivity|].
  simpl in Hl. apply andb_true_iff in Hl as [Hf _].
  destruct first; try discriminate Hf. eexists. reflexivity.
Qed.

Lemma news_paths (self : FMPTool) (env : Env) (ticker : value) :
  invalid_ticker ticker = false ->
  (1 <= max_rpm self)%Z ->
  objects_only (resp env) = true ->
  exists d,
    returned (get_news_sentiment py_str env ticker self) = Ok d /\
    d !! "symbol" = Some (VStr (normalize ticker)).
Proof.
  intros Hv Hpos Hobj. unfold get_news_sentiment. rewrite Hv.
  set (params := Some _).
  destruct (make_request_returns env "stock_news" params self Hpos)
    as (times & tr & Heq).
  rewrite (returned_bind _ _ _ _ _ _ Heq).
  set (data := interpret py_str "stock_news" (resp env)) in *.
  destruct (has_error data) eqn:He.
  - eexists. split; reflexivity.
  - destruct data as [| | | | |l|] eqn:Hd;
      try (eexists; split; reflexivity).
    destruct (summaries_objects l (interpret_objects _ _ _ Hobj Hd))
      as (articles & Hs & _).
    unfold mbind, M_bind, lift. rewrite Hs.
    eexists. split; reflexivity.
Qed.

Lemma profile_paths (self : FMPTool) (env : Env) (ticker : value) :
  invalid_ticker ticker = false ->
  normalize ticker <> "" ->
  (1 <= max_rpm self)%Z ->
  objects_only (resp env) = true ->
  exists d,
    returned (get_company_profile py_str env ticker self) = Ok d /\
    let data := interpret py_str ("profile/" ++ normalize ticker) (resp env) in
    if has_error data then d !! "symbol" = None /\ is_Some (d !! "error")
    else
      match data with
      | VList (_ :: _) =>
          d !! "symbol" = Some (VStr (normalize ticker)) /\ d !! "error" = None
      | _ => d !! "symbol" = None /\ is_Some (d !! "error")
      end.
Proof.
  intros Hv Hne Hpos Hobj. unfold get_company_profile. rewrite Hv.
  apply String.eqb_neq in Hne. rewrite Hne.
  destruct (make_request_returns env ("profile/" ++ normalize ticker) None
              self Hpos) as (times & tr & Heq).
  rewrite (returned_bind _ _ _ _ _ _ Heq). cbv zeta.
  set (data := interpret py_str ("profile/" ++ normalize ticker) (resp env)) in *.
  destruct (has_error data) eqn:He.
  - eexists. split; [reflexivity|]. split; [reflexivity|eexists; reflexivity].
  - destruct data as [| | | | |l|] eqn:Hd;
      try (eexists; split; [reflexivity|];
           split; [reflexivity|eexists; reflexivity]).
    pose proof (interpret_objects _ _ _ Hobj Hd) as Hl.
    destruct l as [|profile rest].
    + eexists. split; [reflexivity|].
      split; [reflexivity|eexists; reflexivity].
    + simpl in Hl. apply andb_true_iff in Hl as [Hp _].
      destruct profile; try discriminate Hp.
      eexists. split; [reflexivity|]. split; reflexivity.
Qed.

Lemma quote_paths (self : FMPTool) (env : Env) (ticker : value) :
  invalid_ticker ticker = false ->
  (1 <= max_rpm self)%Z ->
  objects_only (resp env) = true ->
  exists d,
    returned (get_stock_quote py_str env ticker self) = Ok d /\
    let data := interpret py_str ("quote/" ++ normalize ticker) (resp env) in
    if has_error data then d !! "symbol" = None /\ is_Some (d !! "error")
    else
      d !! "symbol" = Some (VStr (normalize ticker)) /\
      match data with
      | VList (_ :: _) => d !! "error" = None
      | _ => is_Some (d !! "error")
      end.
Proof.
  intros Hv Hpos Hobj. unfold get_stock_quote. rewrite Hv.
  destruct (make_request_returns env ("quote/" ++ normalize ticker) None
              self Hpos) as (times & tr & Heq).
  rewrite (returned_bind _ _ _ _ _ _ Heq). cbv zeta.
  set (data := interpret py_str ("quote/" ++ normalize ticker) (resp env)) in *.
  destruct (has_error data) eqn:He.
  - eexists. split; [reflexivity|]. split; [reflexivity|eexists; reflexivity].
  - destruct data as [| | | | |l|] eqn:Hd;
      try (eexists; split; [reflexivity|];
           split; [reflexivity|eexists; reflexivity]).
    pose proof (interpret_objects _ _ _ Hobj Hd) as Hl.
    destruct l as [|quote rest].
    + eexists. split; [reflexivity|].
      split; [reflexivity|eexists; reflexivity].
    + simpl in Hl. apply andb_true_iff in Hl as [Hp _].
      destruct quote; try discriminate Hp.
      eexists. split; [reflexivity|]. split; reflexivity.
Qed.

(** The four answers of [get_key_financials], as [_make_request] returns
    them. *)
Lemma financials_unfold (self : FMPTool) (e1 e2 e3 e4 : Env) (ticker : value) :
  invalid_ticker ticker = false ->
  (1 <= max_rpm self)%Z ->
  let symbol := normalize ticker in
  let ratios := interpret py_str ("ratios-ttm/" ++ symbol) (resp e1) in
  let income := interpret py_str ("income-statement/" ++ symbol) (resp e2) in
  let balance :=
    interpret py_str ("balance-sheet-statement/" ++ symbol) (resp e3) in
  let cash_flow :=
    interpret py_str ("cash-flow-statement/" ++ symbol) (resp e4) in
  (has_error ratios && has_error income && has_error balance
   && has_error cash_flow = true ->
   returned (get_key_financials py_str e1 e2 e3 e4 ticker self) =
     Ok (dict_of [("error", VStr "Could not retrieve financial data")])) /\
  (has_error ratios && has_error income && has_error balance
   && has_error cash_flow = false ->
   forall r i b c,
     first_or_empty ratios = VDict r ->
     first_or_empty income = VDict i ->
     first_or_empty balance = VDict b ->
     first_or_empty cash_flow = VDict c ->
     returned (get_key_financials py_str e1 e2 e3 e4 ticker self) =
       Ok (financial_record r i b c symbol)) /\
  (has_error ratios && has_error income && has_error balance
   && has_error cash_flow = false ->
   returned (get_key_financials py_str e1 e2 e3 e4 ticker self) <>
     Ok (dict_of [("error", VStr "Could not retrieve financial data")])).
Proof.
  intros Hv Hpos symbol ratios income balance cash_flow.
  unfold get_key_financials. rewrite Hv. cbv zeta.
  destruct (make_request_returns e1 ("ratios-ttm/" ++ symbol) None self Hpos)
    as (t1 & tr1 & H1).
  rewrite (returned_bind _ _ _ _ _ _ H1). cbv beta.
  destruct (make_request_returns e2 ("income-statement/" ++ symbol) limit_1
              (set_request_times self t1) Hpos) as (t2 & tr2 & H2).
  rewrite (returned_bind _ _ _ _ _ _ H2). cbv beta.
  destruct (make_request_returns e3 ("balance-sheet-statement/" ++ symbol)
              limit_1 (set_request_times (set_request_times self t1) t2) Hpos)
    as (t3 & tr3 & H3).
  rewrite (returned_bind _ _ _ _ _ _ H3). cbv beta.
  destruct (make_request_returns e4 ("cash-flow-statement/" ++ symbol) limit_1
              (set_request_times
                 (set_request_times (set_request_times self t1) t2) t3) Hpos)
    as (t4 & tr4 & H4).
  rewrite (returned_bind _ _ _ _ _ _ H4). cbv beta.
  fold ratios income balance cash_flow.
  clear H1 H2 H3 H4.
  set (final := set_request_times _ t4).
  destruct (has_error ratios && has_error income && has_error balance
            && has_error cash_flow) eqn:Hall.
  - split; [reflexivity|]. split; intros Hno; discriminate Hno.
  - split; [intros Hno; discriminate Hno|]. split.
    + intros _ r i b c -> -> -> ->. reflexivity.
    + intros _.
      destruct (first_or_empty ratios); try (intros Hr; discriminate Hr).
      destruct (first_or_empty income); try (intros Hr; discriminate Hr).
      destruct (first_or_empty balance); try (intros Hr; discriminate Hr).
      destruct (first_or_empty cash_flow); intros Hr; discriminate Hr.
Qed.

(** C3 (amended).  For a ticker that normalizes to a non-empty string,
    a budget of at least one request and payloads whose lists hold
    objects, each of the four normalizers returns a mapping.  The key
    symbol is in it on every path of [get_news_sentiment], on the success
    path of the other three, and on the not-found path of
    [get_stock_quote].  On the other paths (upstream failure or no
    profile found for [get_company_profile], upstream failure for
    [get_stock_quote], all four sub-requests failed for
    [get_key_financials]) the mapping has the key error and no key
    symbol. *)
Theorem normalizers_symbol_paths (self : FMPTool) (env e1 e2 e3 e4 : Env)
    (ticker : value) :
  invalid_ticker ticker = false ->
  normalize ticker <> "" ->
  (1 <= max_rpm self)%Z ->
  objects_only (resp env) = true ->
  objects_only (resp e1) = true ->
  objects_only (resp e2) = true ->
  objects_only (resp e3) = true ->
  objects_only (resp e4) = true ->
  let symbol := normalize ticker in
  (exists d,
     returned (get_news_sentiment py_str env ticker self) = Ok d /\
     d !! "symbol" = Some (VStr symbol)) /\
  (exists d,
     returned (get_company_profile py_str env ticker self) = Ok d /\
     let data := interpret py_str ("profile/" ++ symbol) (resp env) in
     if has_error data then d !! "symbol" = None /\ is_Some (d !! "error")
     else
       match data with
       | VList (_ :: _) =>
           d !! "symbol" = Some (VStr symbol) /\ d !! "error" = None
       | _ => d !! "symbol" = None /\ is_Some (d !! "error")
       end) /\
  (exists d,
     returned (get_stock_quote py_str env ticker self) = Ok d /\
     let data := interpret py_str ("quote/" ++ symbol) (resp env) in
     if has_error data then d !! "symbol" = None /\ is_Some (d !! "error")
     else
       d !! "symbol" = Some (VStr symbol) /\
       match data with
       | VList (_ :: _) => d !! "error" = None
       | _ => is_Some (d !! "error")
       end) /\
  (exists d,
     returned (get_key_financials py_str e1 e2 e3 e4 ticker self) = Ok d /\
     if has_error (interpret py_str ("ratios-ttm/" ++ symbol) (resp e1))
        && has_error (interpret py_str ("income-statement/" ++ symbol) (resp e2))
        && has_error
             (interpret py_str ("balance-sheet-statement/" ++ symbol) (resp e3))
        && has_error
             (interpret py_str ("cash-flow-statement/" ++ symbol) (resp e4))
     then d !! "symbol" = None /\ is_Some (d !! "error")
     else d !! "symbol" = Some (VStr symbol) /\ d !! "error" = None).
Proof.
  intros Hv Hne Hpos Hobj H1 H2 H3 H4 symbol.
  split; [apply news_paths; assumption|].
  split; [apply profile_paths; assumption|].
  split; [apply quote_paths; assumption|].
  destruct (financials_unfold self e1 e2 e3 e4 ticker Hv Hpos)
    as (Hall & Hsome & _).
  fold symbol in Hall, Hsome.
  destruct (has_error _ && has_error _ && has_error _ && has_error _).
  - eexists. split; [apply Hall; reflexivity|].
    split; [reflexivity|eexists; reflexivity].
  - destruct (first_or_empty_object ("ratios-ttm/" ++ symbol) _ H1) as [r Hr].
    destruct (first_or_empty_object ("income-statement/" ++ symbol) _ H2)
      as [i Hi].
    destruct (first_or_empty_object ("balance-sheet-statement/" ++ symbol) _ H3)
      as [b Hb].
    destruct (first_or_empty_object ("cash-flow-statement/" ++ symbol) _ H4)
      as [c Hc].
    eexists. split; [apply (Hsome eq_refl r i b c); assumption|].
    split; reflexivity.
Qed.

(** C4 (amended).  For a valid ticker and a budget of at least one
    request: when the news endpoint answers with an empty list, the
    client reports an empty response and [get_news_sentiment] returns the
    error record, with the key error, no articles and the symbol; when it
    answers with a non-empty list of objects, the record holds one
    summary for each article, their count and the symbol, and no key
    error. *)
Theorem news_empty_list_is_an_error (self : FMPTool) (clock delay : Q)
    (ticker first : value) (rest : list value) :
  invalid_ticker ticker = false ->
  (1 <= max_rpm self)%Z ->
  forallb is_dict (first :: rest) = true ->
  returned
    (get_news_sentiment py_str (mkEnv clock delay (RespJson (VList [])))
       ticker self) =
    Ok (dict_of [
      ("error", VStr "Empty response from FMP API for stock_news");
      ("articles", VList []);
      ("symbol", VStr (normalize ticker))]) /\
  exists articles,
    summaries (first :: rest) = Ok articles /\
    length articles = S (length rest) /\
    returned
      (get_news_sentiment py_str
         (mkEnv clock delay (RespJson (VList (first :: rest)))) ticker self) =
      Ok (dict_of [
        ("articles", VList articles);
        ("count", VInt (Z.of_nat (length articles)));
        ("symbol", VStr (normalize ticker))]) /\
    dict_of [
      ("articles", VList articles);
      ("count", VInt (Z.of_nat (length articles)));
      ("symbol", VStr (normalize ticker))] !! "error" = None.
Proof.
  intros Hv Hpos Hobj. unfold get_news_sentiment. rewrite Hv. split.
  - set (params := Some _).
    destruct (make_request_returns (mkEnv clock delay (RespJson (VList [])))
                "stock_news" params self Hpos) as (times & tr & Heq).
    rewrite (returned_bind _ _ _ _ _ _ Heq). reflexivity.
  - destruct (summaries_objects _ Hobj) as (articles & Hs & Hlen).
    exists articles. split; [exact Hs|]. split; [exact Hlen|].
    split; [|reflexivity].
    set (params := Some _).
    destruct (make_request_returns
                (mkEnv clock delay (RespJson (VList (first :: rest))))
                "stock_news" params self Hpos) as (times & tr & Heq).
    rewrite (returned_bind _ _ _ _ _ _ Heq).
    change (interpret py_str "stock_news"
              (resp (mkEnv clock delay (RespJson (VList (first :: rest))))))
      with (VList (first :: rest)).
    cbv beta iota. change (has_error (VList (first :: rest))) with false.
    cbv iota. unfold mbind, M_bind, lift. rewrite Hs. reflexivity.
Qed.

(** C5.  For a valid ticker and a budget of at least one request,
    [get_key_financials] returns the aggregate error record exactly when
    all four sub-requests return errors.  When the ratios request fails
    and the three statements each answer with a list that starts with an
    object, the result has no key error: every metric of profitability,
    valuation and health is [None], and growth is read from the income
    statement, the balance sheet and the cash flow statement. *)
Theorem financials_error_iff_all_failed (self : FMPTool) (e1 e2 e3 e4 : Env)
    (ticker : value) :
  invalid_ticker ticker = false ->
  (1 <= max_rpm self)%Z ->
  let symbol := normalize ticker in
  let ratios := interpret py_str ("ratios-ttm/" ++ symbol) (resp e1) in
  let income := interpret py_str ("income-statement/" ++ symbol) (resp e2) in
  let balance :=
    interpret py_str ("balance-sheet-statement/" ++ symbol) (resp e3) in
  let cash_flow :=
    interpret py_str ("cash-flow-statement/" ++ symbol) (resp e4) in
  let result := returned (get_key_financials py_str e1 e2 e3 e4 ticker self) in
  (result = Ok (dict_of [("error", VStr "Could not retrieve financial data")])
   <-> has_error ratios = true /\ has_error income = true /\
       has_error balance = true /\ has_error cash_flow = true) /\
  (has_error ratios = true ->
   forall i ri b rb c rc,
     income = VList (VDict i :: ri) ->
     balance = VList (VDict b :: rb) ->
     cash_flow = VList (VDict c :: rc) ->
     let record := dict_of [
       ("profitability", VDict (dict_of [
          ("grossMargin", VNone);
          ("operatingMargin", VNone);
          ("netMargin", VNone);
          ("roe", VNone);
          ("roa", VNone)]));
       ("valuation", VDict (dict_of [
          ("pe", VNone);
          ("pb", VNone);
          ("ps", VNone);
          ("pfcf", VNone)]));
       ("health", VDict (dict_of [
          ("currentRatio", VNone);
          ("debtToEquity", VNone);
          ("interestCoverage", VNone)]));
       ("growth", VDict (dict_of [
          ("revenue", dict_get i "revenue");
          ("netIncome", dict_get i "netIncome");
          ("totalAssets", dict_get b "totalAssets");
          ("totalDebt", dict_get b "totalDebt");
          ("freeCashFlow", dict_get c "freeCashFlow")]));
       ("symbol", VStr symbol)] in
     result = Ok record /\ record !! "error" = None).
Proof.
  intros Hv Hpos symbol ratios income balance cash_flow result.
  destruct (financials_unfold self e1 e2 e3 e4 ticker Hv Hpos)
    as (Hall & Hsome & Hnot).
  fold symbol ratios income balance cash_flow result in Hall, Hsome, Hnot.
  split.
  - split.
    + intros Hres.
      destruct (has_error ratios && has_error income && has_error balance
                && has_error cash_flow) eqn:E.
      * repeat (apply andb_true_iff in E as [E ?]). auto.
      * exfalso. apply (Hnot eq_refl Hres).
    + intros (Hr & Hi & Hb & Hc). apply Hall.
      rewrite Hr, Hi, Hb, Hc. reflexivity.
  - intros Hr i ri b rb c rc Hi Hb Hc record.
    split; [|reflexivity].
    assert (Hfirst : first_or_empty ratios = VDict ∅).
    { destruct ratios; try discriminate Hr. reflexivity. }
    assert (Hmix : has_error ratios && has_error income && has_error balance
                   && has_error cash_flow = false).
    { rewrite Hi. rewrite Hr. reflexivity. }
    rewrite (Hsome Hmix ∅ i b c Hfirst); [reflexivity| | |].
    + rewrite Hi. reflexivity.
    + rewrite Hb. reflexivity.
    + rewrite Hc. reflexivity.
Qed.

(** X23.  Every normalizer answers an argument that is not a non-empty
    string without touching the network or the tool. *)
Lemma invalid_ticker_short_circuits (self : FMPTool) (env e2 e3 e4 : Env)
    (ticker : value) :
  invalid_ticker ticker = true ->
  get_company_profile py_str env ticker self =
    (Ok (dict_of [
       ("error", VStr "Invalid ticker symbol");
       ("name", VStr "Unknown");
       ("industry", VStr "Unknown");
       ("sector", VStr "Unknown");
       ("description",
        VStr "Please provide a valid ticker symbol (e.g., AAPL, MSFT)")]),
     self, []) /\
  get_stock_quote py_str env ticker self =
    (Ok (dict_of [("error", VStr "Invalid ticker symbol")]), self, []) /\
  get_key_financials py_str env e2 e3 e4 ticker self =
    (Ok (dict_of [("error", VStr "Invalid ticker symbol")]), self, []) /\
  get_news_sentiment py_str env ticker self =
    (Ok (dict_of [("error", VStr "Invalid ticker symbol");
                  ("articles", VList [])]), self, []).
Proof.
  intros Hv.
  unfold get_company_profile, get_stock_quote, get_key_financials,
    get_news_sentiment.
  rewrite Hv. repeat split.
Qed.

(** X24.  [get_company_profile] also stops at a ticker that is blank
    once stripped: it returns its record without a request and leaves
    the tool as it was. *)
Lemma profile_blank_ticker_short_circuits (self : FMPTool) (env : Env)
    (ticker : value) :
  invalid_ticker ticker = false ->
  normalize ticker = "" ->
  get_company_profile py_str env ticker self =
    (Ok (dict_of [
       ("error", VStr "Empty ticker symbol");
       ("name", VStr "Unknown");
       ("description", VStr "Please provide a valid ticker symbol")]),
     self, []).
Proof.
  intros Hv Hblank. unfold get_company_profile. rewrite Hv, Hblank.
  reflexivity.
Qed.

End Normalizers.

(** *** The normalizers at concrete answers *)

Lemma normalizers_symbol_paths_witness :
  (exists d,
     returned (get_news_sentiment str_of timed_out (VStr " aapl ") demo_tool)
       = Ok d /\
     d !! "symbol" = Some (VStr "AAPL")) /\
  (exists d,
     returned (get_company_profile str_of timed_out (VStr " aapl ") demo_tool)
       = Ok d /\
     d !! "symbol" = None /\ is_Some (d !! "error")) /\
  (exists d,
     returned (get_stock_quote str_of timed_out (VStr " aapl ") demo_tool)
       = Ok d /\
     d !! "symbol" = None /\ is_Some (d !! "error")) /\
  (exists d,
     returned
       (get_key_financials str_of timed_out
          (answered (statement "revenue" 5)) timed_out timed_out
          (VStr " aapl ") demo_tool) = Ok d /\
     d !! "symbol" = Some (VStr "AAPL") /\ d !! "error" = None).
Proof.
  refine (normalizers_symbol_paths str_of demo_tool timed_out timed_out
            (answered (statement "revenue" 5)) timed_out timed_out
            (VStr " aapl ") _ _ _ _ _ _ _ _);
    try reflexivity.
  - simpl. discriminate.
  - simpl. lia.
Defined.

(** The claim of C3 fails where the upstream request fails: the record of
    [get_company_profile] carries the ticker as its name and has no key
    symbol. *)
Lemma profile_failure_has_no_symbol :
  normalize (VStr "AAPL") = "AAPL" /\
  returned (get_company_profile str_of timed_out (VStr "AAPL") demo_tool)
    = Ok profile_timeout_record /\
  profile_timeout_record !! "symbol" = None.
Proof.
  split; [|split]; vm_compute; reflexivity.
Qed.

Lemma news_empty_list_is_an_error_witness :
  returned
    (get_news_sentiment str_of (answered (VList [])) (VStr "AAPL") demo_tool) =
    Ok (dict_of [
      ("error", VStr "Empty response from FMP API for stock_news");
      ("articles", VList []);
      ("symbol", VStr "AAPL")]) /\
  exists articles,
    summaries [VDict (dict_of [("title", VStr "Results")])] = Ok articles /\
    length articles = 1%nat /\
    returned
      (get_news_sentiment str_of
         (answered (VList [VDict (dict_of [("title", VStr "Results")])]))
         (VStr "AAPL") demo_tool) =
      Ok (dict_of [
        ("articles", VList articles);
        ("count", VInt (Z.of_nat (length articles)));
        ("symbol", VStr "AAPL")]) /\
    dict_of [
      ("articles", VList articles);
      ("count", VInt (Z.of_nat (length articles)));
      ("symbol", VStr "AAPL")] !! "error" = None.
Proof.
  refine (news_empty_list_is_an_error str_of demo_tool 0 0 (VStr "AAPL")
            (VDict (dict_of [("title", VStr "Results")])) [] _ _ _).
  - reflexivity.
  - simpl. lia.
  - reflexivity.
Defined.

(** The claim of C4 fails at the empty article list: the record returned
    has the key error, and no count. *)
Lemma news_empty_list_has_error_key :
  returned
    (get_news_sentiment str_of (answered (VList [])) (VStr "AAPL") demo_tool)
    = Ok news_empty_record /\
  is_Some (news_empty_record !! "error") /\
  news_empty_record !! "count" = None.
Proof.
  split; [|split].
  - vm_compute. reflexivity.
  - eexists. vm_compute. reflexivity.
  - vm_compute. reflexivity.
Qed.

Lemma financials_error_iff_all_failed_witness :
  returned
    (get_key_financials str_of timed_out
       (answered (statement "revenue" 5))
       (answered (statement "totalAssets" 7))
       (answered (statement "freeCashFlow" 3))
       (VStr "AAPL") demo_tool) =
  Ok (dict_of [
    ("profitability", VDict (dict_of [
       ("grossMargin", VNone);
       ("operatingMargin", VNone);
       ("netMargin", VNone);
       ("roe", VNone);
       ("roa", VNone)]));
    ("valuation", VDict (dict_of [
       ("pe", VNone);
       ("pb", VNone);
       ("ps", VNone);
       ("pfcf", VNone)]));
    ("health", VDict (dict_of [
       ("currentRatio", VNone);
       ("debtToEquity", VNone);
       ("interestCoverage", VNone)]));
    ("growth", VDict (dict_of [
       ("revenue", VInt 5);
       ("netIncome", VNone);
       ("totalAssets", VInt 7);
       ("totalDebt", VNone);
       ("freeCashFlow", VInt 3)]));
    ("symbol", VStr "AAPL")]).
Proof.
  assert (Hticker : invalid_ticker (VStr "AAPL") = false) by reflexivity.
  assert (Hbudget : (1 <= max_rpm demo_tool)%Z) by (simpl; lia).
  exact (proj1
    (proj2
       (financials_error_iff_all_failed str_of demo_tool timed_out
          (answered (statement "revenue" 5))
          (answered (statement "totalAssets" 7))
          (answered (statement "freeCashFlow" 3))
          (VStr "AAPL") Hticker Hbudget)
       eq_refl
       (dict_of [("revenue", VInt 5)]) []
       (dict_of [("totalAssets", VInt 7)]) []
       (dict_of [("freeCashFlow", VInt 3)]) []
       eq_refl eq_refl eq_refl)).
Defined.

(** C8, at a ticker of one space.  The argument passes the test made
    before stripping, so [get_stock_quote], [get_key_financials] and
    [get_news_sentiment] go on with the empty symbol and send their
    requests; only [get_company_profile] tests the stripped ticker. *)
Theorem blank_ticker_reaches_the_network :
  invalid_ticker (VStr " ") = false /\
  normalize (VStr " ") = "" /\
  trace (get_stock_quote str_of timed_out (VStr " ") demo_tool) =
    [HttpGet "https://financialmodelingprep.com/api/v3/quote/"
       (dict_of [("apikey", VStr "demo")]) 10] /\
  trace (get_news_sentiment str_of timed_out (VStr " ") demo_tool) =
    [HttpGet "https://financialmodelingprep.com/api/v3/stock_news"
       (dict_of [("tickers", VStr ""); ("limit", VInt 10);
                 ("apikey", VStr "demo")]) 10] /\
  length
    (trace (get_key_financials str_of timed_out timed_out timed_out timed_out
              (VStr " ") demo_tool)) = 4%nat /\
  trace (get_company_profile str_of timed_out (VStr " ") demo_tool) = [].
Proof.
  split; [|split; [|split; [|split; [|split]]]]; vm_compute; reflexivity.
Qed.

(** ** The extraction of structured records *)

Section ExtractionProperties.

Variable loads : string -> option value.

(** The function has no path that raises. *)
Lemma extract_json_like_returns (text : value) :
  is_ok (extract_json_like loads text) = true.
Proof.
  unfold extract_json_like.
  destruct (negb (truthy text) || negb (is_str text)); [reflexivity|].
  destruct text; try reflexivity.
  destruct (loads s); [reflexivity|].
  destruct (search_braces s); [|reflexivity].
  destruct (loads (replace_quotes _)); reflexivity.
Qed.

(** It returns the empty mapping for whatever is not text. *)
Lemma extract_json_like_not_text (text : value) :
  is_str text = false -> extract_json_like loads text = Ok (VDict ∅).
Proof.
  intros H. unfold extract_json_like. rewrite H, orb_true_r. reflexivity.
Qed.

(** When every tier fails (the strict parse of the whole text, the parse
    of the braces, the parse of the requoted braces) the result is the
    empty mapping.  The function itself runs the first and the third. *)
Lemma extract_json_like_all_fail (s : string) :
  tier_whole loads s = None ->
  tier_braces loads s = None ->
  tier_requoted loads s = None ->
  extract_json_like loads (VStr s) = Ok (VDict ∅).
Proof.
  unfold tier_whole, tier_requoted, extract_json_like. intros Hw _ Hq.
  destruct (negb (truthy (VStr s)) || negb (is_str (VStr s))); [reflexivity|].
  rewrite Hw. destruct (search_braces s); [|reflexivity].
  rewrite Hq. reflexivity.
Qed.

(** What the strict parse of a text yields is what the function returns. *)
Lemma extract_json_like_strict (s : string) (v : value) :
  s <> "" ->
  loads s = Some v ->
  extract_json_like loads (VStr s) = Ok v.
Proof.
  intros Hne Hs. unfold extract_json_like. simpl.
  apply String.eqb_neq in Hne. rewrite Hne. simpl. rewrite Hs. reflexivity.
Qed.

(** Whatever the library: a record that [dumps] writes and [loads]
    reads back is returned unchanged. *)
Lemma extract_inverts_library_dumps (dumps : value -> string) (record : dict) :
  loads (dumps (VDict record)) = Some (VDict record) ->
  dumps (VDict record) <> "" ->
  extract_json_like loads (VStr (dumps (VDict record))) = Ok (VDict record).
Proof.
  intros Hround Hne. apply extract_json_like_strict; assumption.
Qed.


End ExtractionProperties.

(** C6, at the text of a JSON array.  The strict parse succeeds and its
    value is returned as it is: a list, not a mapping. *)
Theorem extract_json_like_returns_a_list :
  extract_json_like json_loads (VStr "[1, 2]") = Ok (VList [VInt 1; VInt 2]).
Proof. vm_compute. reflexivity. Qed.

Lemma to_last_close_head (c : ascii) (t m : string) :
  to_last_close (String c t) = Some m -> exists t', m = String c t'.
Proof.
  simpl. destruct (to_last_close t) as [p|].
  - intros [= <-]. eauto.
  - destruct (Ascii.eqb c "}"); [|discriminate]. intros [= <-]. eauto.
Qed.

Lemma from_first_open_head (s suffix : string) :
  from_first_open s = Some suffix -> exists t, suffix = String "{" t.
Proof.
  induction s as [|c s IH]; simpl; [discriminate|].
  destruct (Ascii.eqb c "{") eqn:E; [|exact IH].
  apply Ascii.eqb_eq in E. subst c. intros [= <-]. eauto.
Qed.

Lemma search_braces_head (s m : string) :
  search_braces s = Some m -> exists t, m = String "{" t.
Proof.
  unfold search_braces.
  destruct (from_first_open s) as [suffix|] eqn:E; [|discriminate].
  apply from_first_open_head in E as [t ->]. apply to_last_close_head.
Qed.

(** X25.  The only way to a result that is not a mapping is the strict
    parse of the whole text: when that parse fails, or yields a mapping,
    [extract_json_like] returns a mapping. *)
Lemma extract_json_like_mapping (text : value) :
  (forall s v, text = VStr s -> json_loads s = Some v -> is_dict v = true) ->
  exists d, extract_json_like json_loads text = Ok (VDict d).
Proof.
  intros Hwhole. unfold extract_json_like.
  destruct (negb (truthy text) || negb (is_str text)); [eauto|].
  destruct text as [| | | |s| |]; eauto.
  destruct (json_loads s) as [v|] eqn:Hs.
  - specialize (Hwhole s v eq_refl Hs). destruct v; try discriminate Hwhole.
    eauto.
  - destruct (search_braces s) as [m|] eqn:Hm; [|eauto].
    destruct (json_loads (replace_quotes m)) as [v|] eqn:Hq; [|eauto].
    apply search_braces_head in Hm as [t ->].
    change (replace_quotes (String "{" t))
      with (String "{" (replace_quotes t)) in Hq.
    apply json_loads_braces in Hq. destruct v; try discriminate Hq. eauto.
Qed.

(** The braces are never parsed as they stand: where they hold strict
    JSON with an apostrophe, the second tier of the specification reads
    the record and the function returns the empty mapping. *)
Remark extract_json_like_requotes_first :
  tier_whole json_loads apostrophe_text = None /\
  tier_braces json_loads apostrophe_text =
    Some (VDict (dict_of [("a", VStr "it's")])) /\
  spec_extract json_loads apostrophe_text = VDict (dict_of [("a", VStr "it's")]) /\
  extract_json_like json_loads (VStr apostrophe_text) = Ok (VDict ∅).
Proof.
  split; [|split; [|split]]; vm_compute; reflexivity.
Qed.

Section Floats.

Lemma least_scale_sound (fuel : nat) : forall k den n,
  least_scale fuel k den = Some n ->
  (10 ^ Z.of_nat n mod Z.pos den = 0)%Z.
Proof.
  induction fuel as [|fuel IH]; intros k den n H; [discriminate H|].
  simpl in H. destruct (Z.eqb_spec (10 ^ Z.of_nat k mod Z.pos den) 0) as [E|E].
  - injection H as <-. exact E.
  - apply (IH _ _ _ H).
Qed.

Lemma decimal_fraction_eq (q : Q) : decimal_fraction q == q.
Proof.
  unfold decimal_fraction. cbv zeta.
  destruct (least_scale _ 1 (Qden (Qred q))) as [k|] eqn:Hk; [|reflexivity].
  apply least_scale_sound in Hk.
  rewrite <- (Qred_correct q) at 3.
  destruct (Qred q) as [n d]. cbn [Qnum Qden] in *.
  unfold Qeq. cbn [Qnum Qden].
  assert (Hp : (0 < 10 ^ Z.of_nat k)%Z) by (apply Z.pow_pos_nonneg; lia).
  rewrite Z2Pos.id by exact Hp.
  pose proof (Z.div_mod (10 ^ Z.of_nat k) (Z.pos d) ltac:(lia)) as Hdm.
  rewrite Hk in Hdm. nia.
Qed.

Lemma same_value_float (p q : Q) :
  same_value (VFloat p) (VFloat q) <-> p == q.
Proof.
  unfold same_value. simpl. split.
  - intros [= H]. rewrite <- (Qred_correct p), <- (Qred_correct q), H.
    reflexivity.
  - intros H. f_equal. apply Qred_complete. exact H.
Qed.

Lemma lowest_terms_canon (n : nat) : forall v,
  (vsize v < n)%nat -> lowest_terms (canon v) = lowest_terms v.
Proof.
  induction n as [|n IH]; intros v Hsize; [lia|].
  destruct v as [|b|z|q|s|l|d]; try reflexivity.
  - simpl. f_equal. apply Qred_complete, decimal_fraction_eq.
  - cbn [canon lowest_terms]. f_equal.
    rewrite <- list_fmap_compose. apply list_fmap_ext.
    intros i x Hx. cbn [compose]. apply IH.
    apply list_elem_of_lookup_2, list_elem_of_In in Hx.
    pose proof (vsize_list_elem l x Hx). lia.
  - cbn [canon lowest_terms]. f_equal.
    rewrite <- map_fmap_compose. apply map_fmap_ext.
    intros k x Hx. cbn [compose]. apply IH.
    pose proof (vsize_dict_elem d k x Hx). lia.
Qed.

Lemma same_value_canon (v : value) : same_value (canon v) v.
Proof. apply (lowest_terms_canon (S (vsize v))). lia. Qed.

End Floats.

(** *** Every float has a serialization *)

Section Totality.

Lemma coprime_power (d : Z) (n : nat) :
  Z.gcd d 10 = 1%Z -> (d | 10 ^ Z.of_nat n)%Z -> (d | 1)%Z.
Proof.
  intros Hg. induction n as [|n IH]; intros Hd.
  - exact Hd.
  - apply IH. rewrite Nat2Z.inj_succ, Z.pow_succ_r in Hd by lia.
    apply (Z.gauss d 10); [exact Hd | exact Hg].
Qed.

Lemma divides_small_power (L : nat) : forall (d : Z) (n : nat),
  (0 < d < 2 ^ Z.of_nat L)%Z ->
  (d | 10 ^ Z.of_nat n)%Z ->
  (d | 10 ^ Z.of_nat L)%Z.
Proof.
  induction L as [|L IH]; intros d n Hd Hn.
  - change (2 ^ Z.of_nat 0)%Z with 1%Z in Hd. lia.
  - destruct (Z.eq_dec d 1%Z) as [->|H1]; [apply Z.divide_1_l|].
    set (g := Z.gcd d 10).
    assert (Hg0 : (0 <= g)%Z) by apply Z.gcd_nonneg.
    assert (Hgd : (g | d)%Z) by apply Z.gcd_divide_l.
    assert (Hg10 : (g | 10)%Z) by apply Z.gcd_divide_r.
    assert (Hg1 : g <> 1%Z).
    { intros Hg. apply (coprime_power d n Hg) in Hn.
      apply Z.divide_1_r_nonneg in Hn; lia. }
    assert (Hgpos : (2 <= g)%Z).
    { destruct (Z.eq_dec g 0%Z) as [Hz|Hz]; [|lia].
      rewrite Hz in Hg10. apply Z.divide_0_l in Hg10. lia. }
    destruct Hgd as [d' Hd'].
    assert (Hd'pos : (0 < d')%Z) by nia.
    assert (Hsmall : (d' < 2 ^ Z.of_nat L)%Z).
    { rewrite Nat2Z.inj_succ, Z.pow_succ_r in Hd by lia. nia. }
    assert (Hdiv : (d' | 10 ^ Z.of_nat n)%Z).
    { apply (Z.divide_trans _ d); [|exact Hn]. exists g. lia. }
    specialize (IH d' n ltac:(lia) Hdiv).
    rewrite Nat2Z.inj_succ, Z.pow_succ_r by lia.
    destruct Hg10 as [a Ha], IH as [b Hb].
    exists (a * b)%Z. rewrite Hb, Hd'.
    replace (10 * (b * d'))%Z with ((a * g) * (b * d'))%Z
      by (rewrite <- Ha; reflexivity).
    ring.
Qed.

Lemma size_nat_bound (p : positive) :
  (Z.pos p < 2 ^ Z.of_nat (Pos.size_nat p))%Z.
Proof.
  induction p as [p IH|p IH|]; cbn [Pos.size_nat];
    rewrite ?Nat2Z.inj_succ, ?Z.pow_succ_r by lia; lia.
Qed.

Lemma least_scale_complete (fuel : nat) : forall k den n,
  (k <= n)%nat -> (n < k + fuel)%nat ->
  (10 ^ Z.of_nat n mod Z.pos den = 0)%Z ->
  exists j, least_scale fuel k den = Some j /\ (k <= j)%nat /\ (j <= n)%nat.
Proof.
  induction fuel as [|fuel IH]; intros k den n Hk Hn Hdiv; [lia|].
  simpl. destruct (Z.eqb_spec (10 ^ Z.of_nat k mod Z.pos den) 0) as [E|E].
  - exists k. repeat split; lia.
  - assert (k <> n) by (intros ->; contradiction).
    destruct (IH (S k) den n ltac:(lia) ltac:(lia) Hdiv) as (j & Hj & H1 & H2).
    exists j. repeat split; [exact Hj | lia | lia].
Qed.

Lemma find_scale_complete (fuel : nat) : forall k n,
  (k <= n)%nat -> (n < k + fuel)%nat ->
  find_scale fuel k (Z.to_pos (10 ^ Z.of_nat n)) = Some n.
Proof.
  induction fuel as [|fuel IH]; intros k n Hk Hn; [lia|].
  simpl.
  destruct (Pos.eqb_spec (Z.to_pos (10 ^ Z.of_nat k))
              (Z.to_pos (10 ^ Z.of_nat n))) as [E|E].
  - f_equal. apply Z2Pos.inj in E; try (apply Z.pow_pos_nonneg; lia).
    apply Z.pow_inj_r in E; lia.
  - apply IH; [|lia].
    assert (k <> n) by (intros ->; contradiction). lia.
Qed.

Lemma scale_of_power (n : nat) :
  (1 <= n)%nat -> scale_of (Z.to_pos (10 ^ Z.of_nat n)) = Some n.
Proof.
  intros Hn. apply find_scale_complete; [exact Hn|].
  pose proof (size_nat_bound (Z.to_pos (10 ^ Z.of_nat n))) as Hb.
  assert (Hp : (0 < 10 ^ Z.of_nat n)%Z) by (apply Z.pow_pos_nonneg; lia).
  rewrite Z2Pos.id in Hb by exact Hp.
  assert (Hlow : (2 ^ Z.of_nat n <= 10 ^ Z.of_nat n)%Z)
    by (apply Z.pow_le_mono_l; lia).
  assert (Hlt : (2 ^ Z.of_nat n <
                 2 ^ Z.of_nat (Pos.size_nat (Z.to_pos (10 ^ Z.of_nat n))))%Z)
    by lia.
  apply Z.pow_lt_mono_r_iff in Hlt; lia.
Qed.

(** A float with a finite expansion is written once brought to decimal
    form. *)
Lemma dump_float_decimal_fraction (q : Q) :
  finite_expansion q -> is_Some (dump_float (decimal_fraction q)).
Proof.
  intros [n Hn]. unfold decimal_fraction. cbv zeta.
  set (d := Qden (Qred q)) in *.
  pose proof (size_nat_bound d) as Hb.
  pose proof (divides_small_power (Pos.size_nat d) (Z.pos d) n
                ltac:(lia) Hn) as Hdiv.
  assert (Hsize : (1 <= Pos.size_nat d)%nat) by (destruct d; simpl; lia).
  apply Z.mod_divide in Hdiv; [|lia].
  destruct (least_scale_complete (Pos.size_nat d) 1 d (Pos.size_nat d)
              Hsize ltac:(lia) Hdiv) as (j & Hj & H1 & _).
  rewrite Hj. unfold dump_float. cbn [Qden].
  rewrite (scale_of_power j H1). eexists. reflexivity.
Qed.

Lemma finite_floats_list (l : list value) :
  finite_floats (VList l) -> Forall finite_floats l.
Proof.
  cbn [finite_floats]. induction l as [|x l IH]; simpl.
  - constructor.
  - intros [Hx Hl]. constructor; [exact Hx | apply IH, Hl].
Qed.

Lemma finite_floats_dict (d : dict) (k : string) (x : value) :
  finite_floats (VDict d) -> d !! k = Some x -> finite_floats x.
Proof.
  cbn [finite_floats]. revert k x.
  apply (map_fold_weak_ind
           (fun (r : Prop) (m : dict) =>
              forall k x, r -> m !! k = Some x -> finite_floats x)).
  - intros k x _ Hk. rewrite lookup_empty in Hk. discriminate.
  - intros i y m r _ IH k x [Hy Hr] Hk.
    destruct (decide (i = k)) as [->|Hne].
    + rewrite lookup_insert_eq in Hk. injection Hk as <-. exact Hy.
    + rewrite lookup_insert_ne in Hk by exact Hne. exact (IH k x Hr Hk).
Qed.

(** The serializer writes every value whose floats have finite
    expansions, once they are brought to decimal form. *)
Lemma json_dumps_canon_total (n : nat) : forall v,
  (vsize v < n)%nat -> finite_floats v -> is_Some (json_dumps (canon v)).
Proof.
  induction n as [|n IH]; intros v Hsize Hfin; [lia|].
  destruct v as [|b|z|q|s|l|d].
  - eexists; reflexivity.
  - destruct b; eexists; reflexivity.
  - eexists; reflexivity.
  - apply dump_float_decimal_fraction, Hfin.
  - eexists; reflexivity.
  - cbn [canon]. rewrite json_dumps_list.
    assert (Hall : is_Some (mapM json_dumps (canon <$> l))).
    { apply mapM_is_Some, Forall_fmap, Forall_forall.
      intros x Hx. cbn [compose]. apply IH.
      - apply list_elem_of_In in Hx.
        pose proof (vsize_list_elem l x Hx). lia.
      - apply finite_floats_list in Hfin.
        rewrite Forall_forall in Hfin. apply Hfin, Hx. }
    destruct Hall as [parts ->]. eexists; reflexivity.
  - cbn [canon]. rewrite json_dumps_dict.
    assert (Hall : is_Some (mapM dump_item
                     (map_to_list (json_dumps <$> (canon <$> d))))).
    { apply mapM_is_Some, Forall_forall.
      intros [k t] Hkt. cbn [compose].
      apply elem_of_map_to_list, lookup_fmap_Some in Hkt.
      destruct Hkt as (y & <- & Hy).
      apply lookup_fmap_Some in Hy. destruct Hy as (x & <- & Hx).
      destruct (IH x) as [text Htext].
      + pose proof (vsize_dict_elem d k x Hx). lia.
      + exact (finite_floats_dict d k x Hfin Hx).
      + unfold dump_item. cbn [fst snd]. rewrite Htext. eexists; reflexivity. }
    destruct Hall as [items ->]. eexists; reflexivity.
Qed.

End Totality.

(** The fractions [canon] brings to decimal form, and one it cannot. *)
Example canon_examples :
  canon (VList [VFloat (1 # 8); VFloat (7 # 1); VFloat (57 # 2);
                VFloat 2.50; VFloat (1 # 3)]) =
    VList [VFloat 0.125; VFloat 7.0; VFloat 28.5; VFloat 2.5; VFloat (1 # 3)] /\
  json_dumps (canon (VList [VFloat (1 # 8); VFloat (7 # 1); VFloat (57 # 2);
                            VFloat 2.50])) =
    Some "[0.125, 7.0, 28.5, 2.5]" /\
  json_dumps (VFloat 2.50) = Some "2.50" /\
  json_dumps (VFloat (-0.07)) = Some "-0.07" /\
  json_dumps (canon (VFloat (1 # 3))) = None.
Proof. repeat split; vm_compute; reflexivity. Qed.

(** C7.  [extract_json_like] is a left inverse of the serializer on
    records with string keys and values built from null, booleans,
    integers, floats, text, lists and records.  On the serialization of
    a record whose floats are decimal fractions it returns the record
    itself.  For a record whose floats are given by other fractions the
    serializer writes each float by its value, and the record returned
    is equal to the record written when floats are compared by their
    value, as [==] compares them.  Every record whose floats have finite
    decimal expansions, as the value of every float has, is written in
    this way. *)
Theorem extract_inverts_dumps (record : dict) (text : string) :
  (json_dumps (VDict record) = Some text ->
   extract_json_like json_loads (VStr text) = Ok (VDict record)) /\
  (json_dumps (canon (VDict record)) = Some text ->
   exists v,
     extract_json_like json_loads (VStr text) = Ok v /\
     same_value v (VDict record)) /\
  (finite_floats (VDict record) ->
   exists written v,
     json_dumps (canon (VDict record)) = Some written /\
     extract_json_like json_loads (VStr written) = Ok v /\
     same_value v (VDict record)).
Proof.
  assert (Hround : forall v t,
    json_dumps v = Some t ->
    extract_json_like json_loads (VStr t) = Ok v).
  { intros v t Hdump. apply extract_json_like_strict.
    - destruct (json_dumps_head _ _ Hdump) as (c & t' & -> & _). discriminate.
    - apply json_loads_dumps. exact Hdump. }
  split; [|split].
  - apply Hround.
  - intros Hdump. exists (canon (VDict record)).
    split; [apply Hround; exact Hdump | apply same_value_canon].
  - intros Hfin.
    destruct (json_dumps_canon_total (S (vsize (VDict record)))
                (VDict record) ltac:(lia) Hfin) as [written Hdump].
    exists written, (canon (VDict record)).
    split; [exact Hdump|].
    split; [apply Hround; exact Hdump | apply same_value_canon].
Qed.

Lemma extract_inverts_dumps_witness :
  json_dumps (canon (VDict metrics_record)) =
    Some (dq "{'key_metrics': {'margin': 0.25, 'beta': -3.0, 'pe_ratio': 28.5}, 'scores': [1, null, true, 2.5], 'name': 'ACME'}") /\
  exists v,
    extract_json_like json_loads
      (VStr (dq "{'key_metrics': {'margin': 0.25, 'beta': -3.0, 'pe_ratio': 28.5}, 'scores': [1, null, true, 2.5], 'name': 'ACME'}"))
      = Ok v /\
    same_value v (VDict metrics_record).
Proof.
  assert (Hdump :
    json_dumps (canon (VDict metrics_record)) =
    Some (dq "{'key_metrics': {'margin': 0.25, 'beta': -3.0, 'pe_ratio': 28.5}, 'scores': [1, null, true, 2.5], 'name': 'ACME'}"))
    by (vm_compute; reflexivity).
  split; [exact Hdump|].
  exact (proj1 (proj2 (extract_inverts_dumps metrics_record _)) Hdump).
Defined.

(** A record whose floats are decimal fractions comes back as it is. *)
Example extract_inverts_dumps_of_decimals :
  json_dumps
    (VDict (dict_of [("pe_ratio", VFloat 28.5); ("eps", VFloat (-0.07));
                     ("name", VStr "ACME")])) =
    Some (dq "{'eps': -0.07, 'name': 'ACME', 'pe_ratio': 28.5}") /\
  extract_json_like json_loads
    (VStr (dq "{'eps': -0.07, 'name': 'ACME', 'pe_ratio': 28.5}")) =
    Ok (VDict (dict_of [("pe_ratio", VFloat 28.5); ("eps", VFloat (-0.07));
                        ("name", VStr "ACME")])).
Proof. split; vm_compute; reflexivity. Qed.



(** ** The boundary of a run *)

Section Boundary.

Variable py_str : value -> string.
Variable c : Collaborators.

(** C9.  [run_company_analysis] returns in every case.  When a step of
    its pipeline raises, the value returned is the error report: exactly
    the keys ticker, error, execution_time and config, where the time is
    the clock read in the handler less the clock read on entry, and
    config repeats model, depth, process_type and investment_style as
    they were passed. *)
Theorem run_company_analysis_catches (ticker model depth process_type : string)
    (temps : option (gmap string Q)) (investment_style : string)
    (max_rpm : Z) (verbose : bool) :
  let body :=
    analysis_body py_str c ticker model depth process_type
      (match temps with None => default_temps depth | Some t => t end)
      investment_style max_rpm verbose in
  let run :=
    run_company_analysis py_str c ticker model depth process_type temps
      investment_style max_rpm verbose in
  is_ok run = true /\
  run =
    match body with
    | Ok report => Ok report
    | Raise e =>
        Ok (error_report c ticker model depth process_type investment_style e)
    end /\
  forall e : exn,
    let report :=
      error_report c ticker model depth process_type investment_style e in
    dom report =
      ({["ticker"; "error"; "execution_time"; "config"]} : gset string) /\
    report !! "ticker" = Some (VStr ticker) /\
    report !! "error" = Some (VStr ("Analysis failed: " ++ exn_msg e)) /\
    report !! "execution_time" =
      Some (VFloat (clock_caught c - clock_start c)%Q) /\
    report !! "config" =
      Some (VDict (dict_of [
        ("model", VStr model);
        ("depth", VStr depth);
        ("process_type", VStr process_type);
        ("investment_style", VStr investment_style)])) /\
    dom (dict_of [
        ("model", VStr model);
        ("depth", VStr depth);
        ("process_type", VStr process_type);
        ("investment_style", VStr investment_style)]) =
      ({["model"; "depth"; "process_type"; "investment_style"]} : gset string).
Proof.
  intros body run. unfold run, run_company_analysis, try_except. fold body.
  split; [destruct body; reflexivity|].
  split; [destruct body; reflexivity|].
  intros e. cbv zeta. unfold error_report.
  split.
  { unfold dict_of. simpl. rewrite !dom_insert_L, dom_empty_L. set_solver. }
  repeat split.
Qed.

End Boundary.

(** Without the API key the constructor of the client raises inside the
    pipeline, and the run returns the error report. *)
Example run_without_api_key :
  run_company_analysis str_of no_key_run "AAPL" "gpt-4" "quick" "sequential"
    None "Balanced" 10 false =
  Ok (dict_of [
    ("ticker", VStr "AAPL");
    ("error", VStr "Analysis failed: FMP API key is required");
    ("execution_time", VFloat (3 # 10));
    ("config", VDict (dict_of [
       ("model", VStr "gpt-4");
       ("depth", VStr "quick");
       ("process_type", VStr "sequential");
       ("investment_style", VStr "Balanced")]))]).
Proof. vm_compute. reflexivity. Qed.

(** ** The budget of requests *)

Section RateBound.

Lemma prune_app (t : Q) (l m : list Q) :
  prune t (l ++ m)%list = (prune t l ++ prune t m)%list.
Proof. unfold prune. apply List.filter_app. Qed.

Lemma prune_self (t : Q) : prune t [t] = [t].
Proof.
  unfold prune. simpl.
  assert (H : Qltb (t - t) 60 = true) by (apply Qltb_lt; lra).
  rewrite H. reflexivity.
Qed.

Lemma prune_prune (c t : Q) (l : list Q) :
  (c <= t)%Q -> prune t (prune c l) = prune t l.
Proof.
  intros Hct. unfold prune. induction l as [|x l IH]; [reflexivity|].
  simpl. destruct (Qltb (c - x) 60) eqn:Hc.
  - simpl. rewrite IH. reflexivity.
  - rewrite IH.
    destruct (Qltb (t - x) 60) eqn:Ht; [|reflexivity].
    apply Qltb_lt in Ht.
    assert (Hc' : Qltb (c - x) 60 = true) by (apply Qltb_lt; lra).
    congruence.
Qed.

Lemma filter_length_impl {A : Type} (f g : A -> bool) (l : list A) :
  (forall x, f x = true -> g x = true) ->
  (length (List.filter f l) <= length (List.filter g l))%nat.
Proof.
  intros Himp. induction l as [|x l IH]; [reflexivity|].
  simpl. destruct (f x) eqn:Hf.
  - rewrite (Himp x Hf). simpl. lia.
  - destruct (g x); simpl; lia.
Qed.

Lemma trailing_ok_snoc (budget : Z) (hist : list Q) (t : Q) :
  trailing_ok budget hist ->
  (Z.of_nat (length (prune t hist)) < budget)%Z ->
  trailing_ok budget (hist ++ [t])%list.
Proof.
  intros Hh Ht before t' after Heq.
  destruct after as [|a after _] using rev_ind.
  - apply app_inj_tail in Heq as [<- <-]. exact Ht.
  - rewrite app_comm_cons, app_assoc in Heq.
    apply app_inj_tail in Heq as [Heq _].
    apply (Hh before t' after Heq).
Qed.

Lemma trailing_ok_init (budget : Z) (hist : list Q) (t : Q) :
  trailing_ok budget (hist ++ [t])%list -> trailing_ok budget hist.
Proof.
  intros H before t' after Heq. apply (H before t' (after ++ [t])%list).
  rewrite Heq, <- app_assoc. reflexivity.
Qed.

Lemma issued_trailing (calls : list call) : forall (self : FMPTool) (hist : list Q),
  (1 <= max_rpm self)%Z ->
  window_ok self = true ->
  well_timed self calls = true ->
  (exists c, request_times self = prune c hist /\
             (hist = [] \/ In c (request_times self))) ->
  trailing_ok (max_rpm self) hist ->
  trailing_ok (max_rpm self) (hist ++ issued self calls)%list.
Proof.
  induction calls as [|c calls IH]; intros self hist Hrpm Hok Hwt Hinv Hhist.
  - simpl. rewrite app_nil_r. exact Hhist.
  - simpl in Hwt. apply andb_prop in Hwt as [Hwt Hrest].
    apply andb_prop in Hwt as [Hclock Hlag].
    destruct (rate_limit_keeps_window (call_env c) self Hrpm Hok Hclock Hlag)
      as [Hsame Hok'].
    destruct (rate_limit_spec (call_env c) self Hrpm Hok Hclock Hlag)
      as (t & kept & tr & Heq & Hnow & Hlen & _ & _ & Hcases).
    assert (Hkept : kept = prune t hist).
    { destruct Hinv as (c0 & Hwin & Hlast).
      assert (Hpr : prune (now (call_env c)) (request_times self) =
                    prune (now (call_env c)) hist).
      { destruct Hlast as [-> | Hin].
        - rewrite Hwin. reflexivity.
        - rewrite Hwin at 1. apply prune_prune.
          apply forallb_Qle in Hclock.
          rewrite List.Forall_forall in Hclock. apply Hclock. exact Hin. }
      destruct Hcases as [(_ & -> & -> & _) | (oldest & rest & _ & _ & _ & _ & _ & -> & _)].
      - exact Hpr.
      - rewrite Hpr. apply prune_prune. exact Hnow. }
    simpl. rewrite Heq in *. simpl in *.
    unfold tool_after in *. simpl in *.
    match goal with
    | |- trailing_ok _ (hist ++ t :: ?more)%list =>
        replace (hist ++ t :: more)%list with ((hist ++ [t]) ++ more)%list
          by (rewrite <- app_assoc; reflexivity)
    end.
    apply (IH (set_request_times self (kept ++ [t])%list) (hist ++ [t])%list).
    + exact Hrpm.
    + exact Hok'.
    + exact Hrest.
    + exists t. simpl. split.
      * rewrite prune_app, prune_self, Hkept. reflexivity.
      * right. apply in_or_app. right. left. reflexivity.
    + apply trailing_ok_snoc; [exact Hhist|]. rewrite <- Hkept. exact Hlen.
Qed.

Lemma trailing_ok_minute (budget : Z) (a : Q) (hist : list Q) :
  (0 <= budget)%Z ->
  trailing_ok budget hist ->
  (Z.of_nat (length (within_minute a hist)) <= budget)%Z.
Proof.
  intros Hb. induction hist as [|t hist IH] using rev_ind; intros Hh.
  - simpl. exact Hb.
  - unfold within_minute. rewrite List.filter_app, length_app. simpl.
    destruct (Qle_bool a t && Qltb t (a + 60)) eqn:Hin.
    + apply andb_prop in Hin as [Hlo Hhi].
      apply Qle_bool_iff in Hlo. apply Qltb_lt in Hhi.
      pose proof (Hh hist t [] eq_refl) as Hlen.
      assert (Hsub :
        (length (List.filter (fun x => Qle_bool a x && Qltb x (a + 60)) hist)
         <= length (prune t hist))%nat).
      { apply filter_length_impl. intros x Hx.
        apply andb_prop in Hx as [Hxlo Hxhi].
        apply Qle_bool_iff in Hxlo. apply Qltb_lt. lra. }
      simpl. lia.
    + simpl. rewrite Nat.add_0_r. apply IH.
      apply (trailing_ok_init budget hist t Hh).
Qed.

(** X1.  A client built by the constructor with a budget of at least one
    request a minute keeps it: along every run whose clock does not go
    back and whose sleeps do not return early, any interval of sixty
    seconds holds at most [max_rpm] of the time stamps under which the
    requests were issued. *)
Theorem at_most_max_rpm_a_minute (key environ_key : option string) (rpm : Z)
    (self : FMPTool) (calls : list call) (a : Q) :
  FMPTool_init key environ_key rpm = Ok self ->
  (1 <= rpm)%Z ->
  well_timed self calls = true ->
  (Z.of_nat (length (within_minute a (issued self calls))) <= rpm)%Z.
Proof.
  intros Hinit Hrpm Hwt.
  assert (Hself : max_rpm self = rpm /\ request_times self = []).
  { unfold FMPTool_init in Hinit.
    destruct (match key with
              | Some k => if String.eqb k "" then environ_key else Some k
              | None => environ_key
              end) as [k|]; [|discriminate Hinit].
    destruct (String.eqb k ""); [discriminate Hinit|].
    injection Hinit as <-. split; reflexivity. }
  destruct Hself as [Hmax Hempty].
  apply trailing_ok_minute; [lia|].
  rewrite <- Hmax.
  apply (issued_trailing calls self []).
  - lia.
  - unfold window_ok. rewrite Hempty. simpl.
    rewrite andb_true_r. apply Z.leb_le. lia.
  - exact Hwt.
  - exists 0%Q. rewrite Hempty. split; [reflexivity | left; reflexivity].
  - intros before t after Heq. destruct before; discriminate Heq.
Qed.

Lemma at_most_max_rpm_a_minute_witness :
  FMPTool_init (Some "demo") None 2 = Ok constructed_tool /\
  well_timed constructed_tool burst_calls = true /\
  issued constructed_tool burst_calls = [0%Q; 1%Q; 60%Q] /\
  (Z.of_nat (length (within_minute 0 (issued constructed_tool burst_calls)))
   <= 2)%Z.
Proof.
  split; [reflexivity|]. split; [reflexivity|]. split; [reflexivity|].
  apply (at_most_max_rpm_a_minute (Some "demo") None 2 constructed_tool
           burst_calls 0).
  - reflexivity.
  - lia.
  - reflexivity.
Defined.

(** X2.  A call sleeps at most once, for more than nothing and for at
    most sixty seconds: the limiter never blocks a caller longer than
    the width of its window (the lag of the scheduler apart). *)
Theorem every_sleep_at_most_a_minute (py_str : value -> string)
    (self : FMPTool) (calls : list call) :
  (1 <= max_rpm self)%Z ->
  window_ok self = true ->
  well_timed self calls = true ->
  Forall (fun s =>
    sleeps (trace (step_outcome s)) = [] \/
    exists w, sleeps (trace (step_outcome s)) = [w] /\
              (0 < w)%Q /\ (w <= 60)%Q)
    (run py_str self calls).
Proof.
  intros Hrpm Hok Hwt.
  apply (run_steps py_str _ (max_rpm self)); try assumption; [|reflexivity].
  intros tool c Hbudget Hwin Hclock Hlag. simpl.
  assert (Hrpm' : (1 <= max_rpm tool)%Z) by lia.
  destruct (rate_limit_spec (call_env c) tool Hrpm' Hwin Hclock Hlag)
    as (t & kept & tr & Heq & _ & _ & _ & _ & Hcases).
  rewrite make_request_unfold, Heq. unfold trace. simpl.
  destruct Hcases as [(_ & _ & _ & ->) |
    (oldest & rest & Hpr & _ & _ & Hpos & _ & _ & -> & _)].
  - left. reflexivity.
  - right. exists (60 - (now (call_env c) - oldest))%Q.
    split; [reflexivity|]. split; [exact Hpos|].
    assert (Hin : In oldest (request_times tool)).
    { apply (prune_In (now (call_env c))). rewrite Hpr. left. reflexivity. }
    apply forallb_Qle in Hclock. rewrite List.Forall_forall in Hclock.
    specialize (Hclock oldest Hin). lra.
Qed.

Lemma every_sleep_at_most_a_minute_witness :
  Forall (fun s =>
    sleeps (trace (step_outcome s)) = [] \/
    exists w, sleeps (trace (step_outcome s)) = [w] /\
              (0 < w)%Q /\ (w <= 60)%Q)
    (run str_of burst_tool burst_calls) /\
  map (fun s => sleeps (trace (step_outcome s)))
    (run str_of burst_tool burst_calls) = [[]; []; [58%Q]].
Proof.
  split; [|vm_compute; reflexivity].
  apply (every_sleep_at_most_a_minute str_of burst_tool burst_calls).
  - simpl. lia.
  - reflexivity.
  - reflexivity.
Defined.

(** X3.  A client built with a budget of zero or less never sends a
    request: every call raises [IndexError] at the head of the empty
    window, before the request, and leaves the client as it was. *)
Theorem nonpositive_budget_never_sends (py_str : value -> string)
    (key environ_key : option string) (rpm : Z) (self : FMPTool)
    (calls : list call) :
  FMPTool_init key environ_key rpm = Ok self ->
  (rpm <= 0)%Z ->
  Forall (fun s =>
    step_outcome s =
      (Raise (Exn "IndexError" "list index out of range"), self, []))
    (run py_str self calls).
Proof.
  intros Hinit Hrpm.
  assert (Hself : exists k url, self = mkFMPTool k url rpm []).
  { unfold FMPTool_init in Hinit.
    destruct (match key with
              | Some k => if String.eqb k "" then environ_key else Some k
              | None => environ_key
              end) as [k|]; [|discriminate Hinit].
    destruct (String.eqb k ""); [discriminate Hinit|].
    injection Hinit as <-. eauto. }
  destruct Hself as (k & url & ->). clear Hinit.
  assert (Hcall : forall c,
    _make_request py_str (call_env c) (call_endpoint c) (call_params c)
      (mkFMPTool k url rpm []) =
    (Raise (Exn "IndexError" "list index out of range"),
     mkFMPTool k url rpm [], [])).
  { intros c. rewrite make_request_unfold. unfold rate_limit, prune.
    cbn [request_times max_rpm List.filter length].
    change (Z.of_nat 0) with 0%Z.
    assert (Hfull : (rpm <=? 0)%Z = true) by (apply Z.leb_le; exact Hrpm).
    rewrite Hfull. reflexivity. }
  induction calls as [|c calls IH]; [constructor|].
  simpl. rewrite Hcall. constructor; [reflexivity|]. exact IH.
Qed.

Lemma nonpositive_budget_never_sends_witness :
  Forall (fun s =>
    step_outcome s =
      (Raise (Exn "IndexError" "list index out of range"),
       mkFMPTool "demo" "https://financialmodelingprep.com/api/v3" 0 [], []))
    (run str_of
       (mkFMPTool "demo" "https://financialmodelingprep.com/api/v3" 0 [])
       burst_calls).
Proof.
  apply (nonpositive_budget_never_sends str_of (Some "demo") None 0).
  - reflexivity.
  - lia.
Defined.

End RateBound.

(** ** What the normalizers send, return and raise *)

Section Requests.

Variable py_str : value -> string.

Arguments dict_of : simpl never.
Arguments error_dict : simpl never.

Lemma silent_ret {A} (a : A) : silent (mret a : M A).
Proof. intros self. split; reflexivity. Qed.

Lemma silent_lift {A} (r : result A) : silent (lift r).
Proof. intros self. split; reflexivity. Qed.

Lemma silent_bind {A B} (m : M A) (k : A -> M B) :
  silent m -> (forall a, silent (k a)) -> silent (m ≫= k).
Proof.
  intros Hm Hk self. specialize (Hm self).
  unfold mbind, M_bind, tool_after, trace in *.
  destruct (m self) as [[[a|e] self'] tr]; simpl in Hm; destruct Hm as [-> ->].
  - specialize (Hk a self). unfold tool_after, trace in Hk.
    destruct (k a self) as [[r self''] tr']. simpl in *. exact Hk.
  - split; reflexivity.
Qed.

Lemma rate_limit_sends_nothing (env : Env) (self : FMPTool) :
  requests (trace (rate_limit env self)) = [].
Proof.
  unfold rate_limit.
  destruct (max_rpm self <=? _)%Z; [|reflexivity].
  destruct (prune (now env) (request_times self)); [reflexivity|].
  destruct (Qltb 0 _); reflexivity.
Qed.

Lemma make_request_sends (env : Env) (endpoint : string)
    (params : option dict) (self : FMPTool) :
  (1 <= max_rpm self)%Z ->
  exists times tr,
    _make_request py_str env endpoint params self =
      (Ok (interpret py_str endpoint (resp env)),
       set_request_times self times, tr) /\
    requests tr = [get_of self endpoint (default ∅ params)].
Proof.
  intros Hpos. rewrite make_request_unfold.
  pose proof (rate_limit_sends_nothing env self) as Hq.
  destruct (rate_limit_returns env self Hpos) as (t & times & tr & Heq).
  rewrite Heq in *. unfold trace in Hq. simpl in Hq.
  exists times. eexists. split; [reflexivity|].
  unfold requests in *. rewrite List.filter_app, Hq. reflexivity.
Qed.

Lemma requests_bind {A B} (m : M A) (k : A -> M B) (self self' : FMPTool)
    (a : A) (tr : list event) :
  m self = (Ok a, self', tr) ->
  requests (trace ((m ≫= k) self)) =
    (requests tr ++ requests (trace (k a self')))%list.
Proof.
  intros Heq. unfold mbind, M_bind, trace. rewrite Heq.
  destruct (k a self') as [[r self''] tr']. simpl.
  unfold requests. apply List.filter_app.
Qed.

Lemma requests_silent {A} (m : M A) (self : FMPTool) :
  silent m -> requests (trace (m self)) = [].
Proof. intros H. destruct (H self) as [_ ->]. reflexivity. Qed.

Ltac silence :=
  repeat first
    [ apply silent_ret
    | apply silent_lift
    | apply silent_bind; [|intros ?] ].

(** X4.  What the four functions send.  For a ticker that passes the
    validation, with a budget of at least one request: the profile, the
    quote and the news take one request each, to [profile/SYMBOL],
    [quote/SYMBOL] and [stock_news] (with the symbol and a limit of ten
    as parameters); the financials always take four, in the order
    ratios, income, balance sheet, cash flow, whatever the earlier ones
    answered.  Every request carries the key of the client. *)
Theorem requests_of_the_normalizers (self : FMPTool) (env e1 e2 e3 e4 : Env)
    (ticker : value) :
  invalid_ticker ticker = false ->
  (1 <= max_rpm self)%Z ->
  let symbol := normalize ticker in
  (symbol <> "" ->
   requests (trace (get_company_profile py_str env ticker self)) =
     [get_of self ("profile/" ++ symbol) ∅]) /\
  requests (trace (get_stock_quote py_str env ticker self)) =
    [get_of self ("quote/" ++ symbol) ∅] /\
  requests (trace (get_news_sentiment py_str env ticker self)) =
    [get_of self "stock_news"
       (dict_of [("tickers", VStr symbol); ("limit", VInt 10)])] /\
  requests (trace (get_key_financials py_str e1 e2 e3 e4 ticker self)) =
    [get_of self ("ratios-ttm/" ++ symbol) ∅;
     get_of self ("income-statement/" ++ symbol) (dict_of [("limit", VInt 1)]);
     get_of self ("balance-sheet-statement/" ++ symbol)
       (dict_of [("limit", VInt 1)]);
     get_of self ("cash-flow-statement/" ++ symbol)
       (dict_of [("limit", VInt 1)])].
Proof.
  intros Hv Hpos symbol. subst symbol.
  split; [|split; [|split]].
  - intros Hne. unfold get_company_profile. rewrite Hv.
    apply String.eqb_neq in Hne. rewrite Hne.
    destruct (make_request_sends env ("profile/" ++ normalize ticker) None
                self Hpos) as (times & tr & Heq & Hreq).
    rewrite (requests_bind _ _ _ _ _ _ Heq), Hreq, requests_silent;
      [reflexivity|].
    destruct (has_error _); [silence|].
    destruct (interpret _ _ _) as [| | | | |[|p l]|]; silence.
  - unfold get_stock_quote. rewrite Hv.
    destruct (make_request_sends env ("quote/" ++ normalize ticker) None
                self Hpos) as (times & tr & Heq & Hreq).
    rewrite (requests_bind _ _ _ _ _ _ Heq), Hreq, requests_silent;
      [reflexivity|].
    destruct (has_error _); [silence|].
    destruct (interpret _ _ _) as [| | | | |[|p l]|]; silence.
  - unfold get_news_sentiment. rewrite Hv.
    destruct (make_request_sends env "stock_news"
                (Some (dict_of [("tickers", VStr (normalize ticker));
                                ("limit", VInt 10)]))
                self Hpos) as (times & tr & Heq & Hreq).
    rewrite (requests_bind _ _ _ _ _ _ Heq), Hreq, requests_silent;
      [reflexivity|].
    destruct (has_error _); [silence|].
    destruct (interpret _ _ _) as [| | | | |l|]; silence.
  - unfold get_key_financials. rewrite Hv.
    destruct (make_request_sends e1 ("ratios-ttm/" ++ normalize ticker) None
                self Hpos) as (times1 & tr1 & Heq1 & Hreq1).
    rewrite (requests_bind _ _ _ _ _ _ Heq1), Hreq1.
    destruct (make_request_sends e2 ("income-statement/" ++ normalize ticker)
                limit_1 (set_request_times self times1) Hpos)
      as (times2 & tr2 & Heq2 & Hreq2).
    rewrite (requests_bind _ _ _ _ _ _ Heq2), Hreq2.
    destruct (make_request_sends e3
                ("balance-sheet-statement/" ++ normalize ticker)
                limit_1 (set_request_times
                           (set_request_times self times1) times2) Hpos)
      as (times3 & tr3 & Heq3 & Hreq3).
    rewrite (requests_bind _ _ _ _ _ _ Heq3), Hreq3.
    destruct (make_request_sends e4
                ("cash-flow-statement/" ++ normalize ticker)
                limit_1
                (set_request_times
                   (set_request_times
                      (set_request_times self times1) times2) times3) Hpos)
      as (times4 & tr4 & Heq4 & Hreq4).
    rewrite (requests_bind _ _ _ _ _ _ Heq4), Hreq4, requests_silent;
      [reflexivity|].
    destruct (_ && _); silence.
Qed.

(** X5.  With a budget of at least one request [_make_request] returns
    in every case, and what it returns is either an error record, a
    mapping with the single key error and a text, or the decoded
    payload itself; the payload comes back only when it is truthy and,
    if it is a mapping, holds no truthy [Error Message] or [error]. *)
Theorem make_request_error_or_payload (env : Env) (endpoint : string)
    (params : option dict) (self : FMPTool) :
  (1 <= max_rpm self)%Z ->
  exists v,
    returned (_make_request py_str env endpoint params self) = Ok v /\
    ((exists msg, v = VDict {["error" := VStr msg]}) \/
     (resp env = RespJson v /\ truthy v = true /\
      forall d, v = VDict d ->
        truthy (dict_get d "Error Message") = false /\
        truthy (dict_get d "error") = false)).
Proof.
  intros Hpos.
  destruct (make_request_returns py_str env endpoint params self Hpos)
    as (times & tr & Heq).
  rewrite Heq. eexists. split; [reflexivity|].
  unfold interpret.
  destruct (resp env) as [data|msg| |msg| |msg];
    try (left; eexists; reflexivity).
  destruct (is_dict data && truthy _) eqn:Hflag;
    [left; eexists; reflexivity|].
  destruct (truthy data) eqn:Ht; [|left; eexists; reflexivity].
  right. cbn [negb]. cbv iota.
  split; [reflexivity|]. split; [exact Ht|].
  intros d ->. simpl in Hflag. unfold py_or in Hflag.
  destruct (truthy (dict_get d "Error Message")) eqn:Hm.
  - rewrite Hm in Hflag. discriminate Hflag.
  - split; [reflexivity | exact Hflag].
Qed.

Lemma interpret_array (endpoint : string) (first : value) (rest : list value) :
  interpret py_str endpoint (RespJson (VList (first :: rest))) =
  VList (first :: rest).
Proof. reflexivity. Qed.

Lemma interpret_empty_array (endpoint : string) :
  interpret py_str endpoint (RespJson (VList [])) =
  error_dict ("Empty response from FMP API for " ++ endpoint).
Proof. reflexivity. Qed.

(** X6.  An answer that is a JSON array never gives the not-found
    record of the profile, the quote or the news: the empty array is
    reported by [_make_request] as an empty response, and a non-empty
    one takes the success path.  The not-found branches are left to
    payloads that are neither arrays nor error records. *)
Theorem arrays_are_never_not_found (self : FMPTool) (env : Env)
    (ticker : value) (l : list value) (d : dict) :
  (1 <= max_rpm self)%Z ->
  resp env = RespJson (VList l) ->
  (returned (get_company_profile py_str env ticker self) = Ok d ->
   d !! "error" <> Some (VStr "No company profile found")) /\
  (returned (get_stock_quote py_str env ticker self) = Ok d ->
   d !! "error" <> Some (VStr "No stock quote found")) /\
  (returned (get_news_sentiment py_str env ticker self) = Ok d ->
   d !! "error" <> Some (VStr "No news found")).
Proof.
  intros Hpos Hresp. split; [|split].
  - unfold get_company_profile.
    destruct (invalid_ticker ticker); [intros [= <-]; discriminate|].
    destruct (String.eqb (normalize ticker) ""); [intros [= <-]; discriminate|].
    destruct (make_request_returns py_str env ("profile/" ++ normalize ticker)
                None self Hpos) as (times & tr & Heq).
    rewrite (returned_bind _ _ _ _ _ _ Heq), Hresp.
    destruct l as [|first rest].
    + rewrite interpret_empty_array. intros [= <-]. discriminate.
    + rewrite interpret_array.
      destruct first; try (intros H; discriminate H).
      intros [= <-]. discriminate.
  - unfold get_stock_quote.
    destruct (invalid_ticker ticker); [intros [= <-]; discriminate|].
    destruct (make_request_returns py_str env ("quote/" ++ normalize ticker)
                None self Hpos) as (times & tr & Heq).
    rewrite (returned_bind _ _ _ _ _ _ Heq), Hresp.
    destruct l as [|first rest].
    + rewrite interpret_empty_array. intros [= <-]. discriminate.
    + rewrite interpret_array.
      destruct first; try (intros H; discriminate H).
      intros [= <-]. discriminate.
  - unfold get_news_sentiment.
    destruct (invalid_ticker ticker); [intros [= <-]; discriminate|].
    set (params := Some _).
    destruct (make_request_returns py_str env "stock_news" params self Hpos)
      as (times & tr & Heq).
    rewrite (returned_bind _ _ _ _ _ _ Heq), Hresp.
    destruct l as [|first rest].
    + rewrite interpret_empty_array. intros [= <-]. discriminate.
    + rewrite interpret_array.
      change (has_error (VList (first :: rest))) with false. cbv iota.
      unfold mbind, M_bind, lift, returned.
      destruct (summaries (first :: rest)); [|intros H; discriminate H].
      simpl. intros [= <-]. discriminate.
Qed.

Lemma summaries_result (l : list value) :
  if forallb is_dict l then exists articles, summaries l = Ok articles
  else raises_attribute_error (summaries l).
Proof.
  induction l as [|article l IH]; [simpl; eauto|].
  simpl. destruct article; simpl; try (eexists; reflexivity).
  destruct (forallb is_dict l).
  - destruct IH as [articles ->]. eexists. reflexivity.
  - destruct IH as [msg ->]. eexists. reflexivity.
Qed.

Lemma interpret_list_inv (endpoint : string) (r : response) (l : list value) :
  interpret py_str endpoint r = VList l ->
  r = RespJson (VList l) /\ l <> [].
Proof.
  unfold interpret, error_dict.
  destruct r as [data|msg| |msg| |msg]; try discriminate.
  destruct (is_dict data && truthy _); [discriminate|].
  destruct (truthy data) eqn:Ht; [|discriminate].
  simpl. intros ->. split; [reflexivity|]. intros ->. discriminate Ht.
Qed.

Lemma head_is_no_object_false (endpoint : string) (r : response)
    (first : value) (rest : list value) :
  head_is_no_object r = false ->
  interpret py_str endpoint r = VList (first :: rest) ->
  exists d, first = VDict d.
Proof.
  intros Hhead Hd. apply interpret_list_inv in Hd as [-> _].
  simpl in Hhead. destruct first; try discriminate Hhead. eauto.
Qed.

Lemma head_is_no_object_true (endpoint : string) (r : response) :
  head_is_no_object r = true ->
  exists first rest,
    interpret py_str endpoint r = VList (first :: rest) /\
    is_dict first = false.
Proof.
  destruct r as [[| | | | |[|first rest]|]|msg| |msg| |msg]; try discriminate.
  simpl. intros H. apply negb_true_iff in H.
  exists first, rest. split; [reflexivity | exact H].
Qed.

(** X7.  With a budget of at least one request the profile, the quote
    and the news turn every failure of the transport into a record.
    They raise in one case only, with [AttributeError]: the answer is a
    JSON array and the element read (the first one; for the news, any
    of them) is not an object. *)
Theorem normalizers_raise_only_on_malformed_arrays (self : FMPTool)
    (env : Env) (ticker : value) :
  (1 <= max_rpm self)%Z ->
  (if negb (invalid_ticker ticker) && negb (String.eqb (normalize ticker) "")
      && head_is_no_object (resp env)
   then raises_attribute_error
          (returned (get_company_profile py_str env ticker self))
   else exists d, returned (get_company_profile py_str env ticker self) = Ok d)
  /\
  (if negb (invalid_ticker ticker) && head_is_no_object (resp env)
   then raises_attribute_error
          (returned (get_stock_quote py_str env ticker self))
   else exists d, returned (get_stock_quote py_str env ticker self) = Ok d)
  /\
  (if negb (invalid_ticker ticker) && negb (objects_only (resp env))
   then raises_attribute_error
          (returned (get_news_sentiment py_str env ticker self))
   else exists d, returned (get_news_sentiment py_str env ticker self) = Ok d).
Proof.
  intros Hpos. split; [|split].
  - unfold get_company_profile.
    destruct (invalid_ticker ticker); [simpl; eauto|].
    destruct (String.eqb (normalize ticker) ""); [simpl; eauto|].
    destruct (make_request_returns py_str env ("profile/" ++ normalize ticker)
                None self Hpos) as (times & tr & Heq).
    rewrite (returned_bind _ _ _ _ _ _ Heq). simpl andb.
    destruct (head_is_no_object (resp env)) eqn:Hhead.
    + destruct (head_is_no_object_true ("profile/" ++ normalize ticker) _ Hhead)
        as (first & rest & -> & Hfirst).
      destruct first; try discriminate Hfirst; eexists; reflexivity.
    + destruct (has_error _); [eexists; reflexivity|].
      destruct (interpret _ _ _) as [| | | | |[|first rest]|] eqn:Hd;
        try (eexists; reflexivity).
      destruct (head_is_no_object_false _ _ _ _ Hhead Hd) as [p ->].
      eexists. reflexivity.
  - unfold get_stock_quote.
    destruct (invalid_ticker ticker); [simpl; eauto|].
    destruct (make_request_returns py_str env ("quote/" ++ normalize ticker)
                None self Hpos) as (times & tr & Heq).
    rewrite (returned_bind _ _ _ _ _ _ Heq). simpl andb.
    destruct (head_is_no_object (resp env)) eqn:Hhead.
    + destruct (head_is_no_object_true ("quote/" ++ normalize ticker) _ Hhead)
        as (first & rest & -> & Hfirst).
      destruct first; try discriminate Hfirst; eexists; reflexivity.
    + destruct (has_error _); [eexists; reflexivity|].
      destruct (interpret _ _ _) as [| | | | |[|first rest]|] eqn:Hd;
        try (eexists; reflexivity).
      destruct (head_is_no_object_false _ _ _ _ Hhead Hd) as [p ->].
      eexists. reflexivity.
  - unfold get_news_sentiment.
    destruct (invalid_ticker ticker); [simpl; eauto|].
    set (params := Some _).
    destruct (make_request_returns py_str env "stock_news" params self Hpos)
      as (times & tr & Heq).
    rewrite (returned_bind _ _ _ _ _ _ Heq). simpl andb.
    destruct (has_error _) eqn:He.
    + assert (Hobj : objects_only (resp env) = true).
      { destruct (resp env) as [[| | | | |l|]|msg| |msg| |msg]; try reflexivity.
        destruct l as [|first rest]; [reflexivity|discriminate He]. }
      rewrite Hobj. eexists. reflexivity.
    + destruct (interpret _ _ _) as [| | | | |l|] eqn:Hd.
      6: { apply interpret_list_inv in Hd as [Hr _]. rewrite Hr. simpl.
           pose proof (summaries_result l) as Hs.
           destruct (forallb is_dict l); simpl.
           - destruct Hs as [articles Hs]. unfold mbind, M_bind, lift, returned.
             rewrite Hs. eexists. reflexivity.
           - destruct Hs as [msg Hs]. unfold mbind, M_bind, lift, returned.
             rewrite Hs. eexists. reflexivity. }
      all: assert (Hobj : objects_only (resp env) = true)
        by (destruct (resp env) as [[| | | | |l|]|msg| |msg| |msg];
            try reflexivity; destruct l; [reflexivity|discriminate Hd]);
        rewrite Hobj; eexists; reflexivity.
Qed.

Lemma first_or_empty_interpret (endpoint : string) (r : response) :
  if head_is_no_object r then
    has_error (interpret py_str endpoint r) = false /\
    is_dict (first_or_empty (interpret py_str endpoint r)) = false
  else exists d, first_or_empty (interpret py_str endpoint r) = VDict d.
Proof.
  destruct (head_is_no_object r) eqn:Hhead.
  - destruct (head_is_no_object_true endpoint r Hhead)
      as (first & rest & -> & Hfirst).
    split; [reflexivity | exact Hfirst].
  - destruct (interpret py_str endpoint r) as [| | | | |[|first rest]|] eqn:Hd;
      try (eexists; reflexivity).
    destruct (head_is_no_object_false _ _ _ _ Hhead Hd) as [p ->].
    eexists. reflexivity.
Qed.

(** X8.  [get_key_financials] raises in one case only, with
    [AttributeError]: one of its four answers is a JSON array whose
    first element is not an object.  In every other case, failures of
    the transport included, it returns a record. *)
Theorem financials_raise_only_on_malformed_arrays (self : FMPTool)
    (e1 e2 e3 e4 : Env) (ticker : value) :
  (1 <= max_rpm self)%Z ->
  if negb (invalid_ticker ticker)
     && (head_is_no_object (resp e1) || head_is_no_object (resp e2)
         || head_is_no_object (resp e3) || head_is_no_object (resp e4))
  then raises_attribute_error
         (returned (get_key_financials py_str e1 e2 e3 e4 ticker self))
  else exists d,
         returned (get_key_financials py_str e1 e2 e3 e4 ticker self) = Ok d.
Proof.
  intros Hpos. unfold get_key_financials.
  destruct (invalid_ticker ticker); [simpl; eauto|].
  destruct (make_request_returns py_str e1 ("ratios-ttm/" ++ normalize ticker)
              None self Hpos) as (times1 & tr1 & Heq1).
  rewrite (returned_bind _ _ _ _ _ _ Heq1).
  destruct (make_request_returns py_str e2
              ("income-statement/" ++ normalize ticker) limit_1
              (set_request_times self times1) Hpos) as (times2 & tr2 & Heq2).
  rewrite (returned_bind _ _ _ _ _ _ Heq2).
  destruct (make_request_returns py_str e3
              ("balance-sheet-statement/" ++ normalize ticker) limit_1
              (set_request_times (set_request_times self times1) times2) Hpos)
    as (times3 & tr3 & Heq3).
  rewrite (returned_bind _ _ _ _ _ _ Heq3).
  destruct (make_request_returns py_str e4
              ("cash-flow-statement/" ++ normalize ticker) limit_1
              (set_request_times
                 (set_request_times (set_request_times self times1) times2)
                 times3) Hpos) as (times4 & tr4 & Heq4).
  rewrite (returned_bind _ _ _ _ _ _ Heq4).
  clear Heq1 Heq2 Heq3 Heq4.
  pose proof (first_or_empty_interpret ("ratios-ttm/" ++ normalize ticker)
                (resp e1)) as H1.
  pose proof (first_or_empty_interpret
                ("income-statement/" ++ normalize ticker) (resp e2)) as H2.
  pose proof (first_or_empty_interpret
                ("balance-sheet-statement/" ++ normalize ticker) (resp e3))
    as H3.
  pose proof (first_or_empty_interpret
                ("cash-flow-statement/" ++ normalize ticker) (resp e4)) as H4.
  set (ratios := interpret py_str _ (resp e1)) in *.
  set (income := interpret py_str _ (resp e2)) in *.
  set (balance := interpret py_str _ (resp e3)) in *.
  set (cash_flow := interpret py_str _ (resp e4)) in *.
  cbv zeta. simpl negb. simpl andb.
  destruct (head_is_no_object (resp e1)).
  { destruct H1 as [He Hd]. rewrite He. simpl.
    destruct (first_or_empty ratios); try discriminate Hd;
      eexists; reflexivity. }
  destruct H1 as [r ->].
  destruct (head_is_no_object (resp e2)).
  { destruct H2 as [He Hd]. rewrite He, andb_false_r. simpl.
    destruct (first_or_empty income); try discriminate Hd;
      eexists; reflexivity. }
  destruct H2 as [i ->].
  destruct (head_is_no_object (resp e3)).
  { destruct H3 as [He Hd]. rewrite He, andb_false_r. simpl.
    destruct (first_or_empty balance); try discriminate Hd;
      eexists; reflexivity. }
  destruct H3 as [b ->].
  destruct (head_is_no_object (resp e4)).
  { destruct H4 as [He Hd]. rewrite He, andb_false_r. simpl.
    destruct (first_or_empty cash_flow); try discriminate Hd;
      eexists; reflexivity. }
  destruct H4 as [c ->]. simpl.
  destruct (_ && _); eexists; reflexivity.
Qed.

Lemma keeps_ret {A} (a : A) : keeps_settings (mret a : M A).
Proof. intros self. repeat split. Qed.

Lemma keeps_lift {A} (r : result A) : keeps_settings (lift r).
Proof. intros self. repeat split. Qed.

Lemma keeps_bind {A B} (m : M A) (k : A -> M B) :
  keeps_settings m -> (forall a, keeps_settings (k a)) ->
  keeps_settings (m ≫= k).
Proof.
  intros Hm Hk self. specialize (Hm self).
  unfold mbind, M_bind, tool_after in *.
  destruct (m self) as [[[a|e] self'] tr]; simpl in Hm; [|exact Hm].
  specialize (Hk a self'). unfold tool_after in Hk.
  destruct (k a self') as [[r self''] tr']. simpl in *.
  destruct Hm as (H1 & H2 & H3), Hk as (K1 & K2 & K3).
  repeat split; congruence.
Qed.

Lemma keeps_rate_limit (env : Env) : keeps_settings (rate_limit env).
Proof.
  intros self. unfold rate_limit.
  destruct (max_rpm self <=? _)%Z; [|repeat split].
  destruct (prune (now env) (request_times self)); [repeat split|].
  destruct (Qltb 0 _); repeat split.
Qed.

Lemma keeps_make_request (env : Env) (endpoint : string)
    (params : option dict) :
  keeps_settings (_make_request py_str env endpoint params).
Proof.
  intros self. rewrite make_request_tool. apply keeps_rate_limit.
Qed.

Ltac keep :=
  repeat first
    [ apply keeps_ret
    | apply keeps_lift
    | apply keeps_make_request
    | apply keeps_bind; [|intros ?]
    | match goal with
      | |- keeps_settings (if ?b then _ else _) => destruct b
      | |- keeps_settings (match ?x with _ => _ end) => destruct x
      end ].

(** X26.  No call changes the settings of the client: after
    [_make_request] and after each of the four functions, whether they
    return or raise, the key, the base URL and the budget are what they
    were; only the window of time stamps moves. *)
Theorem client_settings_are_kept (env e2 e3 e4 : Env) (endpoint : string)
    (params : option dict) (ticker : value) :
  keeps_settings (_make_request py_str env endpoint params) /\
  keeps_settings (get_company_profile py_str env ticker) /\
  keeps_settings (get_stock_quote py_str env ticker) /\
  keeps_settings (get_key_financials py_str env e2 e3 e4 ticker) /\
  keeps_settings (get_news_sentiment py_str env ticker).
Proof.
  split; [apply keeps_make_request|].
  unfold get_company_profile, get_stock_quote, get_key_financials,
    get_news_sentiment.
  split; [|split; [|split]]; cbv zeta; keep.
Qed.

End Requests.

Lemma requests_of_the_normalizers_witness :
  requests (trace (get_company_profile str_of timed_out (VStr " aapl ")
                     demo_tool)) =
    [get_of demo_tool "profile/AAPL" ∅] /\
  requests (trace (get_stock_quote str_of timed_out (VStr " aapl ")
                     demo_tool)) =
    [get_of demo_tool "quote/AAPL" ∅] /\
  requests (trace (get_news_sentiment str_of timed_out (VStr " aapl ")
                     demo_tool)) =
    [get_of demo_tool "stock_news"
       (dict_of [("tickers", VStr "AAPL"); ("limit", VInt 10)])] /\
  requests (trace (get_key_financials str_of timed_out timed_out timed_out
                     timed_out (VStr " aapl ") demo_tool)) =
    [get_of demo_tool "ratios-ttm/AAPL" ∅;
     get_of demo_tool "income-statement/AAPL" (dict_of [("limit", VInt 1)]);
     get_of demo_tool "balance-sheet-statement/AAPL"
       (dict_of [("limit", VInt 1)]);
     get_of demo_tool "cash-flow-statement/AAPL"
       (dict_of [("limit", VInt 1)])].
Proof.
  pose proof (requests_of_the_normalizers str_of demo_tool timed_out timed_out
                timed_out timed_out timed_out (VStr " aapl ")
                eq_refl ltac:(simpl; lia)) as (Hp & Hq & Hn & Hf).
  split; [apply Hp; discriminate|]. split; [exact Hq|]. split; [exact Hn|].
  exact Hf.
Defined.


Lemma make_request_error_or_payload_witness :
  exists v,
    returned (_make_request str_of (answered (VList [])) "quote/AAPL" None
                demo_tool) = Ok v /\
    ((exists msg, v = VDict {["error" := VStr msg]}) \/
     (resp (answered (VList [])) = RespJson v /\ truthy v = true /\
      forall d, v = VDict d ->
        truthy (dict_get d "Error Message") = false /\
        truthy (dict_get d "error") = false)).
Proof.
  apply (make_request_error_or_payload str_of (answered (VList []))
           "quote/AAPL" None demo_tool).
  simpl. lia.
Defined.

Lemma arrays_are_never_not_found_witness :
  returned (get_news_sentiment str_of (answered (VList [])) (VStr "AAPL")
              demo_tool) = Ok news_empty_record /\
  news_empty_record !! "error" <> Some (VStr "No news found").
Proof.
  split; [reflexivity|].
  destruct (arrays_are_never_not_found str_of demo_tool (answered (VList []))
              (VStr "AAPL") [] news_empty_record ltac:(simpl; lia) eq_refl)
    as (_ & _ & Hnews).
  apply Hnews. reflexivity.
Defined.

Lemma normalizers_raise_only_on_malformed_arrays_witness :
  raises_attribute_error
    (returned (get_company_profile str_of (answered (VList [VInt 1]))
                 (VStr "AAPL") demo_tool)) /\
  raises_attribute_error
    (returned (get_stock_quote str_of (answered (VList [VInt 1]))
                 (VStr "AAPL") demo_tool)) /\
  raises_attribute_error
    (returned (get_news_sentiment str_of (answered (VList [VInt 1]))
                 (VStr "AAPL") demo_tool)).
Proof.
  exact (normalizers_raise_only_on_malformed_arrays str_of demo_tool
           (answered (VList [VInt 1])) (VStr "AAPL") ltac:(simpl; lia)).
Defined.

Lemma financials_raise_only_on_malformed_arrays_witness :
  raises_attribute_error
    (returned (get_key_financials str_of timed_out timed_out
                 (answered (VList [VStr "n/a"])) timed_out
                 (VStr "AAPL") demo_tool)).
Proof.
  exact (financials_raise_only_on_malformed_arrays str_of demo_tool
           timed_out timed_out (answered (VList [VStr "n/a"])) timed_out
           (VStr "AAPL") ltac:(simpl; lia)).
Defined.

(** *** The two tests of the key error *)

Section Layers.

Variable py_str : value -> string.

Arguments dict_of : simpl never.
Arguments error_dict : simpl never.

Lemma interpret_falsy_error (endpoint : string) (d : dict) (e : value) :
  d !! "error" = Some e ->
  truthy e = false ->
  truthy (dict_get d "Error Message") = false ->
  interpret py_str endpoint (RespJson (VDict d)) = VDict d /\
  has_error (VDict d) = true /\
  error_of (VDict d) = e.
Proof.
  intros He Hfalsy Hmsg.
  assert (Hget : dict_get d "error" = e) by (unfold dict_get; rewrite He; reflexivity).
  split; [|split].
  - unfold interpret, py_or. rewrite Hmsg, Hget, Hfalsy. simpl.
    destruct (size d) eqn:Hsize; [|reflexivity].
    apply map_size_empty_iff in Hsize. subst d.
    rewrite lookup_empty in He. discriminate He.
  - simpl. unfold dict_has. apply bool_decide_eq_true. rewrite He. eauto.
  - exact Hget.
Qed.

(** X27.  The two layers test the key error differently.  An answer
    that is an object holding the key error with a falsy value (an
    empty message, null) and no truthy [Error Message] passes
    [_make_request] as a payload, since the message is tested for
    truth; the profile, the quote and the news test the presence of
    the key, and return their error record with that falsy value as
    the error. *)
Theorem falsy_error_key_is_still_an_error (self : FMPTool) (env : Env)
    (ticker : value) (d : dict) (e : value) :
  invalid_ticker ticker = false ->
  (1 <= max_rpm self)%Z ->
  resp env = RespJson (VDict d) ->
  d !! "error" = Some e ->
  truthy e = false ->
  truthy (dict_get d "Error Message") = false ->
  let symbol := normalize ticker in
  returned (_make_request py_str env ("quote/" ++ symbol) None self) =
    Ok (VDict d) /\
  returned (get_stock_quote py_str env ticker self) =
    Ok (dict_of [("error", e)]) /\
  returned (get_news_sentiment py_str env ticker self) =
    Ok (dict_of [("error", e); ("articles", VList []);
                 ("symbol", VStr symbol)]) /\
  (symbol <> "" ->
   returned (get_company_profile py_str env ticker self) =
     Ok (dict_of [
       ("error", e);
       ("name", VStr symbol);
       ("industry", VStr "Unknown");
       ("sector", VStr "Unknown");
       ("description",
        VStr ("Could not retrieve company profile. " ++ py_str e))])).
Proof.
  intros Hv Hpos Hresp He Hfalsy Hmsg symbol. subst symbol.
  assert (Hint : forall endpoint,
    interpret py_str endpoint (resp env) = VDict d).
  { intros endpoint. rewrite Hresp.
    apply (interpret_falsy_error endpoint d e He Hfalsy Hmsg). }
  destruct (interpret_falsy_error "" d e He Hfalsy Hmsg) as (_ & Herr & Hof).
  split; [|split; [|split]].
  - destruct (make_request_returns py_str env ("quote/" ++ normalize ticker)
                None self Hpos) as (times & tr & Heq).
    rewrite Heq, Hint. reflexivity.
  - unfold get_stock_quote. rewrite Hv.
    destruct (make_request_returns py_str env ("quote/" ++ normalize ticker)
                None self Hpos) as (times & tr & Heq).
    rewrite (returned_bind _ _ _ _ _ _ Heq), Hint, Herr, Hof. reflexivity.
  - unfold get_news_sentiment. rewrite Hv.
    set (params := Some _).
    destruct (make_request_returns py_str env "stock_news" params self Hpos)
      as (times & tr & Heq).
    rewrite (returned_bind _ _ _ _ _ _ Heq), Hint, Herr, Hof. reflexivity.
  - intros Hne. unfold get_company_profile. rewrite Hv.
    apply String.eqb_neq in Hne. rewrite Hne.
    destruct (make_request_returns py_str env ("profile/" ++ normalize ticker)
                None self Hpos) as (times & tr & Heq).
    rewrite (returned_bind _ _ _ _ _ _ Heq), Hint, Herr, Hof. reflexivity.
Qed.

End Layers.

Lemma falsy_error_key_is_still_an_error_witness :
  returned (_make_request str_of (answered (VDict blank_error_payload))
              "quote/AAPL" None demo_tool) = Ok (VDict blank_error_payload) /\
  returned (get_stock_quote str_of (answered (VDict blank_error_payload))
              (VStr "AAPL") demo_tool) =
    Ok (dict_of [("error", VStr "")]).
Proof.
  destruct (falsy_error_key_is_still_an_error str_of demo_tool
              (answered (VDict blank_error_payload)) (VStr "AAPL")
              blank_error_payload (VStr "")
              eq_refl ltac:(simpl; lia) eq_refl eq_refl eq_refl eq_refl)
    as (Hraw & Hquote & _).
  split; [exact Hraw | exact Hquote].
Defined.

(** ** The symbol of a ticker *)

Section Tickers.

Variable py_str : value -> string.












End Tickers.


(** ** The outputs of the agents *)

(** Regular expressions of [extract_agent_outputs] at texts that show
    the greedy run of separators, the lazy group, the end of the text
    and the letter case. *)
Example search_section_examples :
  map (helper_functions.search_section "Financial Analysis"
         ["Profile Analysis"; "News Analysis"])
    [ "Financial Analysis:" ++ String "010" ("{a}" ++ String "010"
        (String "010" "profile analysis: x"));
      "financial ANALYSIS::" ++ String "010" (String "010" (":x" ++ String "010" ""));
      "Financial Analysis x Financial Analysis: y" ++ String "010" (String "010" "");
      "Financial Analysis:";
      "xFinancial Analysis" ++ String "010" "News Analysis";
      "Financial Analysis" ] =
  [ Some ("{a}" ++ String "010" (String "010" ""));
    Some "x";
    Some (" y" ++ String "010" "");
    Some "";
    Some "";
    None ].
Proof. vm_compute. reflexivity. Qed.

Example find_objects_examples :
  helper_functions.find_objects None ("a}{b{c}d}e{f" ++ String "010" "}g{h") =
    ["{b{c}"; "{f" ++ String "010" "}"] /\
  helper_functions.find_objects None "{}{}" = ["{}"; "{}"].
Proof. split; vm_compute; reflexivity. Qed.

Section AgentOutputs.

Import helper_functions.

Variable loads : string -> option value.
Variable financial_analyst profile_researcher news_analyst : string.

Lemma from_tasks_routed (items : list task_output) : forall a b c : value,
  financial_analyst <> profile_researcher ->
  financial_analyst <> news_analyst ->
  profile_researcher <> news_analyst ->
  forallb has_role items = true ->
  let pick role dflt :=
    match last_output_of role items with
    | Some text => parsed loads (Some text)
    | None => dflt
    end in
  from_tasks loads financial_analyst profile_researcher news_analyst items
    (a, b, c) =
  (pick financial_analyst a, pick profile_researcher b, pick news_analyst c).
Proof.
  intros a b c Hfp Hfn Hpn. revert a b c.
  induction items as [|t items IH]; intros a b c Hroles; [reflexivity|].
  simpl in Hroles. apply andb_prop in Hroles as [Ht Hroles].
  destruct t as [[agent_role|] output|]; [|discriminate Ht|].
  2: { simpl. apply IH. exact Hroles. }
  cbn [from_tasks last_output_of].
  pose proof (extract_json_like_returns loads output) as Hok.
  destruct (String.eqb_spec agent_role profile_researcher) as [->|Hp].
  - destruct (extract_json_like loads output) as [v|e] eqn:Hv;
      [|discriminate Hok].
    unfold set_profile. cbn [fst snd]. rewrite (IH a v c Hroles). cbv zeta.
    rewrite ?String.eqb_refl.
    assert (Hf : String.eqb profile_researcher financial_analyst = false)
      by (apply String.eqb_neq; congruence).
    assert (Hn : String.eqb profile_researcher news_analyst = false)
      by (apply String.eqb_neq; congruence).
    rewrite Hf, Hn.
    destruct (last_output_of financial_analyst items),
      (last_output_of profile_researcher items),
      (last_output_of news_analyst items);
      unfold parsed; rewrite ?Hv; reflexivity.
  - destruct (String.eqb_spec agent_role financial_analyst) as [->|Hf].
    + destruct (extract_json_like loads output) as [v|e] eqn:Hv;
        [|discriminate Hok].
      unfold set_financial. cbn [fst snd]. rewrite (IH v b c Hroles). cbv zeta.
      assert (Hn : String.eqb financial_analyst news_analyst = false)
        by (apply String.eqb_neq; congruence).
      rewrite Hn.
      destruct (last_output_of financial_analyst items),
        (last_output_of profile_researcher items),
        (last_output_of news_analyst items);
        unfold parsed; rewrite ?Hv; reflexivity.
    + destruct (String.eqb_spec agent_role news_analyst) as [->|Hn].
      * destruct (extract_json_like loads output) as [v|e] eqn:Hv;
          [|discriminate Hok].
        unfold set_news. cbn [fst snd]. rewrite (IH a b v Hroles). cbv zeta.
        destruct (last_output_of financial_analyst items),
          (last_output_of profile_researcher items),
          (last_output_of news_analyst items);
          unfold parsed; rewrite ?Hv; reflexivity.
      * rewrite (IH a b c Hroles). cbv zeta.
        destruct (last_output_of financial_analyst items),
          (last_output_of profile_researcher items),
          (last_output_of news_analyst items); reflexivity.
Qed.

(** X10.  On a list of task outputs whose agents all have a role, and
    for three agents of different roles, each of the three records is
    what [extract_json_like] makes of the output of the last task of
    that agent, and the empty mapping when the agent has no task in the
    list; the records come back in the order financial, profile,
    news.  Entries without agent or output, and tasks of other agents,
    are passed over. *)
Theorem tasks_are_routed_by_role (items : list task_output) :
  financial_analyst <> profile_researcher ->
  financial_analyst <> news_analyst ->
  profile_researcher <> news_analyst ->
  forallb has_role items = true ->
  extract_agent_outputs loads financial_analyst profile_researcher
    news_analyst (Results items) =
  (parsed loads (last_output_of financial_analyst items),
   parsed loads (last_output_of profile_researcher items),
   parsed loads (last_output_of news_analyst items)).
Proof.
  intros Hfp Hfn Hpn Hroles. unfold extract_agent_outputs.
  rewrite (from_tasks_routed items _ _ _ Hfp Hfn Hpn Hroles). cbv zeta.
  destruct (last_output_of financial_analyst items),
    (last_output_of profile_researcher items),
    (last_output_of news_analyst items); reflexivity.
Qed.

Lemma from_tasks_stops (before after : list task_output) (output : value) :
  forall o,
    from_tasks loads financial_analyst profile_researcher news_analyst
      (before ++ Task None output :: after) o =
    from_tasks loads financial_analyst profile_researcher news_analyst
      before o.
Proof.
  induction before as [|t before IH]; intros o; [reflexivity|].
  destruct t as [[agent_role|] out|]; simpl.
  - destruct (String.eqb agent_role profile_researcher).
    { destruct (extract_json_like loads out); [apply IH|reflexivity]. }
    destruct (String.eqb agent_role financial_analyst).
    { destruct (extract_json_like loads out); [apply IH|reflexivity]. }
    destruct (String.eqb agent_role news_analyst).
    { destruct (extract_json_like loads out); [apply IH|reflexivity]. }
    apply IH.
  - reflexivity.
  - apply IH.
Qed.

(** X11.  A task whose agent exposes no role ends the reading of the
    list: the exception is handled at the end of the function, the
    records assigned before it are returned, and no later entry is
    read, whatever it holds. *)
Theorem task_without_role_ends_the_list (before after : list task_output)
    (output : value) :
  extract_agent_outputs loads financial_analyst profile_researcher
    news_analyst (Results (before ++ Task None output :: after)) =
  extract_agent_outputs loads financial_analyst profile_researcher
    news_analyst (Results before).
Proof. unfold extract_agent_outputs. apply from_tasks_stops. Qed.

Lemma find_objects_lead (lead s : string) :
  no_open lead = true ->
  find_objects None (lead ++ s) = find_objects None s.
Proof.
  induction lead as [|c lead IH]; intros Hlead; [reflexivity|].
  simpl in Hlead. apply andb_prop in Hlead as [Hc Hlead].
  apply negb_true_iff in Hc.
  rewrite append_cons. simpl. rewrite Hc. apply IH. exact Hlead.
Qed.

Lemma find_objects_body (body : string) : forall m s,
  no_close body = true ->
  find_objects (Some m) (body ++ String "}" s) =
  (m ++ body ++ "}") :: find_objects None s.
Proof.
  induction body as [|c body IH]; intros m s Hbody.
  - rewrite !append_empty. reflexivity.
  - simpl in Hbody. apply andb_prop in Hbody as [Hc Hbody].
    apply negb_true_iff in Hc.
    rewrite append_cons. simpl. rewrite Hc.
    rewrite (IH _ s Hbody). f_equal.
    rewrite append_assoc, !append_cons, append_empty. reflexivity.
Qed.

Lemma find_objects_interleave (pieces : list (string * string)) :
  forallb (fun p => no_close p.1 && no_open p.2) pieces = true ->
  find_objects None (interleave pieces) =
  map (fun p => "{" ++ p.1 ++ "}") pieces.
Proof.
  induction pieces as [|[body sep] pieces IH]; intros H; [reflexivity|].
  simpl in H. apply andb_prop in H as [Hp H].
  apply andb_prop in Hp as [Hbody Hsep].
  cbn [interleave map fst].
  change (find_objects None ("{" ++ body ++ "}" ++ sep ++ interleave pieces))
    with (find_objects (Some "{") (body ++ String "}" (sep ++ interleave pieces))).
  rewrite (find_objects_body body "{" _ Hbody).
  rewrite (find_objects_lead sep _ Hsep), (IH H).
  reflexivity.
Qed.

Lemma categorize_record (d : dict) (o : outputs) :
  categorize (VDict d) o =
    if is_financial d then set_financial o (VDict d)
    else if is_profile d then set_profile o (VDict d)
    else if is_news d then set_news o (VDict d)
    else o.
Proof.
  unfold categorize, is_news, is_profile, is_financial. simpl.
  destruct (dict_has d "financial_health"), (dict_has d "key_metrics"),
    (dict_has d "business_outlook"), (dict_has d "industry_position"),
    (dict_has d "sentiment"), (dict_has d "news_summary"); reflexivity.
Qed.

Lemma from_objects_routed (pieces : list (string * string)) :
  forall (decoded : list (option dict)) (a b c : value),
    Forall2 (fun p r => loads (replace_quotes ("{" ++ p.1 ++ "}")) = VDict <$> r)
      pieces decoded ->
    let pick category dflt :=
      match last_record category decoded with
      | Some d => VDict d
      | None => dflt
      end in
    from_objects loads (map (fun p => "{" ++ p.1 ++ "}") pieces) (a, b, c) =
    (pick is_financial a, pick is_profile b, pick is_news c).
Proof.
  induction pieces as [|p pieces IH]; intros decoded a b c Hdec.
  - inversion Hdec; subst. reflexivity.
  - inversion Hdec as [|p' r ps rs Hr Hrest]; subst.
    cbn [map from_objects]. rewrite Hr.
    destruct r as [d|]; cbn [fmap option_fmap option_map last_record].
    + rewrite categorize_record.
      destruct (is_financial d) eqn:Hf.
      * assert (Hp : is_profile d = false)
          by (unfold is_profile; rewrite Hf; reflexivity).
        assert (Hn : is_news d = false)
          by (unfold is_news; rewrite Hf; reflexivity).
        unfold set_financial. cbn [fst snd]. rewrite (IH rs _ _ _ Hrest).
        cbv zeta. rewrite Hp, Hn.
        destruct (last_record is_financial rs),
          (last_record is_profile rs), (last_record is_news rs);
          reflexivity.
      * destruct (is_profile d) eqn:Hp.
        { assert (Hn : is_news d = false)
            by (unfold is_news; rewrite Hf, Hp; reflexivity).
          unfold set_profile. cbn [fst snd]. rewrite (IH rs _ _ _ Hrest).
          cbv zeta. rewrite Hn.
          destruct (last_record is_financial rs),
            (last_record is_profile rs), (last_record is_news rs);
            reflexivity. }
        destruct (is_news d) eqn:Hn.
        { unfold set_news. cbn [fst snd]. rewrite (IH rs _ _ _ Hrest).
          cbv zeta.
          destruct (last_record is_financial rs),
            (last_record is_profile rs), (last_record is_news rs);
            reflexivity. }
        rewrite (IH rs _ _ _ Hrest). cbv zeta.
        destruct (last_record is_financial rs),
          (last_record is_profile rs), (last_record is_news rs);
          reflexivity.
    + rewrite (IH rs _ _ _ Hrest). reflexivity.
Qed.

(** X12.  On a text made of fragments in braces, none of which holds a
    closing brace inside, with no opening brace between them: the
    fragments are read one by one, single quotes replaced by double
    ones; a fragment that does not decode is passed over; a record goes
    to the financial category when it has the key financial_health or
    key_metrics, else to the profile when it has business_outlook or
    industry_position, else to the news when it has sentiment or
    news_summary; and each result is the last record of its category,
    the empty mapping when there is none, whatever the order of the
    fragments. *)
Theorem text_records_are_routed_by_key (lead : string)
    (pieces : list (string * string)) (decoded : list (option dict)) :
  no_open lead = true ->
  forallb (fun p => no_close p.1 && no_open p.2) pieces = true ->
  Forall2 (fun p r => loads (replace_quotes ("{" ++ p.1 ++ "}")) = VDict <$> r)
    pieces decoded ->
  extract_agent_outputs loads financial_analyst profile_researcher
    news_analyst (Text (lead ++ interleave pieces)) =
  (record_or_empty (last_record is_financial decoded),
   record_or_empty (last_record is_profile decoded),
   record_or_empty (last_record is_news decoded)).
Proof.
  intros Hlead Hpieces Hdec. unfold extract_agent_outputs.
  rewrite (find_objects_lead lead _ Hlead),
    (find_objects_interleave pieces Hpieces),
    (from_objects_routed pieces decoded _ _ _ Hdec).
  reflexivity.
Qed.

Lemma prefix_ci_suffix (p : string) : forall s r,
  prefix_ci p s = Some r -> exists l, s = l ++ r.
Proof.
  induction p as [|a p IH]; intros s r H.
  - simpl in H. destruct s; injection H as <-; exists ""; reflexivity.
  - destruct s as [|b s]; [discriminate H|].
    simpl in H. destruct (ci_eqb a b); [|discriminate H].
    destruct (IH s r H) as [l ->]. exists (String b l). reflexivity.
Qed.

Lemma prefix_ci_app (p : string) : forall a b,
  is_Some (prefix_ci p a) -> is_Some (prefix_ci p (a ++ b)).
Proof.
  induction p as [|x p IH]; intros a b H.
  - destruct (a ++ b); eexists; reflexivity.
  - destruct a as [|y a]; [destruct H as [r H]; discriminate H|].
    rewrite append_cons. simpl in *. destruct (ci_eqb x y).
    + apply IH. exact H.
    + destruct H as [r H]. discriminate H.
Qed.

Lemma skip_seps_suffix (s : string) : exists l, s = l ++ skip_seps s.
Proof.
  induction s as [|c s IH]; [exists ""; reflexivity|].
  simpl. destruct (is_sep c); [|exists ""; reflexivity].
  destruct IH as [l IH]. exists (String c l). rewrite append_cons, <- IH.
  reflexivity.
Qed.

Lemma after_heading_step (heading s : string) :
  after_heading heading s =
    match heading_at heading s with
    | Some body => Some body
    | None =>
        match s with
        | EmptyString => None
        | String _ s' => after_heading heading s'
        end
    end.
Proof. destruct s; reflexivity. Qed.

Lemma heading_at_suffix (heading s body : string) :
  heading_at heading s = Some body -> exists lead, s = lead ++ body.
Proof.
  unfold heading_at.
  destruct (prefix_ci heading s) as [[|c rest]|] eqn:Hp; try discriminate.
  destruct (is_sep c); [|discriminate]. intros [= <-].
  destruct (prefix_ci_suffix _ _ _ Hp) as [l ->].
  destruct (skip_seps_suffix rest) as [l' Hl'].
  exists (l ++ String c l'). rewrite append_assoc, append_cons, <- Hl'.
  reflexivity.
Qed.

Lemma after_heading_suffix (heading : string) : forall s body,
  after_heading heading s = Some body -> exists lead, s = lead ++ body.
Proof.
  induction s as [|c s IH]; intros body H; rewrite after_heading_step in H.
  - destruct (heading_at heading "") eqn:Hat; [|discriminate H].
    injection H as <-. apply (heading_at_suffix _ _ _ Hat).
  - destruct (heading_at heading (String c s)) eqn:Hat.
    + injection H as <-. apply (heading_at_suffix _ _ _ Hat).
    + destruct (IH body H) as [lead ->]. exists (String c lead). reflexivity.
Qed.

Lemma until_stop_step (nexts : list string) (s : string) :
  until_stop nexts s =
    if stops nexts s then EmptyString
    else
      match s with
      | EmptyString => EmptyString
      | String c s' => String c (until_stop nexts s')
      end.
Proof. destruct s; reflexivity. Qed.

Lemma until_stop_prefix (nexts : list string) : forall s,
  exists rest, s = until_stop nexts s ++ rest /\ stops nexts rest = true.
Proof.
  induction s as [|c s IH]; rewrite until_stop_step.
  - exists "". split; [destruct (stops nexts ""); reflexivity|].
    unfold stops. apply orb_true_r.
  - destruct (stops nexts (String c s)) eqn:Hs.
    + exists (String c s). split; [reflexivity | exact Hs].
    + destruct IH as (rest & Heq & Hrest). exists rest.
      split; [|exact Hrest]. rewrite append_cons, <- Heq. reflexivity.
Qed.

Lemma until_stop_free (nexts : list string) (next : string) :
  In next nexts -> next <> "" ->
  forall s, mentions_ci next (until_stop nexts s) = false.
Proof.
  intros Hin Hne.
  assert (Hempty : mentions_ci next "" = false).
  { destruct next; [congruence|]. reflexivity. }
  induction s as [|c s IH]; rewrite until_stop_step.
  - destruct (stops nexts ""); exact Hempty.
  - destruct (stops nexts (String c s)) eqn:Hs; [exact Hempty|].
    cbn [mentions_ci]. rewrite IH, orb_false_r.
    apply bool_decide_eq_false. intros Hsome.
    destruct (until_stop_prefix nexts s) as (rest & Heq & _).
    assert (Hfull : is_Some (prefix_ci next (String c s))).
    { rewrite Heq at 1. rewrite <- append_cons. apply prefix_ci_app.
      exact Hsome. }
    unfold stops in Hs. apply orb_false_iff in Hs as [Hs _].
    assert (Hex : existsb
              (fun h => bool_decide (is_Some (prefix_ci h (String c s))))
              nexts = true).
    { apply existsb_exists. exists next. split; [exact Hin|].
      apply bool_decide_eq_true. exact Hfull. }
    congruence.
Qed.

(** X14.  The section [extract_agent_outputs] reads under a heading is a
    part of the text that ends where the lookahead holds: at the
    heading of another section, in any letter case, or at the end of
    the text.  It never holds the heading of another section. *)
Theorem section_stops_at_the_next_heading (heading : string)
    (nexts : list string) (text section : string) :
  Forall (fun next => next <> "") nexts ->
  search_section heading nexts text = Some section ->
  (exists lead rest,
     text = lead ++ section ++ rest /\ stops nexts rest = true) /\
  Forall (fun next => mentions_ci next section = false) nexts.
Proof.
  intros Hne. unfold search_section.
  destruct (after_heading heading text) as [body|] eqn:Hbody; [|discriminate].
  cbn [fmap option_fmap option_map]. intros [= <-]. split.
  - destruct (after_heading_suffix _ _ _ Hbody) as [lead ->].
    destruct (until_stop_prefix nexts body) as (rest & Heq & Hrest).
    exists lead, rest. split; [|exact Hrest]. rewrite <- Heq. reflexivity.
  - rewrite List.Forall_forall in *. intros next Hin.
    apply until_stop_free; [exact Hin | apply Hne; exact Hin].
Qed.

(** X13.  When the output of the crew is one object whose text
    [json.loads] reads as a truthy value (a record or a list that is
    not empty, text that is not empty, a number other than zero, true),
    the parse of the whole text succeeds, the sections are not searched
    and the value is dropped: the three records are empty. *)
Theorem combined_record_is_discarded (v : value) (text : string) :
  json_loads text = Some v ->
  truthy v = true ->
  extract_agent_outputs json_loads financial_analyst profile_researcher
    news_analyst (WithOutput (VStr text)) =
  (VDict ∅, VDict ∅, VDict ∅).
Proof.
  intros Hload Hv. unfold extract_agent_outputs.
  rewrite (extract_json_like_strict json_loads text v);
    [rewrite Hv; reflexivity | | exact Hload].
  intros ->. discriminate Hload.
Qed.

End AgentOutputs.

Lemma tasks_are_routed_by_role_witness :
  helper_functions.extract_agent_outputs json_loads "Financial Analyst"
    "Company Profile Researcher" "News & Sentiment Analyst"
    (helper_functions.Results crew_tasks) =
  (VDict (dict_of [("financial_health", VStr "Strong")]),
   VDict ∅,
   VDict (dict_of [("sentiment", VStr "Positive")])).
Proof.
  rewrite (tasks_are_routed_by_role json_loads "Financial Analyst"
             "Company Profile Researcher" "News & Sentiment Analyst"
             crew_tasks);
    [| discriminate | discriminate | discriminate | reflexivity].
  vm_compute. reflexivity.
Defined.

Lemma text_records_are_routed_by_key_witness :
  helper_functions.extract_agent_outputs json_loads "Financial Analyst"
    "Company Profile Researcher" "News & Sentiment Analyst"
    (helper_functions.Text ("Results: " ++ interleave text_pieces)) =
  (VDict (dict_of [("key_metrics", VInt 1); ("sentiment", VStr "Mixed")]),
   VDict ∅,
   VDict (dict_of [("sentiment", VStr "Positive")])).
Proof.
  rewrite (text_records_are_routed_by_key json_loads "Financial Analyst"
             "Company Profile Researcher" "News & Sentiment Analyst"
             "Results: " text_pieces text_decoded).
  - vm_compute. reflexivity.
  - reflexivity.
  - reflexivity.
  - repeat constructor; vm_compute; reflexivity.
Defined.

Lemma section_stops_at_the_next_heading_witness :
  helper_functions.search_section "Financial Analysis"
    ["Profile Analysis"; "News Analysis"] headed_report =
    Some (dq "{'financial_health': 'Strong'}" ++ String "010" "") /\
  Forall (fun next =>
            mentions_ci next
              (dq "{'financial_health': 'Strong'}" ++ String "010" "") = false)
    ["Profile Analysis"; "News Analysis"].
Proof.
  split; [vm_compute; reflexivity|].
  apply (section_stops_at_the_next_heading "Financial Analysis"
           ["Profile Analysis"; "News Analysis"] headed_report).
  - repeat constructor; discriminate.
  - vm_compute. reflexivity.
Defined.

Lemma combined_record_is_discarded_witness :
  json_loads (dq "{'key_metrics': {'pe_ratio': 28.5}, 'financial_health': 'Strong'}") =
    Some (VDict (dict_of [
      ("key_metrics", VDict (dict_of [("pe_ratio", VFloat 28.5)]));
      ("financial_health", VStr "Strong")])) /\
  helper_functions.extract_agent_outputs json_loads "Financial Analyst"
    "Company Profile Researcher" "News & Sentiment Analyst"
    (helper_functions.WithOutput
       (VStr (dq "{'key_metrics': {'pe_ratio': 28.5}, 'financial_health': 'Strong'}"))) =
  (VDict ∅, VDict ∅, VDict ∅).
Proof.
  split; [vm_compute; reflexivity|].
  apply (combined_record_is_discarded "Financial Analyst"
           "Company Profile Researcher" "News & Sentiment Analyst"
           (VDict (dict_of [
              ("key_metrics", VDict (dict_of [("pe_ratio", VFloat 28.5)]));
              ("financial_health", VStr "Strong")]))).
  - vm_compute. reflexivity.
  - reflexivity.
Defined.

(** A report in sections is read section by section. *)
Example headed_report_is_read :
  helper_functions.extract_agent_outputs json_loads "Financial Analyst"
    "Company Profile Researcher" "News & Sentiment Analyst"
    (helper_functions.WithOutput (VStr headed_report)) =
  (VDict (dict_of [("financial_health", VStr "Strong")]),
   VDict (dict_of [("business_outlook", VStr "Stable")]),
   VDict (dict_of [("sentiment", VStr "Positive")])).
Proof. vm_compute. reflexivity. Qed.

(** ** Records in prose, and what the judge shows *)

Section Prose.

Lemma from_first_open_lead (lead t : string) :
  no_open lead = true ->
  from_first_open (lead ++ String "{" t) = Some (String "{" t).
Proof.
  induction lead as [|c lead IH]; intros H; [reflexivity|].
  simpl in H. apply andb_prop in H as [Hc H]. apply negb_true_iff in Hc.
  rewrite append_cons. simpl. rewrite Hc. apply IH. exact H.
Qed.

Lemma to_last_close_none (s : string) :
  no_close s = true -> to_last_close s = None.
Proof.
  induction s as [|c s IH]; intros H; [reflexivity|].
  simpl in H. apply andb_prop in H as [Hc H]. apply negb_true_iff in Hc.
  simpl. rewrite (IH H), Hc. reflexivity.
Qed.

Lemma to_last_close_tail (body tail : string) :
  no_close tail = true ->
  to_last_close (body ++ String "}" tail) = Some (body ++ "}").
Proof.
  intros H. induction body as [|c body IH].
  - rewrite !append_empty. simpl. rewrite (to_last_close_none tail H).
    reflexivity.
  - rewrite !append_cons. simpl. rewrite IH. reflexivity.
Qed.

Lemma search_braces_in_prose (lead body tail : string) :
  no_open lead = true ->
  no_close tail = true ->
  search_braces (lead ++ String "{" (body ++ "}") ++ tail) =
  Some (String "{" (body ++ "}")).
Proof.
  intros Hlead Htail. unfold search_braces.
  rewrite append_cons, (from_first_open_lead lead _ Hlead).
  rewrite append_assoc.
  change ("}" ++ tail) with (String "}" tail).
  rewrite <- append_cons, (to_last_close_tail (String "{" body) tail Htail).
  reflexivity.
Qed.

Lemma json_dumps_braces (d : dict) (text : string) :
  json_dumps (VDict d) = Some text ->
  exists body, text = String "{" (body ++ "}").
Proof.
  rewrite json_dumps_dict.
  destruct (mapM dump_item _) as [items|]; [|discriminate].
  intros [= <-]. exists (join ", " items). reflexivity.
Qed.

(** X15.  A record written by [json.dumps] and set in prose that has no
    opening brace before it and no closing brace after it is found by
    the judgment interpreter and shown with its own rating, confidence
    and justification, or their defaults where the record lacks them,
    provided the rating is text. *)
Theorem judge_reads_record_in_prose (d : dict) (text lead tail : string) :
  json_dumps (VDict d) = Some text ->
  no_open lead = true ->
  no_close tail = true ->
  is_str (dict_get_or d "rating" (VStr "N/A")) = true ->
  process_judge_output json_loads (JStr (lead ++ text ++ tail)) =
    ShowJudgment
      (dict_get_or d "rating" (VStr "N/A"))
      (dict_get_or d "confidence" (VStr "Medium"))
      (dict_get_or d "justification" (VStr "No justification provided."))
      (VDict d).
Proof.
  intros Hdump Hlead Htail Hrating.
  pose proof (json_loads_dumps _ _ Hdump) as Hload.
  destruct (json_dumps_braces d text Hdump) as [body ->].
  unfold process_judge_output.
  change (judge_output_of (JStr ?s)) with (VStr s).
  cbn [judge_json_of].
  rewrite (search_braces_in_prose lead body tail Hlead Htail), Hload.
  unfold mbind, result_bind, judge_fields. simpl.
  destruct (dict_get_or d "rating" (VStr "N/A")); try discriminate Hrating.
  reflexivity.
Qed.



(** The fragments the requoting turns into a text without single
    quotes: the text itself, and the text with single quotes in place
    of its double quotes. *)
Lemma requoted_fragments (text : string) :
  no_squote text = true ->
  replace_quotes text = text /\
  replace_quotes (single_quoted text) = text.
Proof.
  induction text as [|c text IH]; intros H; [split; reflexivity|].
  simpl in H. apply andb_prop in H as [Hc H]. apply negb_true_iff in Hc.
  destruct (IH H) as [IH1 IH2]. simpl. rewrite Hc, IH1. split; [reflexivity|].
  destruct (Ascii.eqb c dquote) eqn:Hq.
  - apply Ascii.eqb_eq in Hq. subst c. rewrite IH2. reflexivity.
  - rewrite Hc, IH2. reflexivity.
Qed.


End Prose.

Section Displays.

Variable loads : string -> option value.

Lemma judge_fields_cases (v : value) :
  match v with
  | VDict d =>
      if is_str (dict_get_or d "rating" (VStr "N/A")) then
        judge_fields v =
          Ok (dict_get_or d "rating" (VStr "N/A"),
              dict_get_or d "confidence" (VStr "Medium"),
              dict_get_or d "justification" (VStr "No justification provided."))
      else exists msg, judge_fields v = Raise (Exn "AttributeError" msg)
  | _ => exists msg, judge_fields v = Raise (Exn "AttributeError" msg)
  end.
Proof.
  destruct v; try (eexists; reflexivity).
  unfold judge_fields, mbind, result_bind. simpl.
  destruct (dict_get_or d "rating" (VStr "N/A")); simpl;
    try (eexists; reflexivity); reflexivity.
Qed.

Lemma judge_json_of_text (s : string) :
  judge_json_of loads (VStr s) =
    match loads (judged_span s) with
    | Some v => Ok v
    | None => Raise JSONDecodeError
    end.
Proof.
  unfold judged_span. simpl. destruct (search_braces s); reflexivity.
Qed.

Lemma process_judge_output_cases (r : judge_result) :
  process_judge_output loads r =
    match judge_json_of loads (judge_output_of r) with
    | Ok v =>
        match judge_fields v with
        | Ok (rating, confidence, justification) =>
            ShowJudgment rating confidence justification v
        | Raise e => ShowError e
        end
    | Raise _ => ShowRaw (judge_output_of r)
    end.
Proof.
  unfold process_judge_output. cbv zeta.
  destruct (judge_output_of r) as [| | | |s| |] eqn:Hout;
    try (simpl; unfold mbind, result_bind;
         match goal with
         | |- context [judge_fields ?v] =>
             pose proof (judge_fields_cases v) as H; simpl in H
         end;
         first [ rewrite H; reflexivity
               | destruct H as [msg ->]; reflexivity ]).
  - rewrite judge_json_of_text. unfold mbind, result_bind.
    destruct (loads (judged_span s)) as [v|]; [|reflexivity].
    pose proof (judge_fields_cases v) as H.
    destruct v; try (destruct H as [msg ->]; reflexivity).
    destruct (is_str _); [rewrite H; reflexivity|].
    destruct H as [msg ->]. reflexivity.
  - simpl. unfold mbind, result_bind.
    pose proof (judge_fields_cases (VDict d)) as H. cbv beta iota in H.
    destruct (is_str _); [rewrite H; reflexivity|].
    destruct H as [msg ->]. reflexivity.
Qed.

(** X16.  The interpreter shows the raw output, in place of a judgment,
    in one case only: the output is text and the part of it that is
    parsed, the span from the first opening to the last closing brace
    or else the whole text, is not JSON.  What is shown is that text
    unchanged. *)
Theorem raw_output_iff_no_parse (r : judge_result) (shown : value) :
  process_judge_output loads r = ShowRaw shown <->
  exists s,
    judge_output_of r = VStr s /\ shown = VStr s /\
    loads (judged_span s) = None.
Proof.
  rewrite process_judge_output_cases. split.
  - destruct (judge_output_of r) as [| | | |s| |] eqn:Hout;
      try (simpl; destruct (judge_fields _) as [[[? ?] ?]|]; discriminate).
    rewrite judge_json_of_text.
    destruct (loads (judged_span s)) as [v|] eqn:Hv.
    + destruct (judge_fields v) as [[[? ?] ?]|]; discriminate.
    + intros [= <-]. exists s. repeat split; assumption || reflexivity.
  - intros (s & Hout & -> & Hnone).
    rewrite Hout, judge_json_of_text, Hnone. reflexivity.
Qed.

(** X17.  The error box is shown exactly when a value was read, from
    the text or as the output itself, and that value is not a mapping
    or its rating is not text; the exception is then an
    [AttributeError]. *)
Theorem error_box_iff_no_rating (r : judge_result) :
  (exists e, process_judge_output loads r = ShowError e) <->
  exists v,
    judge_json_of loads (judge_output_of r) = Ok v /\
    match v with
    | VDict d => is_str (dict_get_or d "rating" (VStr "N/A")) = false
    | _ => True
    end.
Proof.
  rewrite process_judge_output_cases. split.
  - intros [e H].
    destruct (judge_json_of loads (judge_output_of r)) as [v|]; [|discriminate H].
    exists v. split; [reflexivity|].
    destruct v; try exact I.
    pose proof (judge_fields_cases (VDict d)) as Hf. cbv beta iota in Hf.
    destruct (is_str _); [|reflexivity].
    rewrite Hf in H. discriminate H.
  - intros (v & -> & Hv).
    pose proof (judge_fields_cases v) as Hf.
    destruct v; try (destruct Hf as [msg ->]; eexists; reflexivity).
    rewrite Hv in Hf. destruct Hf as [msg ->]. eexists. reflexivity.
Qed.

(** X18.  An output that is neither text nor a mapping, such as the
    missing output of a list whose first entry has none, is not
    reported as a failure: the interpreter shows a judgment with the
    default rating, confidence and justification. *)
Theorem unparsed_output_shows_defaults (r : judge_result) :
  is_str (judge_output_of r) = false ->
  is_dict (judge_output_of r) = false ->
  process_judge_output loads r =
    ShowJudgment (VStr "N/A") (VStr "Medium")
      (VStr "No justification provided.")
      (VDict {["error" := VStr "Unable to parse output"]}).
Proof.
  intros Hs Hd. rewrite process_judge_output_cases.
  destruct (judge_output_of r); try discriminate Hs; try discriminate Hd;
    reflexivity.
Qed.

End Displays.

Lemma judge_reads_record_in_prose_witness :
  process_judge_output json_loads
    (JStr ("My verdict: "
           ++ dq "{'confidence': 'High', 'rating': 'BUY'}" ++ " Thanks.")) =
  ShowJudgment (VStr "BUY") (VStr "High")
    (VStr "No justification provided.")
    (VDict (dict_of [("rating", VStr "BUY"); ("confidence", VStr "High")])).
Proof.
  apply (judge_reads_record_in_prose
           (dict_of [("rating", VStr "BUY"); ("confidence", VStr "High")])
           (dq "{'confidence': 'High', 'rating': 'BUY'}")
           "My verdict: " " Thanks.").
  - vm_compute. reflexivity.
  - reflexivity.
  - reflexivity.
  - reflexivity.
Defined.

Lemma unparsed_output_shows_defaults_witness :
  process_judge_output json_loads (JList [None; Some (VStr "{}")]) =
    ShowJudgment (VStr "N/A") (VStr "Medium")
      (VStr "No justification provided.")
      (VDict {["error" := VStr "Unable to parse output"]}).
Proof.
  apply (unparsed_output_shows_defaults json_loads); reflexivity.
Defined.


(** ** The report of a run *)

Section Reports.

Variable py_str : value -> string.
Variable c : Collaborators.

Arguments dict_of : simpl never.

(** X20.  The report of a run tells its two outcomes apart by one key:
    it has the key error exactly when a step of the pipeline raised.
    When no step raised it has the nine keys of a full report, with
    the ticker and the configuration as they were passed. *)
Theorem error_key_iff_pipeline_raised (ticker model depth process_type : string)
    (temps : option (gmap string Q)) (investment_style : string)
    (max_rpm : Z) (verbose : bool) :
  let body :=
    analysis_body py_str c ticker model depth process_type
      (match temps with None => default_temps depth | Some t => t end)
      investment_style max_rpm verbose in
  exists report,
    run_company_analysis py_str c ticker model depth process_type temps
      investment_style max_rpm verbose = Ok report /\
    (is_Some (report !! "error") <-> is_ok body = false) /\
    (is_ok body = true ->
     dom report =
       ({["ticker"; "profile_analysis"; "financial_analysis"; "news_analysis";
          "investment_recommendation"; "execution_time"; "token_usage";
          "config"; "raw_outputs"]} : gset string) /\
     report !! "ticker" = Some (VStr ticker) /\
     report !! "config" =
       Some (config_of model depth process_type investment_style)).
Proof.
  intros body. unfold run_company_analysis, try_except. fold body.
  destruct body as [report|e] eqn:Hbody.
  - exists report. split; [reflexivity|].
    assert (Hshape : exists pa fa na jr et tu ro,
      report = dict_of [
        ("ticker", VStr ticker);
        ("profile_analysis", pa);
        ("financial_analysis", fa);
        ("news_analysis", na);
        ("investment_recommendation", jr);
        ("execution_time", et);
        ("token_usage", tu);
        ("config", config_of model depth process_type investment_style);
        ("raw_outputs", ro)]).
    { subst body. unfold analysis_body in Hbody.
      unfold mbind, result_bind in Hbody.
      repeat match type of Hbody with
      | match ?x with _ => _ end = _ =>
          destruct x; try discriminate Hbody
      | (let '(_, _) := ?x in _) = _ => destruct x
      end.
      injection Hbody as <-. repeat eexists. }
    destruct Hshape as (pa & fa & na & jr & et & tu & ro & ->).
    split; [|intros _; split; [|split; reflexivity]].
    + split; [intros [v Hv]; discriminate Hv | discriminate].
    + unfold dict_of. simpl. rewrite !dom_insert_L, dom_empty_L. set_solver.
  - eexists. split; [reflexivity|]. split; [|discriminate].
    split; [reflexivity|]. intros _. eexists. reflexivity.
Qed.

(** X21.  A table of temperatures without the entry of the financial
    analyst makes the run fail at the first agent: once the client and
    its tools are built, the look-up raises [KeyError] and the run
    returns the error report with the message of that exception.  The
    default tables, for either depth, hold the three entries. *)
Theorem missing_temperature_is_reported (ticker model depth process_type : string)
    (temps : gmap string Q) (investment_style : string) (max_rpm : Z)
    (verbose : bool) (fmp_tool : FMPTool) :
  FMPTool_init None (environ_fmp_key c) max_rpm = Ok fmp_tool ->
  make_tools c fmp_tool = Ok tt ->
  temps !! "financial" = None ->
  run_company_analysis py_str c ticker model depth process_type (Some temps)
    investment_style max_rpm verbose =
    Ok (error_report c ticker model depth process_type investment_style
          (Exn "KeyError" "'financial'")) /\
  error_report c ticker model depth process_type investment_style
    (Exn "KeyError" "'financial'") !! "error" =
    Some (VStr "Analysis failed: 'financial'") /\
  forall key, In key ["financial"; "profile"; "news"] ->
    is_ok (subscript (default_temps depth) key) = true.
Proof.
  intros Hinit Htools Hmiss. split; [|split].
  - unfold run_company_analysis, analysis_body, try_except.
    rewrite Hinit. unfold mbind, result_bind. rewrite Htools.
    unfold subscript. rewrite Hmiss. reflexivity.
  - reflexivity.
  - intros key Hkey. unfold default_temps.
    destruct (String.eqb depth "deep");
      repeat (destruct Hkey as [<- | Hkey]; [reflexivity|]);
      destruct Hkey.
Qed.

End Reports.

Lemma missing_temperature_is_reported_witness :
  run_company_analysis str_of smooth_run "AAPL" "gpt-4" "quick" "Sequential"
    (Some (<["news" := (7 # 10)%Q]> ∅)) "Balanced" 10 false =
    Ok (error_report smooth_run "AAPL" "gpt-4" "quick" "Sequential" "Balanced"
          (Exn "KeyError" "'financial'")).
Proof.
  apply (missing_temperature_is_reported str_of smooth_run "AAPL" "gpt-4"
           "quick" "Sequential" (<["news" := (7 # 10)%Q]> ∅) "Balanced" 10
           false
           (mkFMPTool "demo" "https://financialmodelingprep.com/api/v3" 10 []));
    reflexivity.
Defined.

(** ** The short circuits and the burst at concrete inputs *)

Lemma burst_delays_last_call_witness :
  let tool_n := run_tool burst_tool burst_first in
  let woke := woke_at (call_env burst_last) 0 in
  run str_of burst_tool (burst_first ++ [burst_last]) =
    (run str_of burst_tool burst_first ++
     [mkStep tool_n burst_last
        (Ok (interpret str_of (call_endpoint burst_last)
               (resp (call_env burst_last))),
         set_request_times tool_n
           (prune woke (stamps burst_first) ++ [woke])%list,
         [Sleep (60 - (now (call_env burst_last) - 0))%Q;
          request_of tool_n burst_last])])%list
  /\
  Forall (fun s =>
            trace (step_outcome s) = [request_of (step_before s) (step_call s)])
    (run str_of burst_tool burst_first) /\
  request_times tool_n = stamps burst_first /\
  (0 < 60 - (now (call_env burst_last) - 0))%Q /\
  (0 + 60 <= woke)%Q.
Proof.
  exact (burst_delays_last_call str_of burst_tool burst_first burst_last
           0 [1%Q] eq_refl eq_refl eq_refl eq_refl eq_refl eq_refl).
Defined.

Lemma invalid_ticker_short_circuits_witness :
  get_company_profile str_of timed_out (VInt 7) demo_tool =
    (Ok (dict_of [
       ("error", VStr "Invalid ticker symbol");
       ("name", VStr "Unknown");
       ("industry", VStr "Unknown");
       ("sector", VStr "Unknown");
       ("description",
        VStr "Please provide a valid ticker symbol (e.g., AAPL, MSFT)")]),
     demo_tool, []) /\
  get_stock_quote str_of timed_out (VInt 7) demo_tool =
    (Ok (dict_of [("error", VStr "Invalid ticker symbol")]), demo_tool, []) /\
  get_key_financials str_of timed_out timed_out timed_out timed_out (VInt 7)
    demo_tool =
    (Ok (dict_of [("error", VStr "Invalid ticker symbol")]), demo_tool, []) /\
  get_news_sentiment str_of timed_out (VInt 7) demo_tool =
    (Ok (dict_of [("error", VStr "Invalid ticker symbol");
                  ("articles", VList [])]), demo_tool, []).
Proof.
  exact (invalid_ticker_short_circuits str_of demo_tool timed_out timed_out
           timed_out timed_out (VInt 7) eq_refl).
Defined.

Lemma profile_blank_ticker_short_circuits_witness :
  get_company_profile str_of timed_out (VStr "  ") demo_tool =
    (Ok (dict_of [
       ("error", VStr "Empty ticker symbol");
       ("name", VStr "Unknown");
       ("description", VStr "Please provide a valid ticker symbol")]),
     demo_tool, []).
Proof.
  exact (profile_blank_ticker_short_circuits str_of demo_tool timed_out
           (VStr "  ") eq_refl eq_refl).
Defined.

Lemma extract_json_like_mapping_witness :
  exists d,
    extract_json_like json_loads (VStr "see {'a': 1} and more") = Ok (VDict d).
Proof.
  apply (extract_json_like_mapping (VStr "see {'a': 1} and more")).
  intros s v [= <-]. vm_compute. discriminate.
Defined.
